(** * later.py: the registry of saved sessions and the session discoverer

    A shallow embedding of [scripts/later.py] and the properties of its
    registry operations, history correlator, transcript extractor and
    process-list filter.

    Conventions of the embedding.
    - A Python [str] is a [string]; one [ascii] stands for one code point
      below 256.
    - A value obtained from [json.loads] is a [json]; Python's [None] is
      [JNull], a [dict] is the list of its bindings, looked up from the
      front.
    - A line of a [.jsonl] file is the outcome of [json.loads(line.strip())]
      on it, a [loads]: the value returned, [JSONDecodeError], or another
      exception that it raises ([json.loads] is the Python library's, not
      this program's).
    - The files are absent or can be read: [exists], [open] and reading
      the lines raise nothing, except where a definition says so.
    - A Python [float] is a binary64 [spec_float].
    - Functions that can raise return an [outcome]; commands run in the
      state monad [M] over the [world] of files and the standard output. *)

From Stdlib Require Import ZArith List String Ascii Bool Lia.
From Stdlib Require Import Floats.SpecFloat.
From stdpp Require Import base tactics option list strings.

Local Open Scope string_scope.

(** ** Python's string methods *)

Module PyStr.

Definition code (c : ascii) : N := N_of_ascii c.

Definition between (lo hi : N) (c : ascii) : bool :=
  ((lo <=? code c) && (code c <=? hi))%N.

(** [str.isspace] on the code points below 256. *)
Definition isspace (c : ascii) : bool :=
  between 9 13 c || between 28 32 c || (code c =? 133)%N || (code c =? 160)%N.

Definition isdigit (c : ascii) : bool := between 48 57 c.
Definition islower (c : ascii) : bool := between 97 122 c.
Definition isupper (c : ascii) : bool := between 65 90 c.

Definition is_empty (s : string) : bool :=
  match s with EmptyString => true | String _ _ => false end.

Fixpoint map (f : ascii -> ascii) (s : string) : string :=
  match s with
  | EmptyString => EmptyString
  | String c s' => String (f c) (map f s')
  end.

Fixpoint lstrip (s : string) : string :=
  match s with
  | EmptyString => EmptyString
  | String c s' => if isspace c then lstrip s' else s
  end.

Fixpoint rstrip (s : string) : string :=
  match s with
  | EmptyString => EmptyString
  | String c s' =>
      let r := rstrip s' in
      if isspace c && is_empty r then EmptyString else String c r
  end.

(** [s.strip()] *)
Definition strip (s : string) : string := rstrip (lstrip s).

(** [s.startswith(p)] *)
Fixpoint startswith (p s : string) : bool :=
  match p, s with
  | EmptyString, _ => true
  | String a p', String b s' => Ascii.eqb a b && startswith p' s'
  | String _ _, EmptyString => false
  end.

(** [s.endswith(p)] *)
Fixpoint endswith (p s : string) : bool :=
  match s with
  | EmptyString => is_empty p
  | String _ s' => String.eqb p s || endswith p s'
  end.

(** [p in s] *)
Fixpoint contains (p s : string) : bool :=
  startswith p s ||
  match s with
  | EmptyString => false
  | String _ s' => contains p s'
  end.

(** [s.find(p)]: the least index at which [p] occurs in [s]. *)
Fixpoint find (p s : string) : option nat :=
  if startswith p s then Some 0
  else match s with
       | EmptyString => None
       | String _ s' => S <$> find p s'
       end.

(** [s[n:]] and [s[:n]] for [0 <= n]. *)
Fixpoint drop (n : nat) (s : string) : string :=
  match n, s with
  | S n', String _ s' => drop n' s'
  | _, _ => s
  end.

Fixpoint take (n : nat) (s : string) : string :=
  match n, s with
  | S n', String c s' => String c (take n' s')
  | _, _ => EmptyString
  end.

(** [s.split(sep)] for a separator of one character. *)
Fixpoint split_on (sep : ascii) (s : string) : list string :=
  match s with
  | EmptyString => [EmptyString]
  | String c s' =>
      if Ascii.eqb c sep then EmptyString :: split_on sep s'
      else match split_on sep s' with
           | w :: ws => String c w :: ws
           | [] => [String c EmptyString]
           end
  end.

(** [s.split()]: the maximal runs of characters that are not whitespace. *)
Fixpoint split (s : string) : list string :=
  match s with
  | EmptyString => []
  | String c s' =>
      if isspace c then split s'
      else match s' with
           | EmptyString => [String c EmptyString]
           | String c' _ =>
               if isspace c' then String c EmptyString :: split s'
               else match split s' with
                    | w :: ws => String c w :: ws
                    | [] => [String c EmptyString]
                    end
           end
  end.

End PyStr.

(** ** Values read from JSON *)

#[warnings="-register-all"]
Inductive json : Type :=
  | JNull
  | JBool (b : bool)
  | JInt (z : Z)
  | JFloat (f : spec_float)
  | JStr (s : string)
  | JArr (l : list json)
  | JObj (kvs : list (string * json)).

Module PyVal.

(** [v == s] for a string [s]. *)
Definition eq_str (v : json) (s : string) : bool :=
  match v with
  | JStr t => String.eqb t s
  | _ => false
  end.

(** Truth value of [v] in a condition. *)
Definition truthy (v : json) : bool :=
  match v with
  | JNull => false
  | JBool b => b
  | JInt z => negb (z =? 0)%Z
  | JFloat (S754_zero _) => false
  | JFloat _ => true
  | JStr s => negb (PyStr.is_empty s)
  | JArr l => match l with [] => false | _ => true end
  | JObj kvs => match kvs with [] => false | _ => true end
  end.

(** [d[k]] on the bindings of a dict; [None] is [KeyError]. *)
Fixpoint lookup (k : string) (kvs : list (string * json)) : option json :=
  match kvs with
  | [] => None
  | (k', v) :: rest => if String.eqb k' k then Some v else lookup k rest
  end.

(** [d.get(k, dflt)] *)
Definition get (k : string) (dflt : json) (kvs : list (string * json)) : json :=
  default dflt (lookup k kvs).

End PyVal.

(** ** Exceptions and outcomes *)

Inductive exn : Type :=
  KeyError | AttributeError | TypeError | ValueError | RecursionError | OSError.

(** What a function yields: its value or the exception it raises. *)
Inductive result (A : Type) : Type :=
  | Ok (a : A)
  | Err (e : exn).
Arguments Ok {A} a.
Arguments Err {A} e.

#[global] Instance result_ret : MRet result := fun A a => Ok a.

#[global] Instance result_bind : MBind result := fun A B k r =>
  match r with
  | Ok a => k a
  | Err e => Err e
  end.

(** What [json.loads] makes of a line of a log: the value it returns, the
    [json.JSONDecodeError] that the loops catch, or another exception,
    which they catch only where they name it ([ValueError] for an integer
    of more than 4300 digits, [RecursionError] for brackets nested too
    deep). *)
Inductive loads : Type :=
  | Loaded (v : json)
  | DecodeError
  | LoadsRaised (e : exn).

(** What a command does: it returns, leaves through [sys.exit] or raises. *)
Inductive outcome (A : Type) : Type :=
  | Returned (a : A)
  | Exited (code : Z)
  | Raised (e : exn).
Arguments Returned {A} a.
Arguments Exited {A} code.
Arguments Raised {A} e.

(** ** The registry *)

(** A conversation entry with the keys [cmd_save] gives it. The
    description and the first prompt are JSON values: they come from the
    history log, where a display can be a list. [completedAt] is absent
    until [cmd_done] sets it. *)
Record conversation : Type := {
  id : Z;
  sessionId : string;
  project : string;
  description : json;
  firstPrompt : json;
  savedAt : string;
  status : string;
  completedAt : option string
}.

Record registry : Type := { conversations : list conversation }.

(** [next_id]: [max] is taken from the first id on, as the generator
    yields them. *)
Definition next_id (r : registry) : Z :=
  match conversations r with
  | [] => 1
  | c :: cs => fold_left (fun m c' => Z.max m (id c')) cs (id c) + 1
  end%Z.

(** ** Folder names *)

(** The class [[a-zA-Z0-9-]] of the pattern. *)
Definition in_class (c : ascii) : bool :=
  PyStr.islower c || PyStr.isupper c || PyStr.isdigit c || Ascii.eqb c "-".

(** [re.sub(r"[^a-zA-Z0-9-]", "-", cwd)] *)
Definition cwd_to_project_dir (cwd : string) : string :=
  PyStr.map (fun c => if in_class c then c else "-"%char) cwd.

(** ** Files, output and control *)

(** One interpolated f-string: its literal segments and the values it
    formats, in order. *)
Inductive piece : Type :=
  | Lit (s : string)
  | Fmt (v : json).

Record world : Type := {
  registry_file : option registry;          (* [None]: the file is absent *)
  history_file : option (list loads);
  stdout : list (list piece);               (* one element per [print] *)
  registry_writes : nat                     (* calls of [save_registry] *)
}.

Definition M (A : Type) : Type := world -> outcome A * world.

#[global] Instance M_ret : MRet M := fun A a w => (Returned a, w).

#[global] Instance M_bind : MBind M := fun A B k m w =>
  match m w with
  | (Returned a, w') => k a w'
  | (Exited code, w') => (Exited code, w')
  | (Raised e, w') => (Raised e, w')
  end.

Definition sys_exit {A} (code : Z) : M A := fun w => (Exited code, w).

Definition lift {A} (r : result A) : M A :=
  fun w =>
    match r with
    | Ok a => (Returned a, w)
    | Err e => (Raised e, w)
    end.

Definition print (line : list piece) : M unit :=
  fun w =>
    (Returned tt,
     {| registry_file := registry_file w;
        history_file := history_file w;
        stdout := stdout w ++ [line];
        registry_writes := registry_writes w |}).

Definition load_registry : M registry :=
  fun w =>
    (Returned (default {| conversations := [] |} (registry_file w)), w).

Definition save_registry (r : registry) : M unit :=
  fun w =>
    (Returned tt,
     {| registry_file := Some r;
        history_file := history_file w;
        stdout := stdout w;
        registry_writes := S (registry_writes w) |}).

(** ** First prompt of a session *)

(** [v[:120]]: strings and lists have slices, the other values raise
    ([TypeError]; for a dict, [KeyError] on recent interpreters). *)
Definition slice_120 (v : json) : result json :=
  match v with
  | JStr s => Ok (JStr (PyStr.take 120 s))
  | JArr l => Ok (JArr (take 120 l))
  | _ => Err TypeError
  end.

Fixpoint first_prompt_in (session_id : string) (lines : list loads)
  : result json :=
  match lines with
  | [] => Ok JNull
  | DecodeError :: rest => first_prompt_in session_id rest
  | LoadsRaised e :: _ => Err e
  | Loaded (JObj entry) :: rest =>
      if PyVal.eq_str (PyVal.get "sessionId" JNull entry) session_id
      then slice_120 (PyVal.get "display" (JStr "") entry)
      else first_prompt_in session_id rest
  | Loaded _ :: _ => Err AttributeError
  end.

Definition get_first_prompt (session_id : string) : M json :=
  fun w =>
    match history_file w with
    | None => (Returned JNull, w)
    | Some lines => lift (first_prompt_in session_id lines) w
    end.

(** ** Commands *)

Record save_args : Type := {
  arg_session_id : string;
  arg_project : string;
  arg_description : option string   (* [None]: the flag was not given *)
}.

Definition set_status (st : string) (c : conversation) : conversation :=
  {| id := id c; sessionId := sessionId c; project := project c;
     description := description c; firstPrompt := firstPrompt c;
     savedAt := savedAt c; status := st; completedAt := completedAt c |}.

Definition set_savedAt (t : string) (c : conversation) : conversation :=
  {| id := id c; sessionId := sessionId c; project := project c;
     description := description c; firstPrompt := firstPrompt c;
     savedAt := t; status := status c; completedAt := completedAt c |}.

Definition set_description (d : json) (c : conversation) : conversation :=
  {| id := id c; sessionId := sessionId c; project := project c;
     description := d; firstPrompt := firstPrompt c;
     savedAt := savedAt c; status := status c; completedAt := completedAt c |}.

Definition set_completedAt (t : string) (c : conversation) : conversation :=
  {| id := id c; sessionId := sessionId c; project := project c;
     description := description c; firstPrompt := firstPrompt c;
     savedAt := savedAt c; status := status c; completedAt := Some t |}.

(** [args.description] as a condition: given and not empty. *)
Definition given (d : option string) : option string :=
  match d with
  | Some s => if PyStr.is_empty s then None else Some s
  | None => None
  end.

(** [cmd_save]; [now] is [datetime.now().isoformat()]. The loop stops at
    the first conversation of the session; assigning to its keys updates
    the registry's list at that index. *)
Definition cmd_save (args : save_args) (now : string) : M unit :=
  registry ← load_registry;
  match list_find (fun c => sessionId c = arg_session_id args)
                  (conversations registry) with
  | Some (i, c) =>
      if decide (status c = "active") then
        print [Lit "Session already saved as #"; Fmt (JInt (id c));
               Lit ": "; Fmt (description c)] ;;
        sys_exit 0
      else
        let c1 := set_savedAt now (set_status "active" c) in
        let c2 := match given (arg_description args) with
                  | Some d => set_description (JStr d) c1
                  | None => c1
                  end in
        save_registry {| conversations := <[i := c2]> (conversations registry) |} ;;
        print [Lit "Reactivated #"; Fmt (JInt (id c2));
               Lit ": "; Fmt (description c2)] ;;
        print [Lit "  Session: "; Fmt (JStr (arg_session_id args))] ;;
        print [Lit (String "010" "Resume later with: claude --resume ");
               Fmt (JStr (arg_session_id args))] ;;
        mret tt
  | None =>
      first_prompt ← get_first_prompt (arg_session_id args);
      let description :=
        match given (arg_description args) with
        | Some d => JStr d
        | None => if PyVal.truthy first_prompt then first_prompt
                  else JStr "No description"
        end in
      let entry :=
        {| id := next_id registry;
           sessionId := arg_session_id args;
           project := arg_project args;
           description := description;
           firstPrompt := first_prompt;
           savedAt := now;
           status := "active";
           completedAt := None |} in
      save_registry {| conversations := conversations registry ++ [entry] |} ;;
      print [Lit "Saved as #"; Fmt (JInt (id entry)); Lit ": "; Fmt description] ;;
      print [Lit "  Session: "; Fmt (JStr (arg_session_id args))] ;;
      print [Lit "  Project: "; Fmt (JStr (arg_project args))] ;;
      print [Lit (String "010" "Resume later with: claude --resume ");
             Fmt (JStr (arg_session_id args))] ;;
      mret tt
  end.

(** [cmd_done] *)
Definition cmd_done (arg_id : Z) (now : string) : M unit :=
  registry ← load_registry;
  match list_find (fun c => id c = arg_id) (conversations registry) with
  | Some (i, c) =>
      let c' := set_completedAt now (set_status "done" c) in
      save_registry {| conversations := <[i := c']> (conversations registry) |} ;;
      print [Lit "Marked #"; Fmt (JInt arg_id); Lit " as done: ";
             Fmt (description c')] ;;
      mret tt
  | None =>
      print [Lit "No conversation found with ID #"; Fmt (JInt arg_id)] ;;
      sys_exit 1
  end.

(** [cmd_remove] *)
Definition cmd_remove (arg_id : Z) : M unit :=
  registry ← load_registry;
  match list_find (fun c => id c = arg_id) (conversations registry) with
  | Some (i, c) =>
      let c' := set_status "removed" c in
      save_registry {| conversations := <[i := c']> (conversations registry) |} ;;
      print [Lit "Removed #"; Fmt (JInt arg_id); Lit ": ";
             Fmt (description c')] ;;
      mret tt
  | None =>
      print [Lit "No conversation found with ID #"; Fmt (JInt arg_id)] ;;
      sys_exit 1
  end.

(** ** History correlator *)

(** The loop of [find_session_id_for_cwd]; [best] is the session id of the
    last match so far. *)
Fixpoint scan_history (cwd : string) (best : json) (lines : list loads)
  : result json :=
  match lines with
  | [] => Ok best
  | DecodeError :: rest => scan_history cwd best rest
  | LoadsRaised e :: _ => Err e
  | Loaded (JObj entry) :: rest =>
      if PyVal.eq_str (PyVal.get "project" (JStr "") entry) cwd
      then scan_history cwd (PyVal.get "sessionId" JNull entry) rest
      else scan_history cwd best rest
  | Loaded _ :: _ => Err AttributeError
  end.

Definition find_session_id_for_cwd (cwd : string) : M json :=
  fun w =>
    match history_file w with
    | None => (Returned JNull, w)
    | Some lines => lift (scan_history cwd JNull lines) w
    end.

(** ** Text of a user message *)

(** [re.sub(opn + ".*?" + cls, "", s, flags=re.DOTALL)] for literal [opn]
    and [cls], [opn] not empty: scanning from the left, a match starts where [opn] occurs
    and some [cls] follows it, and ends with the first such [cls]; the scan
    resumes behind the match. [skip] counts the characters of the current
    match still to be dropped. *)
Fixpoint sub_between (opn cls : string) (skip : nat) (s : string) : string :=
  match s with
  | EmptyString => EmptyString
  | String c s' =>
      match skip with
      | S k => sub_between opn cls k s'
      | O =>
          if PyStr.startswith opn s then
            match PyStr.find cls (PyStr.drop (String.length opn) s) with
            | Some j =>
                sub_between opn cls
                  (Nat.pred (String.length opn + j + String.length cls)) s'
            | None => String c (sub_between opn cls O s')
            end
          else String c (sub_between opn cls O s')
      end
  end.

Definition strip_reminders (text : string) : string :=
  sub_between "<system-reminder>" "</system-reminder>" 0 text.

(** [text.startswith("<local-command") or text.startswith("<command-")] *)
Definition is_command_marker (text : string) : bool :=
  PyStr.startswith "<local-command" text || PyStr.startswith "<command-" text.

(** The statements both branches of [_extract_user_text] run on a string
    [raw]: [None] when the condition fails and control goes on, [Some r]
    when [r] is returned. *)
Definition accept_text (raw : string) : option (option string) :=
  let text := PyStr.strip raw in
  if negb (PyStr.is_empty text) && negb (is_command_marker text) then
    let text := PyStr.strip (strip_reminders text) in
    Some (if PyStr.is_empty text then None else Some text)
  else None.

(** The loop over the blocks of a list content. *)
Fixpoint first_text_block (content : list json) : result (option string) :=
  match content with
  | [] => Ok None
  | JObj c :: rest =>
      if PyVal.eq_str (PyVal.get "type" JNull c) "text" then
        match PyVal.lookup "text" c with
        | None => Err KeyError
        | Some (JStr raw) =>
            match accept_text raw with
            | Some r => Ok r
            | None => first_text_block rest
            end
        | Some _ => Err AttributeError
        end
      else first_text_block rest
  | _ :: rest => first_text_block rest
  end.

(** [content] of the entry [d]: of its message if that is a dict, else of
    [d] itself. *)
Definition user_content (d : list (string * json)) : json :=
  match PyVal.get "message" (JObj []) d with
  | JObj msg => PyVal.get "content" (JStr "") msg
  | _ => PyVal.get "content" (JStr "") d
  end.

(** [_extract_user_text] *)
Definition _extract_user_text (d : list (string * json)) : result (option string) :=
  match user_content d with
  | JStr s => Ok (default None (accept_text s))
  | JArr l => first_text_block l
  | _ => Ok None
  end.

(** ** Session context *)

(** The state of the loop over the tail of the transcript. *)
Record scan : Type := {
  last_user : option string;
  last_assistant : option string;
  recent_tools : list json;
  last_tool_name : json
}.

Record context : Type := {
  ctx_firstPrompt : option string;
  lastUserMessage : option string;
  lastAssistantResponse : option string;
  recentTools : list json;
  lastTool : json
}.

(** [lines[-n:]] *)
Definition tail_slice {A} (n : Z) (lines : list A) : list A :=
  if (0 <? n)%Z then drop (length lines - Z.to_nat n) lines
  else drop (Z.to_nat (- n)) lines.

(** A string or [None] as a condition. *)
Definition text_truthy (t : option string) : bool :=
  match t with
  | Some s => negb (PyStr.is_empty s)
  | None => false
  end.

(** The first loop, over [lines[:30]]; [KeyError] is caught and the line
    skipped, wherever in the body it is raised. *)
Fixpoint first_user_loop (first_user : option string) (lines : list loads)
  : result (option string) :=
  match lines with
  | [] => Ok first_user
  | line :: rest =>
      if text_truthy first_user then Ok first_user
      else
        match line with
        | DecodeError => first_user_loop first_user rest
        | LoadsRaised KeyError => first_user_loop first_user rest
        | LoadsRaised e => Err e
        | Loaded (JObj d) =>
            if PyVal.eq_str (PyVal.get "type" JNull d) "user" then
              match _extract_user_text d with
              | Ok (Some text) =>
                  if PyStr.is_empty text then first_user_loop first_user rest
                  else first_user_loop (Some (PyStr.take 200 text)) rest
              | Ok None => first_user_loop first_user rest
              | Err KeyError => first_user_loop first_user rest
              | Err e => Err e
              end
            else first_user_loop first_user rest
        | Loaded _ => Err AttributeError
        end
  end.

(** The two conditionals on one content block [c] of an assistant message. *)
Definition assistant_block (st : scan) (c : list (string * json)) : scan * option exn :=
  let is_text := PyVal.eq_str (PyVal.get "type" JNull c) "text" in
  let is_tool := PyVal.eq_str (PyVal.get "type" JNull c) "tool_use" in
  let tool (st : scan) : scan :=
    if is_tool then
      let name := PyVal.get "name" (JStr "") c in
      {| last_user := last_user st; last_assistant := last_assistant st;
         recent_tools := recent_tools st ++ [name]; last_tool_name := name |}
    else st in
  if is_text then
    match PyVal.lookup "text" c with
    | None => (st, Some KeyError)
    | Some (JStr raw) =>
        if PyStr.is_empty (PyStr.strip raw) then (tool st, None)
        else
          (tool {| last_user := last_user st;
                   last_assistant := Some (PyStr.strip raw);
                   recent_tools := recent_tools st;
                   last_tool_name := last_tool_name st |}, None)
    | Some _ => (st, Some AttributeError)
    end
  else (tool st, None).

(** The loop over the content blocks: the state reached and the exception
    that ended the loop, if any. *)
Fixpoint assistant_blocks (st : scan) (content : list json) : scan * option exn :=
  match content with
  | [] => (st, None)
  | JObj c :: rest =>
      match assistant_block st c with
      | (st', None) => assistant_blocks st' rest
      | (st', Some e) => (st', Some e)
      end
  | _ :: rest => assistant_blocks st rest
  end.

(** [content] of the assistant entry [d]: of its message if that is a
    dict, else the empty list. *)
Definition assistant_content (d : list (string * json)) : json :=
  match PyVal.get "message" (JObj []) d with
  | JObj msg => PyVal.get "content" (JArr []) msg
  | _ => JArr []
  end.

(** The body of the second loop on one line: the state after it, and the
    exception that leaves the function, if any. What the body assigned
    before a caught [KeyError] stays assigned. *)
Definition tail_line (st : scan) (line : loads) : scan * option exn :=
  match line with
  | DecodeError => (st, None)
  | LoadsRaised KeyError => (st, None)
  | LoadsRaised e => (st, Some e)
  | Loaded (JObj d) =>
      let t := PyVal.get "type" (JStr "") d in
      let after_user : result scan :=
        if PyVal.eq_str t "user" then
          match _extract_user_text d with
          | Ok (Some text) =>
              if PyStr.is_empty text then Ok st
              else Ok {| last_user := Some (PyStr.take 200 text);
                         last_assistant := last_assistant st;
                         recent_tools := recent_tools st;
                         last_tool_name := last_tool_name st |}
          | Ok None => Ok st
          | Err e => Err e
          end
        else Ok st in
      match after_user with
      | Err KeyError => (st, None)
      | Err e => (st, Some e)
      | Ok st1 =>
          if PyVal.eq_str t "assistant" then
            match assistant_content d with
            | JArr l =>
                match assistant_blocks st1 l with
                | (st2, Some KeyError) => (st2, None)
                | r => r
                end
            | _ => (st1, None)
            end
          else (st1, None)
      end
  | Loaded _ => (st, Some AttributeError)
  end.

Fixpoint tail_loop (st : scan) (lines : list loads) : result scan :=
  match lines with
  | [] => Ok st
  | line :: rest =>
      match tail_line st line with
      | (st', None) => tail_loop st' rest
      | (_, Some e) => Err e
      end
  end.

(** [extract_session_context]; [session_file] is [None] when there is no
    file or it cannot be read, and the result [None] is the empty dict. *)
Definition extract_session_context
    (session_file : option (list loads)) (max_tail_lines : Z)
  : result (option context) :=
  match session_file with
  | None => Ok None
  | Some lines =>
      first_user ← first_user_loop None (take 30 lines);
      st ← tail_loop {| last_user := None; last_assistant := None;
                        recent_tools := []; last_tool_name := JNull |}
                     (tail_slice max_tail_lines lines);
      Ok (Some {| ctx_firstPrompt := first_user;
                  lastUserMessage := last_user st;
                  lastAssistantResponse := PyStr.take 400 <$> last_assistant st;
                  recentTools := tail_slice 5 (recent_tools st);
                  lastTool := last_tool_name st |})
  end.

(** ** Numbers in the process list *)

Module PyNum.

Local Open Scope Z_scope.

(** The white space that [int] and [float] skip around a number: the
    ASCII white space and, of the code points above 127, those that
    [str.isspace] holds of. The separators 28 to 31, which [str.strip]
    strips, are not among it. *)
Definition isspace (c : ascii) : bool :=
  PyStr.between 9 13 c || (PyStr.code c =? 32)%N ||
  (PyStr.code c =? 133)%N || (PyStr.code c =? 160)%N.

Fixpoint lstrip (s : string) : string :=
  match s with
  | EmptyString => EmptyString
  | String c s' => if isspace c then lstrip s' else s
  end.

Fixpoint rstrip (s : string) : string :=
  match s with
  | EmptyString => EmptyString
  | String c s' =>
      let r := rstrip s' in
      if isspace c && PyStr.is_empty r then EmptyString else String c r
  end.

Definition strip (s : string) : string := rstrip (lstrip s).

Definition digit (c : ascii) : Z := Z.of_N (PyStr.code c) - 48.

(** The value of a string of decimal digits, read after [acc]. *)
Fixpoint digits_value (acc : Z) (s : string) : Z :=
  match s with
  | EmptyString => acc
  | String c s' => digits_value (10 * acc + digit c) s'
  end.

(** The longest prefix of decimal digits, and the rest. *)
Fixpoint span_digits (s : string) : string * string :=
  match s with
  | EmptyString => (EmptyString, EmptyString)
  | String c s' =>
      if PyStr.isdigit c then
        let '(ds, rest) := span_digits s' in (String c ds, rest)
      else (EmptyString, s)
  end.

(** Underscores in a numeric literal: each stands between two digits;
    they are removed. [prev] is the character before [s]. *)
Fixpoint drop_underscores (prev : ascii) (s : string) : option string :=
  match s with
  | EmptyString => if Ascii.eqb prev "_" then None else Some EmptyString
  | String c s' =>
      if Ascii.eqb c "_" then
        if PyStr.isdigit prev then drop_underscores c s' else None
      else if Ascii.eqb prev "_" && negb (PyStr.isdigit c) then None
      else String c <$> drop_underscores c s'
  end.

(** An optional sign: whether it is [-], and the rest. *)
Definition sign (s : string) : bool * string :=
  match s with
  | String "-" s' => (true, s')
  | String "+" s' => (false, s')
  | _ => (false, s)
  end.

(** The most digits [int] reads from a string:
    [sys.get_int_max_str_digits()], which the script leaves at its
    default. *)
Definition max_str_digits : Z := 4300.

(** [int(s)]; [None] is [ValueError], which is also raised on more than
    [max_str_digits] digits; sign, underscores and the white space around
    are not counted, leading zeros are. *)
Definition int_of_string (s : string) : option Z :=
  s ← drop_underscores "000" (strip s);
  let '(neg, body) := sign s in
  let '(ds, rest) := span_digits body in
  if PyStr.is_empty ds || negb (PyStr.is_empty rest) then None
  else if max_str_digits <? Z.of_nat (String.length ds) then None
  else Some (if neg then - digits_value 0 ds else digits_value 0 ds).

(** The binary64 nearest to [(-1)^neg * m * 10^e], ties to even, for
    [0 <= m]. *)
Definition binary64_of_decimal (neg : bool) (m e : Z) : spec_float :=
  if m =? 0 then S754_zero neg
  else if 0 <=? e then
    binary_normalize 53 1024 ((if neg then - m else m) * 10 ^ e) 0 false
  else
    let '(q, e', l) := SFdiv_core_binary 53 1024 m 0 (10 ^ (- e)) 0 in
    binary_round_aux 53 1024 neg q e' l.

Definition lower (c : ascii) : ascii :=
  if PyStr.isupper c then ascii_of_N (PyStr.code c + 32) else c.

(** The exponent part of a float literal: empty, or [e] or [E], an
    optional sign and digits. *)
Definition exponent (s : string) : option Z :=
  match s with
  | EmptyString => Some 0
  | String c s' =>
      if Ascii.eqb (lower c) "e" then
        let '(neg, body) := sign s' in
        let '(ds, rest) := span_digits body in
        if PyStr.is_empty ds || negb (PyStr.is_empty rest) then None
        else Some (if neg then - digits_value 0 ds else digits_value 0 ds)
      else None
  end.

(** [float(s)]; [None] is [ValueError]. *)
Definition float_of_string (s : string) : option spec_float :=
  s ← drop_underscores "000" (strip s);
  let '(neg, body) := sign s in
  let name := PyStr.map lower body in
  if String.eqb name "inf" || String.eqb name "infinity" then
    Some (S754_infinity neg)
  else if String.eqb name "nan" then Some S754_nan
  else
    let '(ip, rest) := span_digits body in
    let '(fp, rest) :=
      match rest with
      | String "." rest' => span_digits rest'
      | _ => (EmptyString, rest)
      end in
    if PyStr.is_empty ip && PyStr.is_empty fp then None
    else
      e ← exponent rest;
      Some (binary64_of_decimal neg (digits_value 0 (ip ++ fp))
              (e - Z.of_nat (String.length fp))).

(** [x < y] on floats. *)
Definition lt (x y : spec_float) : bool := SFltb x y.

(** The floats [0.0] and [1.0]. *)
Definition zero : spec_float := S754_zero false.
Definition one : spec_float := S754_finite false 4503599627370496 (-52).

End PyNum.

(** ** Process discovery: the candidate list *)

Definition candidate : Type := Z * spec_float * string.  (* pid, cpu, started *)

(** The body of the loop over the lines of [ps aux] in
    [get_active_claude_sessions]: [Ok None] when the line adds nothing,
    [Ok (Some t)] when [t] is appended to [claude_pids]; [int(pid)] can
    raise. *)
Definition ps_line (line : string) : result (option candidate) :=
  let parts := PyStr.split line in
  if (length parts <? 11)%nat then Ok None
  else
    let comm := nth 10 parts "" in
    let pid := nth 1 parts "" in
    let tty := nth 6 parts "" in
    let cpu := nth 2 parts "" in
    if PyStr.endswith "/claude" comm || String.eqb comm "claude" then
      if PyStr.startswith "s0" tty && PyStr.contains "+" (nth 7 parts "") then
        let cpu_val := default PyNum.zero (PyNum.float_of_string cpu) in
        if PyNum.lt cpu_val PyNum.one then Ok None
        else
          match PyNum.int_of_string pid with
          | Some p => Ok (Some (p, cpu_val, nth 8 parts ""))
          | None => Err ValueError
          end
      else Ok None
    else Ok None.

Fixpoint ps_lines (claude_pids : list candidate) (lines : list string)
  : result (list candidate) :=
  match lines with
  | [] => Ok claude_pids
  | line :: rest =>
      match ps_line line with
      | Ok None => ps_lines claude_pids rest
      | Ok (Some t) => ps_lines (claude_pids ++ [t]) rest
      | Err e => Err e
      end
  end.

(** [claude_pids] as [get_active_claude_sessions] has it after its first
    loop, from the standard output of [ps aux]. *)
Definition claude_pids (ps_stdout : string) : result (list candidate) :=
  ps_lines [] (PyStr.split_on "010" (PyStr.strip ps_stdout)).

(** ** Session files *)

(** A file of a project folder with its modification time
    ([f.stat().st_mtime], a float). *)
Definition jsonl_file : Type := string * spec_float.

(** A file as [glob] lists it: its path and what [f.stat()] gives for it,
    the modification time or the exception it raises (an [OSError] for a
    link whose target is gone). *)
Definition listed_file : Type := string * result spec_float.

(** The keys of [max]: it calls [f.stat()] on the files in the order of
    the list, and the first call that raises ends it. *)
Fixpoint stat_all (files : list listed_file) : result (list jsonl_file) :=
  match files with
  | [] => Ok []
  | (path, Ok mtime) :: rest => l ← stat_all rest; Ok ((path, mtime) :: l)
  | (_, Err e) :: _ => Err e
  end.

(** [max(files, key=...)] from the file [best] on: a file takes the place
    of the best so far when its time is greater. *)
Fixpoint newest (best : jsonl_file) (files : list jsonl_file) : jsonl_file :=
  match files with
  | [] => best
  | f :: rest => if SFltb (snd best) (snd f) then newest f rest else newest best rest
  end.

(** [find_session_file]; [project_dirs name] is [Err e] when
    [project_dir.exists()] or the [glob] raises [e] (an [OSError] for a
    folder name of more than 255 bytes), [Ok None] when the projects
    directory has no folder [name], and else what [glob("*.jsonl")] lists
    in it, in the order it lists it. *)
Definition find_session_file
    (project_dirs : string -> result (option (list listed_file)))
    (cwd : string) : result (option string) :=
  match project_dirs (cwd_to_project_dir cwd) with
  | Err e => Err e
  | Ok None => Ok None
  | Ok (Some files) =>
      l ← stat_all files;
      match l with
      | [] => Ok None
      | f :: rest => Ok (Some (fst (newest f rest)))
      end
  end.

(** ** Process discovery: the sessions *)

(** What the discoverer reads of the machine: the standard output of
    [ps aux] and of [lsof -a -p pid -d cwd] ([None] when running them
    raises), the project folders as [find_session_file] sees them, and
    the lines of the transcripts ([None] for a file that is not there or
    cannot be read). *)
Record machine : Type := {
  ps_aux : option string;
  lsof_cwd : Z -> option string;
  project_dirs : string -> result (option (list listed_file));
  read_lines : string -> option (list loads)
}.

Record session : Type := {
  s_pid : Z;
  s_cpu : spec_float;
  s_started : string;
  s_cwd : string;
  s_projectShort : string;
  s_sessionId : json;
  s_context : option context     (* [None]: the empty dict *)
}.

(** [s.rsplit(sep, 1)[-1]]: what stands behind the last [sep] of [s], all
    of [s] if it has none. *)
Fixpoint rsplit_last (sep : ascii) (s : string) : string :=
  match s with
  | EmptyString => EmptyString
  | String c s' =>
      if PyStr.contains (String sep EmptyString) s' then rsplit_last sep s'
      else if Ascii.eqb c sep then s' else s
  end.

(** [path.rsplit("/", 1)[-1] if "/" in path else path] *)
Definition short_name (path : string) : string :=
  if PyStr.contains "/" path then rsplit_last "/" path else path.

(** The working directory in the output of [lsof]: the last word of the
    last line; [None] when [lsof] raised, when the output is blank, or
    when an index is out of range, which the [except] catches. *)
Definition cwd_of_lsof (out : option string) : option string :=
  match out with
  | None => None
  | Some stdout =>
      match last (PyStr.split_on "010" (PyStr.strip stdout)) with
      | None => None
      | Some cwd_line =>
          if PyStr.is_empty cwd_line then None else last (PyStr.split cwd_line)
      end
  end.

(** [exclude_pid and pid == exclude_pid] *)
Definition excluded (exclude_pid : option Z) (pid : Z) : bool :=
  match exclude_pid with
  | Some z => negb (z =? 0)%Z && (pid =? z)%Z
  | None => false
  end.

(** The body of the loop over [claude_pids]: [None] when the process is
    passed over, the session appended else. *)
Definition session_of (m : machine) (exclude_pid : option Z) (t : candidate)
  : M (option session) :=
  let '(pid, cpu, started) := t in
  if excluded exclude_pid pid then mret None
  else
    match cwd_of_lsof (lsof_cwd m pid) with
    | None => mret None
    | Some cwd =>
        if PyStr.is_empty cwd || negb (PyStr.startswith "/" cwd) then mret None
        else
          session_id ← find_session_id_for_cwd cwd;
          session_file ← lift (find_session_file (project_dirs m) cwd);
          context ← match session_file with
                    | Some f => lift (extract_session_context (read_lines m f) 80)
                    | None => mret None
                    end;
          mret (Some {| s_pid := pid; s_cpu := cpu; s_started := started;
                        s_cwd := cwd; s_projectShort := short_name cwd;
                        s_sessionId := session_id; s_context := context |})
    end.

Fixpoint sessions_loop (m : machine) (exclude_pid : option Z)
    (sessions : list session) (pids : list candidate) : M (list session) :=
  match pids with
  | [] => mret sessions
  | t :: rest =>
      s ← session_of m exclude_pid t;
      match s with
      | Some s => sessions_loop m exclude_pid (sessions ++ [s]) rest
      | None => sessions_loop m exclude_pid sessions rest
      end
  end.

(** [get_active_claude_sessions] *)
Definition get_active_claude_sessions (m : machine) (exclude_pid : option Z)
  : M (list session) :=
  match ps_aux m with
  | None => mret []
  | Some stdout =>
      pids ← lift (claude_pids stdout);
      sessions_loop m exclude_pid [] pids
  end.

(** ** Listing *)

(** [for x in l: f(x)] *)
Fixpoint for_each {A} (f : A -> M unit) (l : list A) : M unit :=
  match l with
  | [] => mret tt
  | x :: rest => f x ;; for_each f rest
  end.

(** [if b: m] *)
Definition when (b : bool) (m : M unit) : M unit := if b then m else mret tt.

(** A list as a condition. *)
Definition any {A} (l : list A) : bool :=
  match l with [] => false | _ => true end.

(** The four lines of an active conversation; [saved_date s] is
    [datetime.fromisoformat(s).strftime("%d %b %Y %H:%M")]. *)
Definition print_active (saved_date : string -> result string) (c : conversation)
  : M unit :=
  date ← lift (saved_date (savedAt c));
  let project_short := short_name (project c) in
  print [Lit "  #"; Fmt (JInt (id c)); Lit "  "; Fmt (description c)] ;;
  print [Lit "      Project: "; Fmt (JStr project_short);
         Lit "  |  Saved: "; Fmt (JStr date)] ;;
  print [Lit "      Resume: claude --resume "; Fmt (JStr (sessionId c))] ;;
  print [].

(** The two lines of a conversation that is done or removed. *)
Definition print_closed (label : string) (c : conversation) : M unit :=
  print [Lit "  #"; Fmt (JInt (id c)); Lit "  "; Fmt (description c); Lit label] ;;
  print [].

(** [cmd_list]; [all] is [args.all]. *)
Definition cmd_list (saved_date : string -> result string) (all : bool) : M unit :=
  registry ← load_registry;
  let conversations :=
    if all then conversations registry
    else filter (fun c => status c = "active") (conversations registry) in
  if negb (any conversations) then
    print [Lit "No saved conversations."] ;;
    when (negb all) (print [Lit "(Use --all to include completed/removed ones)"]) ;;
    sys_exit 0
  else
    let active := filter (fun c => status c = "active") conversations in
    let done := filter (fun c => status c = "done") conversations in
    let removed := filter (fun c => status c = "removed") conversations in
    when (any active)
      (print [Lit (String.append "## Active" (String "010" EmptyString))] ;;
       for_each (print_active saved_date) active) ;;
    when (all && any done)
      (print [Lit (String.append "## Completed" (String "010" EmptyString))] ;;
       for_each (print_closed " (done)") done) ;;
    when (all && any removed)
      (print [Lit (String.append "## Removed" (String "010" EmptyString))] ;;
       for_each (print_closed " (removed)") removed).

(** ** Vocabulary of the statements *)

(** The registry a command loads from the world. *)
Definition loaded (w : world) : registry :=
  default {| conversations := [] |} (registry_file w).

(** [c], at index [i], is the first conversation of session [sid]. *)
Definition first_of_session (sid : string) (convs : list conversation)
    (i : nat) (c : conversation) : Prop :=
  convs !! i = Some c /\ sessionId c = sid /\
  forall j c', convs !! j = Some c' -> (j < i)%nat -> sessionId c' <> sid.

(** The world after one more line on the standard output. *)
Definition printed (line : list piece) (w : world) : world :=
  {| registry_file := registry_file w;
     history_file := history_file w;
     stdout := stdout w ++ [line];
     registry_writes := registry_writes w |}.

(** The world after the registry file was written once with [r]. *)
Definition written (r : registry) (w : world) : world :=
  {| registry_file := Some r;
     history_file := history_file w;
     stdout := stdout w;
     registry_writes := S (registry_writes w) |}.

(** A conversation for the examples. *)
Definition example_conversation (i : Z) (sid st : string) : conversation :=
  {| id := i; sessionId := sid; project := "/p"; description := JStr "x";
     firstPrompt := JNull; savedAt := "2025-01-01T10:00:00"; status := st;
     completedAt := None |}.

(** The world in which the registry file holds [convs], the history log
    [history], and nothing was printed or written yet. *)
Definition example_world (convs : list conversation)
    (history : option (list loads)) : world :=
  {| registry_file := Some {| conversations := convs |};
     history_file := history; stdout := []; registry_writes := 0 |}.

Definition example_args (sid : string) (d : option string) : save_args :=
  {| arg_session_id := sid; arg_project := "/p"; arg_description := d |}.

(** What [cmd_save] makes of the conversation [c] it reactivates. *)
Definition reactivated (args : save_args) (now : string) (c : conversation)
  : conversation :=
  {| id := id c; sessionId := sessionId c; project := project c;
     description := match given (arg_description args) with
                    | Some d => JStr d
                    | None => description c
                    end;
     firstPrompt := firstPrompt c; savedAt := now; status := "active";
     completedAt := completedAt c |}.

(** The conversation [cmd_save] appends for a new session whose first
    prompt in the history is [fp]. *)
Definition new_entry (args : save_args) (now : string) (fp : json) (r : registry)
  : conversation :=
  {| id := next_id r; sessionId := arg_session_id args;
     project := arg_project args;
     description := match given (arg_description args) with
                    | Some d => JStr d
                    | None => if PyVal.truthy fp then fp else JStr "No description"
                    end;
     firstPrompt := fp; savedAt := now; status := "active";
     completedAt := None |}.

(** A history log: two entries of [/p], one of [/q], a line that is not
    JSON and an entry without project or session. *)
Definition example_history : list loads :=
  [Loaded (JObj [("sessionId", JStr "S1"); ("project", JStr "/p")]);
   DecodeError;
   Loaded (JObj [("sessionId", JStr "S2"); ("project", JStr "/q")]);
   Loaded (JObj [("sessionId", JStr "S3"); ("project", JStr "/p")]);
   Loaded (JObj [("display", JStr "hello")])].

(** A line of the history log as the assistant writes them: it is not
    JSON ([json.loads] raises [JSONDecodeError]), or it holds an object
    whose display, if any, is a string. *)
Definition history_line (line : loads) : Prop :=
  match line with
  | DecodeError => True
  | Loaded (JObj e) =>
      match PyVal.lookup "display" e with
      | None | Some (JStr _) => True
      | Some _ => False
      end
  | _ => False
  end.

(** A line of the history log that is not JSON ([json.loads] raises
    [JSONDecodeError]) or holds a JSON object. *)
Definition object_or_unparseable (line : loads) : Prop :=
  match line with
  | DecodeError | Loaded (JObj _) => True
  | _ => False
  end.

(** The line is not JSON: [json.loads] raises [JSONDecodeError] on it. *)
Definition not_json (line : loads) : bool :=
  match line with DecodeError => true | _ => false end.

(** The exception that leaves the loops over the history log on a line
    that holds no object and is not skipped: the one [json.loads] raised,
    or the [AttributeError] of [entry.get] on a value that is no dict. *)
Definition exception_of (line : loads) : exn :=
  match line with
  | LoadsRaised e => e
  | _ => AttributeError
  end.

(** The project field of the entry [e] is the string [cwd]; an entry
    without the field counts as having the empty string. *)
Definition project_is (cwd : string) (e : list (string * json)) : bool :=
  match PyVal.lookup "project" e with
  | Some (JStr p) => String.eqb p cwd
  | Some _ => false
  | None => String.eqb "" cwd
  end.

(** The objects of the log whose project is [cwd], in the order of the log. *)
Definition entries_of_project (cwd : string) (lines : list loads)
  : list (list (string * json)) :=
  omap (fun line =>
          match line with
          | Loaded (JObj e) => if project_is cwd e then Some e else None
          | _ => None
          end) lines.

(** The session id recorded on the last entry of the project; [JNull]
    when there is no entry or it records none. *)
Definition last_session_of_project (cwd : string) (lines : list loads)
  : json :=
  match last (entries_of_project cwd lines) with
  | Some e => default JNull (PyVal.lookup "sessionId" e)
  | None => JNull
  end.

(** The tags that delimit a system reminder. *)
Definition reminder_open : string := "<system-reminder>".
Definition reminder_close : string := "</system-reminder>".

(** [text] begins with one of the two command markers. *)
Definition begins_with_marker (text : string) : Prop :=
  exists rest, text = "<local-command" ++ rest \/ text = "<command-" ++ rest.

(** The text the extractor makes of the string [raw]. *)
Definition cleaned (raw : string) : string :=
  PyStr.strip (strip_reminders (PyStr.strip raw)).

(** A string, or [None] when it is empty. *)
Definition nonempty (t : string) : option string :=
  if PyStr.is_empty t then None else Some t.

(** [c] is a content block of type text whose text is the string [raw]. *)
Definition is_text_block (c : list (string * json)) (raw : string) : Prop :=
  PyVal.lookup "type" c = Some (JStr "text") /\
  PyVal.lookup "text" c = Some (JStr raw).

(** A content block the extractor passes over: not a dict, not of type
    text, or a text that is empty or begins with a command marker once
    stripped. *)
Definition passed_over (v : json) : Prop :=
  match v with
  | JObj c =>
      PyVal.lookup "type" c <> Some (JStr "text") \/
      exists raw, is_text_block c raw /\
        (PyStr.strip raw = "" \/ begins_with_marker (PyStr.strip raw))
  | _ => True
  end.

(** A user entry whose message has the content [content]. *)
Definition example_user_entry (content : json) : list (string * json) :=
  [("type", JStr "user");
   ("message", JObj [("role", JStr "user"); ("content", content)])].

(** A prompt behind a reminder that spans three lines. *)
Definition example_reminder_text : string :=
  "  <system-reminder>" ++ String "010" "be brief" ++ String "010"
  "</system-reminder> fix the parser ".

Definition example_text_block (raw : string) : json :=
  JObj [("type", JStr "text"); ("text", JStr raw)].

(** The loop state keeps the two records of tool names in step: the last
    name appended is the most recent name. *)
Definition tools_in_step (st : scan) : Prop :=
  recent_tools st = [] \/ last (recent_tools st) = Some (last_tool_name st).

(** A content block whose text, if it is of type text, is a string. *)
Definition text_is_string (v : json) : Prop :=
  match v with
  | JObj c =>
      PyVal.lookup "type" c = Some (JStr "text") ->
      exists raw, PyVal.lookup "text" c = Some (JStr raw)
  | _ => True
  end.

(** A line of a transcript as the assistant writes them: it is not JSON
    ([json.loads] raises [JSONDecodeError]), or it holds an object whose
    content blocks of type text carry strings. *)
Definition transcript_line (line : loads) : Prop :=
  match line with
  | DecodeError => True
  | Loaded (JObj d) =>
      (forall l, user_content d = JArr l -> Forall text_is_string l) /\
      (forall l, assistant_content d = JArr l -> Forall text_is_string l)
  | _ => False
  end.

(** The names of the tool_use blocks of a content, in order. *)
Definition tool_names (content : list json) : list json :=
  omap (fun v =>
          match v with
          | JObj c =>
              if PyVal.eq_str (PyVal.get "type" JNull c) "tool_use"
              then Some (PyVal.get "name" (JStr "") c) else None
          | _ => None
          end) content.

(** The names of the tool_use blocks of one line: those of its content if
    it is an assistant entry with a list content. *)
Definition line_tools (line : loads) : list json :=
  match line with
  | Loaded (JObj d) =>
      if PyVal.eq_str (PyVal.get "type" (JStr "") d) "assistant" then
        match assistant_content d with
        | JArr l => tool_names l
        | _ => []
        end
      else []
  | _ => []
  end.

(** A transcript: a prompt, an assistant entry with a text and two
    tool_use blocks, a line that is not JSON, and an assistant entry with
    four tool_use blocks. *)
Definition example_tool_use (name : string) : json :=
  JObj [("type", JStr "tool_use"); ("name", JStr name)].

Definition example_assistant_entry (content : list json) : loads :=
  Loaded (JObj [("type", JStr "assistant");
              ("message", JObj [("role", JStr "assistant");
                                ("content", JArr content)])]).

Definition example_transcript : list loads :=
  [Loaded (JObj (example_user_entry (JStr "fix the parser")));
   example_assistant_entry
     [example_text_block "Looking."; example_tool_use "Glob"; example_tool_use "Read"];
   DecodeError;
   example_assistant_entry
     [example_tool_use "Grep"; example_tool_use "Read"; example_tool_use "Edit";
      example_tool_use "Bash"]].

(** The fields of a row of the process list that is a foreground
    assistant on a terminal: at least eleven fields, the command is
    [claude] or ends with [/claude], the terminal begins with [s0], the
    state has a [+]. *)
Definition claude_row (parts : list string) : Prop :=
  (11 <= length parts)%nat /\
  (PyStr.endswith "/claude" (nth 10 parts "") = true \/ nth 10 parts "" = "claude") /\
  PyStr.startswith "s0" (nth 6 parts "") = true /\
  PyStr.contains "+" (nth 7 parts "") = true.

(** The CPU value of a row: its third field as a float, [0.0] if that is
    not the text of a float. *)
Definition row_cpu (parts : list string) : spec_float :=
  default PyNum.zero (PyNum.float_of_string (nth 2 parts "")).

(** The lines of the output of the process lister. *)
Definition ps_rows (ps_stdout : string) : list string :=
  PyStr.split_on "010" (PyStr.strip ps_stdout).

(** A row of an assistant in the foreground using exactly 1.0% of the CPU. *)
Definition example_ps_row : string :=
  "ph 4242 1.0 0.5 410000 52000 s003 S+ 10:15AM 0:01.23 claude".

(** A row of an assistant in the foreground using 12.5% of the CPU. *)
Definition example_busy_row : string :=
  "ph 4300 12.5 0.9 420000 90000 s005 R+ 10:17AM 0:09.50 /usr/local/bin/claude --resume".

(** An output of the process lister: the header, the two rows above, an
    assistant below the threshold and one without a terminal. *)
Definition example_ps_output : string :=
  "USER PID %CPU %MEM VSZ RSS TT STAT STARTED TIME COMMAND" ++ String "010"
  example_ps_row ++ String "010"
  "ph 4250 0.3 0.5 410000 52000 s004 S+ 10:16AM 0:00.10 claude" ++ String "010"
  example_busy_row ++ String "010"
  "ph 4400 7.0 0.9 420000 90000 ?? S 10:18AM 0:09.50 claude" ++ String "010" "".

(** The float [12.5]. *)
Definition example_busy_cpu : spec_float := S754_finite false 7036874417766400 (-49).

(** A character of the class [A-Za-z0-9-], by its code point. *)
Definition alnum_or_hyphen (c : ascii) : Prop :=
  let n := nat_of_ascii c in
  (65 <= n <= 90)%nat \/ (97 <= n <= 122)%nat \/ (48 <= n <= 57)%nat \/ n = 45%nat.

(** What [done] and [remove] leave of a conversation: everything but its
    status and completion time. *)
Definition kept_fields (c : conversation)
  : Z * string * string * json * json * string :=
  (id c, sessionId c, project c, description c, firstPrompt c, savedAt c).

(** [c], at index [i], is the first conversation with id [k]. *)
Definition first_with_id (k : Z) (convs : list conversation)
    (i : nat) (c : conversation) : Prop :=
  convs !! i = Some c /\ id c = k /\
  forall j c', convs !! j = Some c' -> (j < i)%nat -> id c' <> k.

(** A line of the history log that the look-up of the first prompt of
    [sid] passes: it is not JSON ([json.loads] raises [JSONDecodeError]),
    or it holds an object of another session or of none. *)
Definition not_of_session (sid : string) (line : loads) : Prop :=
  match line with
  | DecodeError => True
  | Loaded (JObj e) => PyVal.lookup "sessionId" e <> Some (JStr sid)
  | _ => False
  end.

(** A text of at least one and at most [n] characters, or none. *)
Definition within (n : nat) (t : option string) : Prop :=
  match t with
  | Some s => (0 < String.length s <= n)%nat
  | None => True
  end.

(** What the loop over the tail keeps true of its state: the last user
    message has at most 200 characters, the last assistant text is not
    empty. *)
Definition scan_texts (st : scan) : Prop :=
  within 200 (last_user st) /\
  match last_assistant st with Some s => s <> "" | None => True end.

(** A row of the process list the loop keeps: a foreground assistant on a
    terminal whose CPU value is not below [1.0]. *)
Definition kept_row (line : string) : Prop :=
  claude_row (PyStr.split line) /\
  PyNum.lt (row_cpu (PyStr.split line)) PyNum.one = false.

#[global] Instance kept_row_dec (line : string) : Decision (kept_row line).
Proof. unfold kept_row, claude_row. apply _. Defined.

(** The candidate of a row: its pid as an integer, its CPU value and its
    start time; [None] when [int] refuses the pid. *)
Definition candidate_of_row (line : string) : option candidate :=
  p ← PyNum.int_of_string (nth 1 (PyStr.split line) "");
  Some (p, row_cpu (PyStr.split line), nth 8 (PyStr.split line) "").

(** A file as [glob] lists it when [stat] returns its modification time. *)
Definition stat_ok (f : jsonl_file) : listed_file := (fst f, Ok (snd f)).

(** The process a session was made of. *)
Definition session_process (s : session) : candidate :=
  (s_pid s, s_cpu s, s_started s).

(** A machine for the examples: the process list above, two assistants in
    [/home/ph/api] and [/home/ph/web], a transcript for the first. *)
Definition example_machine : machine :=
  {| ps_aux := Some example_ps_output;
     lsof_cwd := fun pid =>
       if (pid =? 4242)%Z then
         Some ("COMMAND  PID USER   FD   TYPE DEVICE SIZE/OFF NODE NAME"
               ++ String "010" "claude  4242   ph  cwd    DIR    1,4      640 1234 /home/ph/api"
               ++ String "010" "")
       else if (pid =? 4300)%Z then
         Some ("COMMAND  PID USER   FD   TYPE DEVICE SIZE/OFF NODE NAME"
               ++ String "010" "claude  4300   ph  cwd    DIR    1,4      640 1235 /home/ph/web"
               ++ String "010" "")
       else None;
     project_dirs := fun name =>
       if String.eqb name "-home-ph-api" then
         Ok (Some [("old.jsonl", Ok PyNum.one); ("new.jsonl", Ok example_busy_cpu);
                   ("mid.jsonl", Ok PyNum.one)])
       else Ok None;
     read_lines := fun path =>
       if String.eqb path "new.jsonl" then Some example_transcript else None |}.

(** The session the discoverer makes of process 4242 on that machine, but
    for its session id. *)
Definition example_session (sid : json) : session :=
  {| s_pid := 4242; s_cpu := PyNum.one; s_started := "10:15AM";
     s_cwd := "/home/ph/api"; s_projectShort := "api";
     s_sessionId := sid;
     s_context :=
       Some {| ctx_firstPrompt := Some "fix the parser";
               lastUserMessage := Some "fix the parser";
               lastAssistantResponse := Some "Looking.";
               recentTools := [JStr "Read"; JStr "Grep"; JStr "Read";
                               JStr "Edit"; JStr "Bash"];
               lastTool := JStr "Bash" |} |}.

(** The session of process 4300, whose project has no folder. *)
Definition example_web_session : session :=
  {| s_pid := 4300; s_cpu := example_busy_cpu; s_started := "10:17AM";
     s_cwd := "/home/ph/web"; s_projectShort := "web";
     s_sessionId := JNull; s_context := None |}.

(** An exception that the files of machine and world make the discoverer
    raise: [json.loads] raises it on a line of the history log or of a
    transcript, or the look-up of the session file of a directory raises
    it. *)
Definition raised_by_files (m : machine) (w : world) (e : exn) : Prop :=
  (exists lines, history_file w = Some lines /\ LoadsRaised e ∈ lines) \/
  (exists cwd, find_session_file (project_dirs m) cwd = Err e) \/
  (exists f lines, read_lines m f = Some lines /\ LoadsRaised e ∈ lines).

(** What holds of a session the discoverer makes on machine [m] and world
    [w] with [exclude_pid]: the process is not the excluded one, the
    working directory is the last word [lsof] printed for it and begins
    with a slash, the short name is that of the directory, and session id
    and context are what correlator and extractor give for the directory. *)
Definition session_ok (m : machine) (exclude_pid : option Z) (w : world)
    (s : session) : Prop :=
  excluded exclude_pid (s_pid s) = false /\
  cwd_of_lsof (lsof_cwd m (s_pid s)) = Some (s_cwd s) /\
  PyStr.startswith "/" (s_cwd s) = true /\
  s_projectShort s = short_name (s_cwd s) /\
  find_session_id_for_cwd (s_cwd s) w = (Returned (s_sessionId s), w) /\
  match find_session_file (project_dirs m) (s_cwd s) with
  | Ok (Some f) => extract_session_context (read_lines m f) 80 = Ok (s_context s)
  | Ok None => s_context s = None
  | Err _ => False
  end.

(** The world after the lines [out] were printed, in this order. *)
Definition with_output (out : list (list piece)) (w : world) : world :=
  {| registry_file := registry_file w;
     history_file := history_file w;
     stdout := (stdout w ++ out)%list;
     registry_writes := registry_writes w |}.

(** In every world the command [c] has the outcome [r] and prints the
    lines [out], and it does nothing else. *)
Definition prints (c : M unit) (r : outcome unit) (out : list (list piece))
  : Prop :=
  forall w, c w = (r, with_output out w).

(** A command that only prints, with an outcome of which [P] holds. *)
Definition printer (P : outcome unit -> Prop) (c : M unit) : Prop :=
  exists r out, prints c r out /\ P r.

(** The conversations of a list whose status is [st], in their order. *)
Definition with_status (st : string) (convs : list conversation)
  : list conversation :=
  filter (fun c => status c = st) convs.

(** A status the listing has a section for. *)
Definition listed_status (c : conversation) : Prop :=
  status c = "active" \/ status c = "done" \/ status c = "removed".

#[global] Instance listed_status_dec (c : conversation) : Decision (listed_status c).
Proof. unfold listed_status. apply _. Defined.

(** A date formatter for the examples: it refuses a text that has no [T],
    and gives the ten characters of the day else. *)
Definition example_saved_date (s : string) : result string :=
  if PyStr.contains "T" s then Ok (PyStr.take 10 s) else Err ValueError.


(** * Properties *)

(** ** Folder names *)

Section FolderName.

Lemma in_class_spec (c : ascii) : in_class c = true <-> alnum_or_hyphen c.
Proof.
  destruct c as [[] [] [] [] [] [] [] []]; vm_compute;
    (split; intros H; [try discriminate; lia | try reflexivity; exfalso; lia]).
Qed.

Lemma map_length f (s : string) : String.length (PyStr.map f s) = String.length s.
Proof. induction s as [|c s IH]; simpl; congruence. Qed.

Lemma map_get f (s : string) (i : nat) :
  String.get i (PyStr.map f s) = f <$> String.get i s.
Proof.
  revert i; induction s as [|c s IH]; intros [|i]; simpl; auto.
Qed.

End FolderName.

(** C6. The folder name of a working directory has the length of the
    directory string; at every position it has the character of the
    directory when that is a letter, a digit or a hyphen, and a hyphen
    otherwise; ["/Users/a/b.c"] becomes ["-Users-a-b-c"]. *)
Theorem cwd_to_project_dir_encoding (cwd : string) :
  String.length (cwd_to_project_dir cwd) = String.length cwd /\
  (forall i c, String.get i cwd = Some c ->
     (alnum_or_hyphen c -> String.get i (cwd_to_project_dir cwd) = Some c) /\
     (~ alnum_or_hyphen c ->
        String.get i (cwd_to_project_dir cwd) = Some "-"%char)) /\
  cwd_to_project_dir "/Users/a/b.c" = "-Users-a-b-c".
Proof.
  split; [apply map_length|]. split; [|reflexivity].
  intros i c Hget. unfold cwd_to_project_dir. rewrite map_get, Hget. simpl.
  split; intros Hc.
  - apply in_class_spec in Hc. now rewrite Hc.
  - destruct (in_class c) eqn:E; [|reflexivity].
    apply in_class_spec in E. contradiction.
Qed.

Lemma cwd_to_project_dir_encoding_witness :
  String.get 6 (cwd_to_project_dir "/Users/a/b.c") = Some "-"%char /\
  String.get 7 (cwd_to_project_dir "/Users/a/b.c") = Some "a"%char.
Proof.
  split.
  - refine (proj2 (proj1 (proj2 (cwd_to_project_dir_encoding "/Users/a/b.c"))
                       6%nat "/"%char _) _);
      [reflexivity | vm_compute; lia].
  - refine (proj1 (proj1 (proj2 (cwd_to_project_dir_encoding "/Users/a/b.c"))
                       7%nat "a"%char _) _);
      [reflexivity | vm_compute; lia].
Defined.

(** ** Registry identifiers *)

Section NextId.

Local Open Scope Z_scope.

Lemma fold_max_ge (cs : list conversation) (m : Z) :
  m <= fold_left (fun m c' => Z.max m (id c')) cs m /\
  forall c, c ∈ cs -> id c <= fold_left (fun m c' => Z.max m (id c')) cs m.
Proof.
  revert m; induction cs as [|c cs IH]; intros m; simpl.
  - split; [lia|]. intros c Hc. inversion Hc.
  - destruct (IH (Z.max m (id c))) as [H1 H2]. split; [lia|].
    intros c' Hc'. apply elem_of_cons in Hc' as [->|Hc']; [lia|auto].
Qed.

Lemma fold_max_attained (cs : list conversation) (m : Z) :
  fold_left (fun m c' => Z.max m (id c')) cs m = m \/
  exists c, c ∈ cs /\ fold_left (fun m c' => Z.max m (id c')) cs m = id c.
Proof.
  revert m; induction cs as [|c cs IH]; intros m; simpl; [now left|].
  destruct (IH (Z.max m (id c))) as [H|(c' & Hin & H)].
  - rewrite H. destruct (Z.max_spec m (id c)) as [[_ E]|[_ E]]; rewrite E.
    + right. exists c. split; [left|reflexivity].
    + now left.
  - right. exists c'. split; [now right|assumption].
Qed.

End NextId.

(** C4. [next_id] is 1 on a registry without conversations; otherwise it
    is one more than the id of some conversation, and no conversation has
    a greater id than that one. *)
Theorem next_id_max_plus_one (r : registry) :
  (conversations r = [] -> next_id r = 1%Z) /\
  (conversations r <> [] ->
     (exists c, c ∈ conversations r /\ next_id r = (id c + 1)%Z) /\
     (forall c, c ∈ conversations r -> (id c + 1 <= next_id r)%Z)).
Proof.
  unfold next_id. destruct (conversations r) as [|c cs].
  - split; [reflexivity | congruence].
  - split; [discriminate|]. intros _. split.
    + destruct (fold_max_attained cs (id c)) as [H|(c' & Hin & H)]; rewrite H.
      * exists c. split; [left|reflexivity].
      * exists c'. split; [now right|reflexivity].
    + intros c' Hc'. destruct (fold_max_ge cs (id c)) as [H1 H2].
      apply elem_of_cons in Hc' as [->|Hc']; [lia|].
      specialize (H2 _ Hc'). lia.
Qed.

Lemma next_id_max_plus_one_witness :
  next_id {| conversations := [] |} = 1%Z /\
  forall c,
    c ∈ [example_conversation 3 "a" "active"; example_conversation 7 "b" "done";
         example_conversation 5 "c" "active"] ->
    (id c + 1 <= 8)%Z.
Proof.
  split.
  - apply (proj1 (next_id_max_plus_one {| conversations := [] |})). reflexivity.
  - apply (proj2 (proj2 (next_id_max_plus_one
      {| conversations :=
           [example_conversation 3 "a" "active"; example_conversation 7 "b" "done";
            example_conversation 5 "c" "active"] |}) ltac:(discriminate))).
Defined.

(** ** Commands on the registry *)

Section Commands.

Implicit Types (w : world) (c : conversation) (convs : list conversation).

Lemma list_find_first sid convs i c :
  first_of_session sid convs i c ->
  list_find (fun c => sessionId c = sid) convs = Some (i, c).
Proof. intros (H1 & H2 & H3). apply list_find_Some. eauto. Qed.

Lemma list_find_absent {A} (P : A -> Prop) `{!forall x, Decision (P x)} (l : list A) :
  (forall x, x ∈ l -> ~ P x) -> list_find P l = None.
Proof. intros Hn. apply list_find_None, Forall_forall, Hn. Qed.

(** A session that occurs once is first wherever it occurs. *)
Lemma unique_session_first sid convs i c :
  NoDup (sessionId <$> convs) ->
  convs !! i = Some c -> sessionId c = sid ->
  first_of_session sid convs i c.
Proof.
  intros Hnd Hi Hs. split; [assumption|]. split; [assumption|].
  intros j c' Hj Hlt Hs'.
  assert (j = i); [|lia].
  eapply NoDup_lookup; [exact Hnd| |].
  - rewrite list_lookup_fmap, Hj. reflexivity.
  - rewrite list_lookup_fmap, Hi. simpl. congruence.
Qed.

(** The three paths of [cmd_save]. *)
Lemma cmd_save_already_saved w args now i c :
  first_of_session (arg_session_id args) (conversations (loaded w)) i c ->
  status c = "active" ->
  cmd_save args now w =
    (Exited 0,
     printed [Lit "Session already saved as #"; Fmt (JInt (id c));
              Lit ": "; Fmt (description c)] w).
Proof.
  intros Hfirst Hst. apply list_find_first in Hfirst.
  unfold cmd_save, mbind, M_bind, load_registry. fold (loaded w).
  rewrite Hfirst. rewrite decide_True by assumption. reflexivity.
Qed.

Lemma cmd_save_reactivate w args now i c :
  first_of_session (arg_session_id args) (conversations (loaded w)) i c ->
  status c <> "active" ->
  cmd_save args now w =
    (Returned tt,
     printed [Lit (String "010" "Resume later with: claude --resume ");
              Fmt (JStr (arg_session_id args))]
       (printed [Lit "  Session: "; Fmt (JStr (arg_session_id args))]
          (printed [Lit "Reactivated #"; Fmt (JInt (id c)); Lit ": ";
                    Fmt (description (reactivated args now c))]
             (written {| conversations :=
                           <[i := reactivated args now c]> (conversations (loaded w)) |}
                      w)))).
Proof.
  intros Hfirst Hst. apply list_find_first in Hfirst.
  unfold cmd_save, mbind, M_bind, load_registry. fold (loaded w).
  rewrite Hfirst. rewrite decide_False by assumption.
  unfold reactivated. destruct (given (arg_description args)); reflexivity.
Qed.

Lemma cmd_save_new w args now fp :
  (forall c, c ∈ conversations (loaded w) -> sessionId c <> arg_session_id args) ->
  get_first_prompt (arg_session_id args) w = (Returned fp, w) ->
  cmd_save args now w =
    (Returned tt,
     printed [Lit (String "010" "Resume later with: claude --resume ");
              Fmt (JStr (arg_session_id args))]
       (printed [Lit "  Project: "; Fmt (JStr (arg_project args))]
          (printed [Lit "  Session: "; Fmt (JStr (arg_session_id args))]
             (printed [Lit "Saved as #"; Fmt (JInt (next_id (loaded w))); Lit ": ";
                       Fmt (description (new_entry args now fp (loaded w)))]
                (written {| conversations :=
                              conversations (loaded w)
                              ++ [new_entry args now fp (loaded w)] |}
                         w))))).
Proof.
  intros Habs Hfp.
  assert (Hfind : list_find (fun c => sessionId c = arg_session_id args)
                    (conversations (loaded w)) = None)
    by (apply list_find_absent; exact Habs).
  unfold cmd_save, mbind, M_bind, load_registry. fold (loaded w).
  rewrite Hfind, Hfp. reflexivity.
Qed.

(** The look-up of the first prompt returns on a log of lines that are
    not JSON and of objects with string displays. *)
Lemma first_prompt_in_returns sid (lines : list loads) :
  Forall history_line lines -> exists fp, first_prompt_in sid lines = Ok fp.
Proof.
  induction 1 as [|line lines Hline _ IH]; [now exists JNull|].
  destruct line as [[| | | | | |e]| |exc]; simpl in Hline; try contradiction;
    [|exact IH].
  simpl. destruct (PyVal.eq_str (PyVal.get "sessionId" JNull e) sid); [|exact IH].
  unfold PyVal.get.
  destruct (PyVal.lookup "display" e) as [[| | | |s| |]|]; try contradiction;
    eexists; reflexivity.
Qed.

Lemma get_first_prompt_returns sid w :
  history_file w = None \/
  (exists lines, history_file w = Some lines /\ Forall history_line lines) ->
  exists fp, get_first_prompt sid w = (Returned fp, w).
Proof.
  unfold get_first_prompt. intros [->|(lines & -> & Hwf)]; [now exists JNull|].
  destruct (first_prompt_in_returns sid lines Hwf) as [fp ->]. now exists fp.
Qed.

(** Writing back a list whose entry at [i] keeps its session leaves the
    session ids as they were. *)
Lemma sessions_insert convs i c c' :
  convs !! i = Some c -> sessionId c' = sessionId c ->
  sessionId <$> <[i := c']> convs = sessionId <$> convs.
Proof.
  intros Hi Hs. rewrite list_fmap_insert. apply list_insert_id.
  rewrite list_lookup_fmap, Hi. simpl. congruence.
Qed.

(** No command puts a second conversation of a session into the registry. *)
Lemma cmd_save_sessions_unique w args now :
  NoDup (sessionId <$> conversations (loaded w)) ->
  NoDup (sessionId <$> conversations (loaded (snd (cmd_save args now w)))).
Proof.
  intros Hnd. unfold cmd_save, mbind, M_bind, load_registry. fold (loaded w).
  destruct (list_find _ (conversations (loaded w))) as [[i c]|] eqn:E.
  - apply list_find_Some in E as (Hi & Hs & _).
    destruct (decide (status c = "active")); [exact Hnd|].
    simpl. unfold loaded. simpl.
    rewrite (sessions_insert _ i c); [exact Hnd|exact Hi|].
    destruct (given (arg_description args)); reflexivity.
  - apply list_find_None in E. unfold get_first_prompt.
    destruct (history_file w) as [lines|]; simpl.
    + destruct (first_prompt_in (arg_session_id args) lines) as [fp|e]; simpl;
        [|exact Hnd].
      unfold loaded at 1. simpl. rewrite fmap_app. apply NoDup_app.
      split; [exact Hnd|]. split; [|apply NoDup_singleton].
      intros sid Hin Hsid. apply list_elem_of_singleton in Hsid. subst sid.
      apply list_elem_of_fmap in Hin as (c & Hc & Hin).
      rewrite Forall_forall in E. exact (E c Hin (eq_sym Hc)).
    + unfold loaded at 1. simpl. rewrite fmap_app. apply NoDup_app.
      split; [exact Hnd|]. split; [|apply NoDup_singleton].
      intros sid Hin Hsid. apply list_elem_of_singleton in Hsid. subst sid.
      apply list_elem_of_fmap in Hin as (c & Hc & Hin).
      rewrite Forall_forall in E. exact (E c Hin (eq_sym Hc)).
Qed.

Lemma cmd_done_remove_sessions_unique w arg_id now :
  NoDup (sessionId <$> conversations (loaded w)) ->
  NoDup (sessionId <$> conversations (loaded (snd (cmd_done arg_id now w)))) /\
  NoDup (sessionId <$> conversations (loaded (snd (cmd_remove arg_id w)))).
Proof.
  intros Hnd. unfold cmd_done, cmd_remove, mbind, M_bind, load_registry.
  fold (loaded w).
  destruct (list_find _ (conversations (loaded w))) as [[i c]|] eqn:E;
    [|split; exact Hnd].
  apply list_find_Some in E as (Hi & _).
  split; simpl; unfold loaded at 1; simpl;
    (rewrite (sessions_insert _ i c); [exact Hnd|exact Hi|reflexivity]).
Qed.

End Commands.

(** C5. When no conversation has the id, [done] and [remove] print that no
    conversation was found and exit with code 1; the registry file is not
    written and the world is otherwise as before. *)
Theorem done_remove_absent_id (w : world) (arg_id : Z) (now : string) :
  (forall c, c ∈ conversations (loaded w) -> id c <> arg_id) ->
  cmd_done arg_id now w =
    (Exited 1, printed [Lit "No conversation found with ID #"; Fmt (JInt arg_id)] w) /\
  cmd_remove arg_id w =
    (Exited 1, printed [Lit "No conversation found with ID #"; Fmt (JInt arg_id)] w) /\
  registry_file (snd (cmd_done arg_id now w)) = registry_file w /\
  registry_file (snd (cmd_remove arg_id w)) = registry_file w /\
  registry_writes (snd (cmd_done arg_id now w)) = registry_writes w /\
  registry_writes (snd (cmd_remove arg_id w)) = registry_writes w.
Proof.
  intros Habs.
  assert (Hfind : list_find (fun c => id c = arg_id) (conversations (loaded w)) = None)
    by (apply list_find_absent; exact Habs).
  assert (Hd : cmd_done arg_id now w =
    (Exited 1, printed [Lit "No conversation found with ID #"; Fmt (JInt arg_id)] w)).
  { unfold cmd_done, mbind, M_bind, load_registry. fold (loaded w).
    rewrite Hfind. reflexivity. }
  assert (Hr : cmd_remove arg_id w =
    (Exited 1, printed [Lit "No conversation found with ID #"; Fmt (JInt arg_id)] w)).
  { unfold cmd_remove, mbind, M_bind, load_registry. fold (loaded w).
    rewrite Hfind. reflexivity. }
  rewrite Hd, Hr. repeat split.
Qed.

Lemma done_remove_absent_id_witness :
  cmd_done 2 "2025-01-02T09:00:00"
    (example_world [example_conversation 1 "S1" "active"] None) =
    (Exited 1, printed [Lit "No conversation found with ID #"; Fmt (JInt 2)]
                 (example_world [example_conversation 1 "S1" "active"] None)).
Proof.
  refine (proj1 (done_remove_absent_id _ 2 "2025-01-02T09:00:00" _)).
  intros c Hc. apply list_elem_of_singleton in Hc. subst c. simpl. lia.
Defined.

(** C2, as the code has it. When the first conversation of the saved
    session is active (as it is whenever the session occurs once in the
    registry and is active), [save] prints that the session is already
    saved and exits with code 0; the registry file is not written and
    keeps its contents. *)
Theorem save_active_first_no_mutation (w : world) (args : save_args) (now : string)
    (i : nat) (c : conversation) :
  first_of_session (arg_session_id args) (conversations (loaded w)) i c ->
  status c = "active" ->
  cmd_save args now w =
    (Exited 0,
     printed [Lit "Session already saved as #"; Fmt (JInt (id c));
              Lit ": "; Fmt (description c)] w) /\
  registry_file (snd (cmd_save args now w)) = registry_file w /\
  registry_writes (snd (cmd_save args now w)) = registry_writes w.
Proof.
  intros Hfirst Hst.
  rewrite (cmd_save_already_saved w args now i c Hfirst Hst). repeat split.
Qed.

Lemma save_active_first_no_mutation_witness :
  cmd_save (example_args "S1" (Some "y")) "2025-01-02T09:00:00"
    (example_world [example_conversation 1 "S0" "done";
                    example_conversation 2 "S1" "active"] None) =
  (Exited 0,
   printed [Lit "Session already saved as #"; Fmt (JInt 2); Lit ": "; Fmt (JStr "x")]
     (example_world [example_conversation 1 "S0" "done";
                     example_conversation 2 "S1" "active"] None)).
Proof.
  refine (proj1 (save_active_first_no_mutation _ _ _ 1%nat
                   (example_conversation 2 "S1" "active") _ _)).
  - split; [reflexivity|]. split; [reflexivity|].
    intros [|[|j]] c' Hj Hlt; [|lia|lia].
    vm_compute in Hj. injection Hj as <-. vm_compute. discriminate.
  - reflexivity.
Defined.

(** C2 fails as stated: the registry holds an active conversation of the
    session, behind a done one of the same session; [save] reactivates the
    done one and writes the registry. *)
Lemma save_active_counterexample :
  (exists c,
     c ∈ [example_conversation 1 "S" "done"; example_conversation 2 "S" "active"] /\
     sessionId c = "S" /\ status c = "active") /\
  registry_file
    (snd (cmd_save (example_args "S" None) "2025-01-02T09:00:00"
            (example_world [example_conversation 1 "S" "done";
                            example_conversation 2 "S" "active"] None)))
  <> Some {| conversations := [example_conversation 1 "S" "done";
                               example_conversation 2 "S" "active"] |} /\
  cmd_save (example_args "S" None) "2025-01-02T09:00:00"
    (example_world [example_conversation 1 "S" "done";
                    example_conversation 2 "S" "active"] None) =
  (Returned tt,
   {| registry_file :=
        Some {| conversations :=
                  [set_savedAt "2025-01-02T09:00:00" (example_conversation 1 "S" "active");
                   example_conversation 2 "S" "active"] |};
      history_file := None;
      stdout := [[Lit "Reactivated #"; Fmt (JInt 1); Lit ": "; Fmt (JStr "x")];
                 [Lit "  Session: "; Fmt (JStr "S")];
                 [Lit (String "010" "Resume later with: claude --resume ");
                  Fmt (JStr "S")]];
      registry_writes := 1 |}).
Proof.
  split; [|split; [vm_compute; discriminate|reflexivity]].
  exists (example_conversation 2 "S" "active").
  split; [|split; reflexivity]. right. left.
Qed.

(** With session ids that occur once, C2 reads as it was written. *)
Lemma save_active_unique_no_mutation (w : world) (args : save_args) (now : string)
    (c : conversation) :
  NoDup (sessionId <$> conversations (loaded w)) ->
  c ∈ conversations (loaded w) ->
  sessionId c = arg_session_id args -> status c = "active" ->
  cmd_save args now w =
    (Exited 0,
     printed [Lit "Session already saved as #"; Fmt (JInt (id c));
              Lit ": "; Fmt (description c)] w).
Proof.
  intros Hnd Hin Hs Hst. apply list_elem_of_lookup in Hin as [i Hi].
  eapply cmd_save_already_saved; [|exact Hst].
  apply unique_session_first; eassumption.
Qed.

(** C3, as the code has it. When the first conversation of the saved
    session is not active, [save] reactivates that conversation in place:
    its status becomes active, its saving time the present, its
    description the one given if any, its id and session stay; no
    conversation is appended, every other conversation is unchanged, and
    the session ids and ids of the registry are, position by position,
    what they were. The registry file is written once. *)
Theorem save_reactivates_first (w : world) (args : save_args) (now : string)
    (i : nat) (c : conversation) :
  first_of_session (arg_session_id args) (conversations (loaded w)) i c ->
  status c <> "active" ->
  exists convs',
    fst (cmd_save args now w) = Returned tt /\
    registry_file (snd (cmd_save args now w)) = Some {| conversations := convs' |} /\
    registry_writes (snd (cmd_save args now w)) = S (registry_writes w) /\
    convs' !! i = Some (reactivated args now c) /\
    status (reactivated args now c) = "active" /\
    id (reactivated args now c) = id c /\
    sessionId (reactivated args now c) = sessionId c /\
    length convs' = length (conversations (loaded w)) /\
    (forall j, j <> i -> convs' !! j = conversations (loaded w) !! j) /\
    sessionId <$> convs' = sessionId <$> conversations (loaded w) /\
    id <$> convs' = id <$> conversations (loaded w).
Proof.
  intros Hfirst Hst.
  exists (<[i := reactivated args now c]> (conversations (loaded w))).
  rewrite (cmd_save_reactivate w args now i c Hfirst Hst).
  destruct Hfirst as (Hi & Hs & _). simpl.
  split; [reflexivity|]. split; [reflexivity|]. split; [reflexivity|].
  split; [apply list_lookup_insert_eq; eapply lookup_lt_Some; exact Hi|].
  split; [reflexivity|]. split; [reflexivity|]. split; [reflexivity|].
  split; [apply length_insert|].
  split; [intros j Hj; apply list_lookup_insert_ne; congruence|].
  split; rewrite list_fmap_insert; apply list_insert_id;
    rewrite list_lookup_fmap, Hi; reflexivity.
Qed.

Lemma save_reactivates_first_witness :
  exists convs' : list conversation,
    fst (cmd_save (example_args "S1" (Some "y")) "2025-01-02T09:00:00"
           (example_world [example_conversation 1 "S0" "active";
                           example_conversation 2 "S1" "removed"] None))
    = Returned tt /\
    convs' !! 1%nat =
      Some (reactivated (example_args "S1" (Some "y")) "2025-01-02T09:00:00"
              (example_conversation 2 "S1" "removed")).
Proof.
  destruct (save_reactivates_first
              (example_world [example_conversation 1 "S0" "active";
                              example_conversation 2 "S1" "removed"] None)
              (example_args "S1" (Some "y")) "2025-01-02T09:00:00" 1%nat
              (example_conversation 2 "S1" "removed"))
    as (convs' & H1 & _ & _ & H4 & _).
  - split; [reflexivity|]. split; [reflexivity|].
    intros [|[|j]] c' Hj Hlt; [|lia|lia].
    vm_compute in Hj. injection Hj as <-. vm_compute. discriminate.
  - vm_compute. discriminate.
  - exists convs'. split; assumption.
Defined.

(** C3 fails as stated: the registry holds a done conversation of the
    session, behind an active one of the same session; [save] exits on the
    active one and the done one stays done. *)
Lemma save_reactivate_counterexample :
  (exists c,
     c ∈ [example_conversation 1 "S" "active"; example_conversation 2 "S" "done"] /\
     sessionId c = "S" /\ status c = "done") /\
  conversations
    (loaded
       (snd (cmd_save (example_args "S" None) "2025-01-02T09:00:00"
               (example_world [example_conversation 1 "S" "active";
                               example_conversation 2 "S" "done"] None))))
    !! 1%nat = Some (example_conversation 2 "S" "done") /\
  cmd_save (example_args "S" None) "2025-01-02T09:00:00"
    (example_world [example_conversation 1 "S" "active";
                    example_conversation 2 "S" "done"] None) =
  (Exited 0,
   {| registry_file :=
        Some {| conversations :=
                  [example_conversation 1 "S" "active";
                   example_conversation 2 "S" "done"] |};
      history_file := None;
      stdout := [[Lit "Session already saved as #"; Fmt (JInt 1); Lit ": ";
                  Fmt (JStr "x")]];
      registry_writes := 0 |}).
Proof.
  split; [|split; reflexivity].
  exists (example_conversation 2 "S" "done").
  split; [|split; reflexivity]. right. left.
Qed.

(** C9, as the code has it. When no conversation of the registry has
    the saved session id, [save] looks the first prompt up in the history
    before it appends. When the look-up returns, as it does when the log
    is absent or made of lines that are not JSON and of objects with
    string displays, [save] writes the registry once, with one
    conversation appended behind the ones it had, which are unchanged; the
    new one has the next id, the saved session id and status active. When
    the look-up raises, so does [save], with the same exception, and
    nothing is appended, written or printed. *)
Theorem save_appends_one (w : world) (args : save_args) (now : string) :
  (forall c, c ∈ conversations (loaded w) -> sessionId c <> arg_session_id args) ->
  (forall fp,
     get_first_prompt (arg_session_id args) w = (Returned fp, w) ->
     exists (convs' : list conversation) (e : conversation),
       fst (cmd_save args now w) = Returned tt /\
       registry_file (snd (cmd_save args now w)) = Some {| conversations := convs' |} /\
       registry_writes (snd (cmd_save args now w)) = S (registry_writes w) /\
       convs' = (conversations (loaded w) ++ [e])%list /\
       length convs' = S (length (conversations (loaded w))) /\
       (forall j c, conversations (loaded w) !! j = Some c -> convs' !! j = Some c) /\
       e = new_entry args now fp (loaded w) /\
       id e = next_id (loaded w) /\
       sessionId e = arg_session_id args /\
       status e = "active") /\
  (history_file w = None \/
   (exists lines, history_file w = Some lines /\ Forall history_line lines) ->
   exists fp, get_first_prompt (arg_session_id args) w = (Returned fp, w)) /\
  (forall e,
     get_first_prompt (arg_session_id args) w = (Raised e, w) ->
     cmd_save args now w = (Raised e, w)).
Proof.
  intros Habs. split; [|split].
  - intros fp Hfp.
    exists (conversations (loaded w) ++ [new_entry args now fp (loaded w)])%list,
           (new_entry args now fp (loaded w)).
    rewrite (cmd_save_new w args now fp Habs Hfp). simpl.
    split; [reflexivity|]. split; [reflexivity|]. split; [reflexivity|].
    split; [reflexivity|].
    split; [rewrite length_app; simpl; lia|].
    split; [intros j c Hj; apply lookup_app_l_Some; exact Hj|].
    repeat split.
  - apply get_first_prompt_returns.
  - intros e He.
    assert (Hfind : list_find (fun c => sessionId c = arg_session_id args)
                      (conversations (loaded w)) = None)
      by (apply list_find_absent; exact Habs).
    unfold cmd_save, mbind, M_bind, load_registry. fold (loaded w).
    rewrite Hfind, He. reflexivity.
Qed.

Lemma save_appends_one_witness :
  exists (convs' : list conversation) (e : conversation),
    fst (cmd_save (example_args "S2" None) "2025-01-02T09:00:00"
           (example_world [example_conversation 1 "S1" "done"]
              (Some [DecodeError;
                     Loaded (JObj [("sessionId", JStr "S2"); ("project", JStr "/p");
                                   ("display", JStr "fix the parser")])])))
    = Returned tt /\
    convs' = ([example_conversation 1 "S1" "done"] ++ [e])%list /\
    description e = JStr "fix the parser" /\ id e = 2%Z.
Proof.
  assert (Habs : forall c,
            c ∈ [example_conversation 1 "S1" "done"] -> sessionId c <> "S2").
  { intros c Hc. apply list_elem_of_singleton in Hc. subst c. vm_compute. discriminate. }
  destruct (proj1 (save_appends_one
              (example_world [example_conversation 1 "S1" "done"]
                 (Some [DecodeError;
                        Loaded (JObj [("sessionId", JStr "S2"); ("project", JStr "/p");
                                      ("display", JStr "fix the parser")])]))
              (example_args "S2" None) "2025-01-02T09:00:00" Habs)
              (JStr "fix the parser") eq_refl)
    as (convs' & e & H1 & _ & _ & H4 & _ & _ & H7 & _).
  exists convs', e. split; [exact H1|]. split; [exact H4|].
  subst e. split; reflexivity.
Defined.

(** C9 fails as stated: no conversation of the registry has the session
    id, a line of the history log holds a list, and [save] raises on it
    before it appends; the registry keeps its one conversation and the
    file is not written. *)
Lemma save_appends_counterexample :
  (forall c, c ∈ [example_conversation 1 "S1" "done"] -> sessionId c <> "S2") /\
  cmd_save (example_args "S2" None) "2025-01-02T09:00:00"
    (example_world [example_conversation 1 "S1" "done"] (Some [Loaded (JArr [])]))
  = (Raised AttributeError,
     example_world [example_conversation 1 "S1" "done"] (Some [Loaded (JArr [])])) /\
  conversations
    (loaded
       (snd (cmd_save (example_args "S2" None) "2025-01-02T09:00:00"
               (example_world [example_conversation 1 "S1" "done"]
                  (Some [Loaded (JArr [])])))))
  = [example_conversation 1 "S1" "done"].
Proof.
  split; [|split; reflexivity].
  intros c Hc. apply list_elem_of_singleton in Hc. subst c. vm_compute. discriminate.
Qed.

(** From the empty registry, saving session [S1] with description [x]
    gives one active conversation with id 1; [done] on id 1 then marks it
    done and stamps it. *)
Example save_then_done :
  registry_file
    (snd (cmd_save (example_args "S1" (Some "x")) "2025-01-02T09:00:00"
            (example_world [] None)))
  = Some {| conversations :=
              [{| id := 1; sessionId := "S1"; project := "/p";
                  description := JStr "x"; firstPrompt := JNull;
                  savedAt := "2025-01-02T09:00:00"; status := "active";
                  completedAt := None |}] |} /\
  registry_file
    (snd ((cmd_save (example_args "S1" (Some "x")) "2025-01-02T09:00:00" ;;
           cmd_done 1 "2025-01-03T09:00:00") (example_world [] None)))
  = Some {| conversations :=
              [{| id := 1; sessionId := "S1"; project := "/p";
                  description := JStr "x"; firstPrompt := JNull;
                  savedAt := "2025-01-02T09:00:00"; status := "done";
                  completedAt := Some "2025-01-03T09:00:00" |}] |}.
Proof. split; reflexivity. Qed.

(** ** History correlator *)

Section History.

Lemma project_is_get cwd e :
  PyVal.eq_str (PyVal.get "project" (JStr "") e) cwd = project_is cwd e.
Proof.
  unfold project_is, PyVal.get. destruct (PyVal.lookup "project" e) as [v|]; reflexivity.
Qed.

Lemma scan_history_last cwd best lines :
  Forall object_or_unparseable lines ->
  scan_history cwd best lines =
    Ok (match last (entries_of_project cwd lines) with
        | Some e => default JNull (PyVal.lookup "sessionId" e)
        | None => best
        end).
Proof.
  intros Hwf. revert best.
  induction Hwf as [|line lines Hline _ IH]; intros best; [reflexivity|].
  destruct line as [[| | | | | |e]| |exc]; simpl in Hline; try contradiction.
  - simpl. rewrite project_is_get. unfold entries_of_project. simpl.
    destruct (project_is cwd e); simpl.
    + rewrite IH. rewrite last_cons. fold (entries_of_project cwd lines).
      destruct (last (entries_of_project cwd lines)); reflexivity.
    + apply IH.
  - simpl. apply IH.
Qed.

(** Lines that are not JSON are passed over. *)
Lemma scan_history_skips cwd best lines :
  scan_history cwd best lines =
  scan_history cwd best (filter (fun line => not_json line = false) lines).
Proof.
  revert best. induction lines as [|[v| |e] lines IH]; intros best; [reflexivity| | |].
  - rewrite filter_cons_True by reflexivity.
    destruct v as [| | | | | |e]; simpl; try reflexivity.
    destruct (PyVal.eq_str _ cwd); apply IH.
  - rewrite filter_cons_False by discriminate. simpl. apply IH.
  - rewrite filter_cons_True by reflexivity. reflexivity.
Qed.

Lemma scan_history_app cwd (best : json) (l1 l2 : list loads) :
  scan_history cwd best (l1 ++ l2) =
    match scan_history cwd best l1 with
    | Ok b => scan_history cwd b l2
    | Err e => Err e
    end.
Proof.
  revert best. induction l1 as [|[v| |e] l1 IH]; intros best;
    [reflexivity| | |reflexivity].
  - destruct v as [| | | | | |entry]; simpl; try reflexivity.
    destruct (PyVal.eq_str _ cwd); apply IH.
  - simpl. apply IH.
Qed.

(** The first line that holds no object and is not skipped ends the loop
    with its exception. *)
Lemma scan_history_stops cwd best (pre : list loads) (line : loads) (post : list loads) :
  Forall object_or_unparseable pre -> ~ object_or_unparseable line ->
  scan_history cwd best (pre ++ line :: post) = Err (exception_of line).
Proof.
  intros Hpre Hline. rewrite scan_history_app, (scan_history_last _ _ _ Hpre).
  destruct line as [[| | | | | |e]| |e]; simpl in Hline; try reflexivity;
    contradiction Hline; exact I.
Qed.

End History.

(** C7, as the code has it. When on every line of the history log
    [json.loads] returns an object or raises [JSONDecodeError], the
    correlator returns the session id recorded on the last entry whose
    project is the directory (an entry without a project counting as
    having the empty string), and none when there is no such entry, when
    that entry records no session id, or when the log is absent; the
    lines that are not JSON change nothing. The first line of another
    kind makes the correlator raise: [AttributeError] when the line holds
    a value that is no object, and what [json.loads] raised when that is
    not a [JSONDecodeError]. *)
Theorem find_session_id_last_match (cwd : string) (w : world) :
  (history_file w = None ->
     find_session_id_for_cwd cwd w = (Returned JNull, w)) /\
  (forall lines,
     history_file w = Some lines ->
     Forall object_or_unparseable lines ->
     find_session_id_for_cwd cwd w =
       (Returned (last_session_of_project cwd lines), w) /\
     (entries_of_project cwd lines = [] ->
        find_session_id_for_cwd cwd w = (Returned JNull, w)) /\
     last_session_of_project cwd lines =
       last_session_of_project cwd
         (filter (fun line => not_json line = false) lines)) /\
  (forall pre line post,
     history_file w = Some (pre ++ line :: post)%list ->
     Forall object_or_unparseable pre ->
     ~ object_or_unparseable line ->
     find_session_id_for_cwd cwd w = (Raised (exception_of line), w)).
Proof.
  unfold find_session_id_for_cwd. split; [|split].
  - intros ->. reflexivity.
  - intros lines -> Hwf.
    rewrite (scan_history_last cwd JNull lines Hwf). fold (last_session_of_project cwd lines).
    split; [reflexivity|]. split.
    + intros Hnone. unfold last_session_of_project. rewrite Hnone. reflexivity.
    + assert (Hwf' : Forall object_or_unparseable
                       (filter (fun line => not_json line = false) lines))
        by (apply Forall_forall; intros line [_ Hin]%list_elem_of_filter;
            revert line Hin; apply Forall_forall; exact Hwf).
      pose proof (scan_history_skips cwd JNull lines) as Hskip.
      rewrite (scan_history_last cwd JNull lines Hwf) in Hskip.
      rewrite (scan_history_last cwd JNull _ Hwf') in Hskip.
      injection Hskip as Hskip. exact Hskip.
  - intros pre line post -> Hpre Hline.
    now rewrite (scan_history_stops cwd JNull pre line post Hpre Hline).
Qed.

Lemma find_session_id_last_match_witness :
  find_session_id_for_cwd "/p" (example_world [] (Some example_history)) =
  (Returned (JStr "S3"), example_world [] (Some example_history)).
Proof.
  change (JStr "S3") with (last_session_of_project "/p" example_history).
  refine (proj1 (proj1 (proj2 (find_session_id_last_match "/p"
                                 (example_world [] (Some example_history))))
                   example_history eq_refl _)).
  repeat constructor.
Defined.

(** C7 fails as stated: on a log with a line that holds a list, and
    on one with a line on which [json.loads] raises [ValueError], the
    correlator raises instead of returning. *)
Lemma find_session_id_counterexample :
  find_session_id_for_cwd "/p" (example_world [] (Some [Loaded (JArr [])])) =
    (Raised AttributeError, example_world [] (Some [Loaded (JArr [])])) /\
  find_session_id_for_cwd "/p"
    (example_world []
       (Some [Loaded (JObj [("sessionId", JStr "S1"); ("project", JStr "/p")]);
              LoadsRaised ValueError])) =
    (Raised ValueError,
     example_world []
       (Some [Loaded (JObj [("sessionId", JStr "S1"); ("project", JStr "/p")]);
              LoadsRaised ValueError])).
Proof. split; reflexivity. Qed.

(** An entry without a project is an entry of the empty directory; an
    entry of the directory that records no session id hides the session
    recorded before it. *)
Example find_session_id_defaults :
  find_session_id_for_cwd "" (example_world [] (Some example_history)) =
    (Returned JNull, example_world [] (Some example_history)) /\
  find_session_id_for_cwd ""
    (example_world [] (Some [Loaded (JObj [("sessionId", JStr "S4")])])) =
    (Returned (JStr "S4"),
     example_world [] (Some [Loaded (JObj [("sessionId", JStr "S4")])])) /\
  find_session_id_for_cwd "/p"
    (example_world []
       (Some [Loaded (JObj [("sessionId", JStr "S1"); ("project", JStr "/p")]);
              Loaded (JObj [("project", JStr "/p")])])) =
    (Returned JNull,
     example_world []
       (Some [Loaded (JObj [("sessionId", JStr "S1"); ("project", JStr "/p")]);
              Loaded (JObj [("project", JStr "/p")])])).
Proof. repeat split. Qed.

(** ** Text of a user message *)

Section Strings.

Implicit Types (s t p : string).

Lemma append_cons c s t : String c s ++ t = String c (s ++ t).
Proof. reflexivity. Qed.

Lemma append_assoc s t u : (s ++ t) ++ u = s ++ (t ++ u).
Proof.
  induction s as [|c s IH]; [reflexivity|].
  rewrite !append_cons. now rewrite IH.
Qed.

Lemma append_length s t :
  String.length (s ++ t) = (String.length s + String.length t)%nat.
Proof.
  induction s as [|c s IH]; [reflexivity|].
  rewrite append_cons. simpl. now rewrite IH.
Qed.

Lemma drop_append s t : PyStr.drop (String.length s) (s ++ t) = t.
Proof.
  induction s as [|c s IH]; [destruct t; reflexivity|].
  rewrite append_cons. exact IH.
Qed.

Lemma startswith_append p s : PyStr.startswith p (p ++ s) = true.
Proof.
  induction p as [|c p IH]; [reflexivity|].
  rewrite append_cons. simpl. rewrite Ascii.eqb_refl. exact IH.
Qed.

Lemma startswith_spec p s : PyStr.startswith p s = true <-> exists r, s = p ++ r.
Proof.
  split.
  - revert s. induction p as [|a p IH]; intros s H; simpl in *; [now exists s|].
    destruct s as [|b s]; [discriminate|].
    apply andb_prop in H as [Hab H]. apply Ascii.eqb_eq in Hab as ->.
    destruct (IH _ H) as [r ->]. exists r. reflexivity.
  - intros [r ->]. apply startswith_append.
Qed.

Lemma is_empty_spec s : PyStr.is_empty s = true <-> s = "".
Proof. destruct s; simpl; split; intros H; solve [reflexivity | discriminate H]. Qed.

Lemma is_command_marker_spec s : is_command_marker s = true <-> begins_with_marker s.
Proof.
  unfold is_command_marker, begins_with_marker.
  rewrite orb_true_iff, !startswith_spec. split.
  - intros [[r Hr]|[r Hr]]; exists r; auto.
  - intros [r [Hr|Hr]]; [left|right]; now exists r.
Qed.

Lemma find_succ p s n :
  PyStr.find p s = Some (S n) ->
  PyStr.startswith p s = false /\
  exists c s', s = String c s' /\ PyStr.find p s' = Some n.
Proof.
  destruct s as [|c s]; simpl.
  - destruct (PyStr.startswith p ""); discriminate.
  - destruct (PyStr.startswith p (String c s)); [discriminate|].
    intros H. split; [reflexivity|]. exists c, s. split; [reflexivity|].
    destruct (PyStr.find p s); simpl in H; congruence.
Qed.

End Strings.

Section Substitution.

Variables opn cls : string.

Lemma sub_between_skip (n : nat) (s : string) :
  sub_between opn cls n s = sub_between opn cls 0 (PyStr.drop n s).
Proof.
  revert n. induction s as [|c s IH]; intros [|n]; try reflexivity.
  simpl. apply IH.
Qed.

(** Before the first occurrence of [opn] nothing is removed. *)
Lemma sub_between_before (pre rest : string) :
  PyStr.find opn (pre ++ rest) = Some (String.length pre) ->
  sub_between opn cls 0 (pre ++ rest) = pre ++ sub_between opn cls 0 rest.
Proof.
  induction pre as [|c pre IH]; intros Hfind; [reflexivity|].
  apply find_succ in Hfind as (Hno & c' & s' & Heq & Hfind).
  injection Heq as <- <-.
  change (sub_between opn cls 0 (String c pre ++ rest))
    with (if PyStr.startswith opn (String c (pre ++ rest)) then
            match PyStr.find cls (PyStr.drop (String.length opn) (String c (pre ++ rest))) with
            | Some j => sub_between opn cls
                          (Nat.pred (String.length opn + j + String.length cls))
                          (pre ++ rest)
            | None => String c (sub_between opn cls 0 (pre ++ rest))
            end
          else String c (sub_between opn cls 0 (pre ++ rest))).
  change (String c pre ++ rest) with (String c (pre ++ rest)) in Hno.
  rewrite Hno, (IH Hfind). reflexivity.
Qed.

(** Text without [opn] is left as it is. *)
Lemma sub_between_none (s : string) :
  PyStr.find opn s = None -> sub_between opn cls 0 s = s.
Proof.
  induction s as [|c s IH]; intros Hfind; [reflexivity|].
  simpl in Hfind.
  change (sub_between opn cls 0 (String c s))
    with (if PyStr.startswith opn (String c s) then
            match PyStr.find cls (PyStr.drop (String.length opn) (String c s)) with
            | Some j => sub_between opn cls
                          (Nat.pred (String.length opn + j + String.length cls)) s
            | None => String c (sub_between opn cls 0 s)
            end
          else String c (sub_between opn cls 0 s)).
  destruct (PyStr.startswith opn (String c s)); [discriminate|].
  destruct (PyStr.find opn s); [discriminate|]. now rewrite IH.
Qed.

Lemma find_none_drop (p s : string) (k : nat) :
  PyStr.find p s = None -> PyStr.find p (PyStr.drop k s) = None.
Proof.
  revert k. induction s as [|c s IH]; intros [|k] Hfind; try exact Hfind.
  simpl. apply IH. simpl in Hfind.
  destruct (PyStr.startswith p (String c s)); [discriminate|].
  destruct (PyStr.find p s); [discriminate|reflexivity].
Qed.

(** Text in which [cls] does not occur is left as it is. *)
Lemma sub_between_unclosed (s : string) :
  PyStr.find cls s = None -> sub_between opn cls 0 s = s.
Proof.
  induction s as [|c s IH]; intros Hfind; [reflexivity|].
  change (sub_between opn cls 0 (String c s))
    with (if PyStr.startswith opn (String c s) then
            match PyStr.find cls (PyStr.drop (String.length opn) (String c s)) with
            | Some j => sub_between opn cls
                          (Nat.pred (String.length opn + j + String.length cls)) s
            | None => String c (sub_between opn cls 0 s)
            end
          else String c (sub_between opn cls 0 s)).
  rewrite (find_none_drop cls (String c s) (String.length opn) Hfind).
  rewrite IH by exact (find_none_drop cls (String c s) 1 Hfind).
  now destruct (PyStr.startswith opn (String c s)).
Qed.

End Substitution.

(** A region from the opening string to the first closing string behind it
    is removed, whatever stands between them. *)
Lemma sub_between_region (a : ascii) (o' cls body post : string) :
  PyStr.find cls (body ++ cls ++ post) = Some (String.length body) ->
  sub_between (String a o') cls 0 (String a o' ++ body ++ cls ++ post) =
  sub_between (String a o') cls 0 post.
Proof.
  intros Hfind.
  change (sub_between (String a o') cls 0 (String a o' ++ body ++ cls ++ post))
    with (if PyStr.startswith (String a o') (String a o' ++ body ++ cls ++ post) then
            match PyStr.find cls (PyStr.drop (String.length (String a o'))
                                    (String a o' ++ body ++ cls ++ post)) with
            | Some j => sub_between (String a o') cls
                          (Nat.pred (String.length (String a o') + j + String.length cls))
                          (o' ++ body ++ cls ++ post)
            | None => String a (sub_between (String a o') cls 0 (o' ++ body ++ cls ++ post))
            end
          else String a (sub_between (String a o') cls 0 (o' ++ body ++ cls ++ post))).
  rewrite startswith_append, drop_append, Hfind, sub_between_skip.
  replace (Nat.pred (String.length (String a o') + String.length body + String.length cls))
    with (String.length (o' ++ body ++ cls))
    by (rewrite !append_length; simpl; lia).
  replace (o' ++ body ++ cls ++ post) with ((o' ++ body ++ cls) ++ post)
    by (rewrite !append_assoc; reflexivity).
  now rewrite drop_append.
Qed.

Section UserText.

Lemma strip_reminders_region (pre body post : string) :
  PyStr.find reminder_open
    (pre ++ reminder_open ++ body ++ reminder_close ++ post)
    = Some (String.length pre) ->
  PyStr.find reminder_close (body ++ reminder_close ++ post)
    = Some (String.length body) ->
  strip_reminders (pre ++ reminder_open ++ body ++ reminder_close ++ post)
    = pre ++ strip_reminders post.
Proof.
  intros Hopen Hclose. unfold strip_reminders.
  change "<system-reminder>" with reminder_open.
  change "</system-reminder>" with reminder_close.
  rewrite sub_between_before by exact Hopen. f_equal.
  apply (sub_between_region "<" "system-reminder>"). exact Hclose.
Qed.

(** A closing tag does not begin inside an opening tag. *)
Lemma find_close_behind_open (rest : string) :
  PyStr.find reminder_close rest = None ->
  PyStr.find reminder_close (reminder_open ++ rest) = None.
Proof.
  intros Hfind. unfold reminder_open.
  repeat (rewrite append_cons;
          match goal with
          | |- PyStr.find ?p (String ?c ?t) = None =>
              change (PyStr.find p (String c t))
                with (if PyStr.startswith p (String c t) then Some 0%nat
                      else S <$> PyStr.find p t);
              replace (PyStr.startswith p (String c t)) with false
                by (unfold reminder_close; simpl; now destruct t);
              cut (PyStr.find p t = None); [now intros ->|]
          end).
  exact Hfind.
Qed.

(** An opening tag with no closing tag behind it stays, with all that
    follows it. *)
Lemma strip_reminders_unclosed (pre rest : string) :
  PyStr.find reminder_open (pre ++ reminder_open ++ rest)
    = Some (String.length pre) ->
  PyStr.find reminder_close rest = None ->
  strip_reminders (pre ++ reminder_open ++ rest) = pre ++ reminder_open ++ rest.
Proof.
  intros Hopen Hclose. unfold strip_reminders.
  change "<system-reminder>" with reminder_open.
  change "</system-reminder>" with reminder_close.
  rewrite sub_between_before by exact Hopen. f_equal.
  apply sub_between_unclosed, find_close_behind_open, Hclose.
Qed.

Lemma type_is (k : string) (c : list (string * json)) :
  PyVal.eq_str (PyVal.get "type" JNull c) k = true <->
  PyVal.lookup "type" c = Some (JStr k).
Proof.
  unfold PyVal.get. destruct (PyVal.lookup "type" c) as [[]|]; simpl;
    try (split; intros H; discriminate H).
  rewrite String.eqb_eq. split; congruence.
Qed.

Lemma cleaned_of_empty (raw : string) : PyStr.strip raw = "" -> cleaned raw = "".
Proof. unfold cleaned. intros ->. reflexivity. Qed.

Lemma accept_text_ignored (raw : string) :
  PyStr.strip raw = "" \/ begins_with_marker (PyStr.strip raw) ->
  accept_text raw = None.
Proof.
  unfold accept_text. intros [H|H].
  - rewrite H. reflexivity.
  - apply is_command_marker_spec in H. rewrite H.
    now rewrite andb_false_r.
Qed.

Lemma accept_text_taken (raw : string) :
  PyStr.strip raw <> "" -> ~ begins_with_marker (PyStr.strip raw) ->
  accept_text raw = Some (nonempty (cleaned raw)).
Proof.
  unfold accept_text. intros Hne Hnm.
  destruct (PyStr.is_empty (PyStr.strip raw)) eqn:E;
    [apply is_empty_spec in E; contradiction|].
  destruct (is_command_marker (PyStr.strip raw)) eqn:Em;
    [apply is_command_marker_spec in Em; contradiction|].
  reflexivity.
Qed.

Lemma first_text_block_passes (l1 l2 : list json) :
  Forall passed_over l1 ->
  first_text_block (l1 ++ l2) = first_text_block l2.
Proof.
  induction 1 as [|v l1 Hv _ IH]; [reflexivity|].
  destruct v as [| | | | | |c]; try exact IH.
  simpl. destruct Hv as [Hty|(raw & (Hty & Htx) & Hraw)].
  - destruct (PyVal.eq_str (PyVal.get "type" JNull c) "text") eqn:E; [|exact IH].
    apply type_is in E. contradiction.
  - apply type_is in Hty. rewrite Hty, Htx.
    rewrite (accept_text_ignored raw Hraw). exact IH.
Qed.

Lemma first_text_block_decides (c : list (string * json)) (raw : string)
    (rest : list json) :
  is_text_block c raw ->
  PyStr.strip raw <> "" -> ~ begins_with_marker (PyStr.strip raw) ->
  first_text_block (JObj c :: rest) = Ok (nonempty (cleaned raw)).
Proof.
  intros [Hty Htx] Hne Hnm. simpl.
  apply type_is in Hty. rewrite Hty, Htx.
  now rewrite (accept_text_taken raw Hne Hnm).
Qed.

(** A text block without a text, or with a text that is no string, makes
    the loop raise when it is reached. *)
Lemma first_text_block_raises_at (c : list (string * json)) (rest : list json) :
  PyVal.lookup "type" c = Some (JStr "text") ->
  (PyVal.lookup "text" c = None ->
   first_text_block (JObj c :: rest) = Err KeyError) /\
  (forall v, PyVal.lookup "text" c = Some v -> (forall raw, v <> JStr raw) ->
   first_text_block (JObj c :: rest) = Err AttributeError).
Proof.
  intros Hty. simpl. apply type_is in Hty. rewrite Hty. split.
  - now intros ->.
  - intros v -> Hv. destruct v; try reflexivity. now contradiction (Hv s).
Qed.

End UserText.

(** C8, as the code has it. The extractor removes from the text, from the
    left, every region that goes from an opening reminder tag to the first
    closing tag behind it, whatever stands between them, leaves an opening
    tag that no closing tag follows, and strips the result. On a string
    content it returns none when the stripped text begins with a command
    marker or when nothing is left. On a list content it passes over the
    blocks that are not texts and the texts that are empty or begin with a
    command marker, and the first other block decides: a text that is a
    string is returned as far as something is left of it, or none; a text
    block without a text raises [KeyError], one whose text is no string
    [AttributeError]. A content that is neither gives none. *)
Theorem extract_user_text_rules :
  (forall d s,
     user_content d = JStr s ->
     (begins_with_marker (PyStr.strip s) -> _extract_user_text d = Ok None) /\
     (cleaned s = "" -> _extract_user_text d = Ok None) /\
     (~ begins_with_marker (PyStr.strip s) -> cleaned s <> "" ->
        _extract_user_text d = Ok (Some (cleaned s)))) /\
  (forall d l,
     user_content d = JArr l ->
     (Forall passed_over l -> _extract_user_text d = Ok None) /\
     (forall l1 c raw l2,
        l = (l1 ++ JObj c :: l2)%list ->
        Forall passed_over l1 -> is_text_block c raw ->
        PyStr.strip raw <> "" -> ~ begins_with_marker (PyStr.strip raw) ->
        _extract_user_text d = Ok (nonempty (cleaned raw))) /\
     (forall l1 c l2,
        l = (l1 ++ JObj c :: l2)%list ->
        Forall passed_over l1 ->
        PyVal.lookup "type" c = Some (JStr "text") ->
        (PyVal.lookup "text" c = None -> _extract_user_text d = Err KeyError) /\
        (forall v, PyVal.lookup "text" c = Some v -> (forall raw, v <> JStr raw) ->
           _extract_user_text d = Err AttributeError))) /\
  (forall d,
     (forall s, user_content d <> JStr s) -> (forall l, user_content d <> JArr l) ->
     _extract_user_text d = Ok None) /\
  (forall pre body post,
     PyStr.find reminder_open
       (pre ++ reminder_open ++ body ++ reminder_close ++ post)
       = Some (String.length pre) ->
     PyStr.find reminder_close (body ++ reminder_close ++ post)
       = Some (String.length body) ->
     strip_reminders (pre ++ reminder_open ++ body ++ reminder_close ++ post)
       = pre ++ strip_reminders post) /\
  (forall pre rest,
     PyStr.find reminder_open (pre ++ reminder_open ++ rest)
       = Some (String.length pre) ->
     PyStr.find reminder_close rest = None ->
     strip_reminders (pre ++ reminder_open ++ rest) = pre ++ reminder_open ++ rest) /\
  (forall s, PyStr.find reminder_open s = None -> strip_reminders s = s).
Proof.
  split; [|split; [|split; [|split; [|split]]]].
  - intros d s Hc. unfold _extract_user_text. rewrite Hc.
    split; [|split].
    + intros Hm. now rewrite accept_text_ignored by (right; exact Hm).
    + intros Hcl.
      destruct (PyStr.is_empty (PyStr.strip s)) eqn:E.
      { apply is_empty_spec in E. now rewrite accept_text_ignored by (left; exact E). }
      destruct (is_command_marker (PyStr.strip s)) eqn:Em.
      { apply is_command_marker_spec in Em.
        now rewrite accept_text_ignored by (right; exact Em). }
      rewrite accept_text_taken.
      * unfold nonempty. rewrite Hcl. reflexivity.
      * intros H. apply is_empty_spec in H. congruence.
      * intros H. apply is_command_marker_spec in H. congruence.
    + intros Hnm Hcl.
      rewrite accept_text_taken; [| |exact Hnm].
      * unfold nonempty. simpl.
        destruct (PyStr.is_empty (cleaned s)) eqn:E; [|reflexivity].
        apply is_empty_spec in E. contradiction.
      * intros H. apply Hcl, cleaned_of_empty, H.
  - intros d l Hc. unfold _extract_user_text. rewrite Hc. split; [|split].
    + intros Hall. rewrite <- (app_nil_r l).
      now rewrite first_text_block_passes.
    + intros l1 c raw l2 -> Hall Hblk Hne Hnm.
      rewrite first_text_block_passes by exact Hall.
      now apply first_text_block_decides.
    + intros l1 c l2 -> Hall Hty.
      rewrite first_text_block_passes by exact Hall.
      exact (first_text_block_raises_at c l2 Hty).
  - intros d Hs Hl. unfold _extract_user_text.
    destruct (user_content d) as [| | | |s|l|]; try reflexivity;
      [contradiction (Hs s)|contradiction (Hl l)]; reflexivity.
  - apply strip_reminders_region.
  - apply strip_reminders_unclosed.
  - intros s. apply sub_between_none.
Qed.

Lemma extract_user_text_rules_witness :
  _extract_user_text (example_user_entry (JStr example_reminder_text))
  = Ok (Some "fix the parser").
Proof.
  change "fix the parser" with (cleaned example_reminder_text).
  refine (proj2 (proj2 (proj1 extract_user_text_rules
                          (example_user_entry (JStr example_reminder_text))
                          example_reminder_text eq_refl)) _ _).
  - intros [rest [H|H]]; vm_compute in H; discriminate H.
  - vm_compute. discriminate.
Defined.

(** C8 fails as stated: the text of the message begins with a command
    marker, and the extractor returns the text of the block behind it. *)
Lemma extract_user_text_counterexample :
  begins_with_marker "<command-name>/clear</command-name>" /\
  _extract_user_text
    (example_user_entry
       (JArr [example_text_block "<command-name>/clear</command-name>";
              example_text_block "fix the parser"]))
  <> Ok None /\
  _extract_user_text
    (example_user_entry
       (JArr [example_text_block "<command-name>/clear</command-name>";
              example_text_block "fix the parser"]))
  = Ok (Some "fix the parser").
Proof.
  split; [|split; [vm_compute; discriminate|reflexivity]].
  exists "name>/clear</command-name>". right. reflexivity.
Qed.

(** The removal on sample texts: a region over several lines, two
    regions, an opening tag that is never closed, and a text in which the
    removal of one region brings the halves of another together. *)
Example strip_reminders_examples :
  strip_reminders ("a<system-reminder>x" ++ String "010" "y</system-reminder>b") = "ab" /\
  strip_reminders "<system-reminder>1</system-reminder>-<system-reminder>2</system-reminder>"
    = "-" /\
  strip_reminders "a<system-reminder>b" = "a<system-reminder>b" /\
  strip_reminders
    "<system-<system-reminder></system-reminder>reminder>x</system-reminder>"
    = "<system-reminder>x</system-reminder>".
Proof. repeat split. Qed.

(** ** Session context *)

Section SessionContext.

Local Open Scope list_scope.

Implicit Types (st : scan) (c d : list (string * json)).

Lemma last_drop {A} (l : list A) (n : nat) :
  (n < length l)%nat -> last (drop n l) = last l.
Proof.
  intros Hn. rewrite !last_lookup, length_drop, lookup_drop. f_equal. lia.
Qed.

Lemma tail_slice_5 {A} (l : list A) :
  (length (tail_slice 5 l) <= 5)%nat /\
  (tail_slice 5 l <> [] -> last (tail_slice 5 l) = last l).
Proof.
  unfold tail_slice. simpl. split.
  - rewrite length_drop. lia.
  - intros Hne. apply last_drop.
    destruct l; [contradiction Hne; apply drop_nil|simpl; lia].
Qed.

(** Appending a tool name keeps the state in step. *)
Lemma tools_in_step_block st c :
  tools_in_step st -> tools_in_step (fst (assistant_block st c)).
Proof.
  intros Hst. unfold assistant_block, tools_in_step.
  destruct (PyVal.eq_str (PyVal.get "type" JNull c) "tool_use");
    destruct (PyVal.eq_str (PyVal.get "type" JNull c) "text");
    try destruct (PyVal.lookup "text" c) as [[| | | |raw| |]|];
    try destruct (PyStr.is_empty (PyStr.strip raw));
    simpl; try exact Hst; right; apply last_snoc.
Qed.

Lemma tools_in_step_blocks st (content : list json) :
  tools_in_step st -> tools_in_step (fst (assistant_blocks st content)).
Proof.
  revert st. induction content as [|v content IH]; intros st Hst; [exact Hst|].
  destruct v as [| | | | | |c]; try (apply IH; exact Hst).
  simpl. pose proof (tools_in_step_block st c Hst) as Hc.
  destruct (assistant_block st c) as [st' [e|]]; [exact Hc|apply IH, Hc].
Qed.

Lemma tools_in_step_line st (line : loads) :
  tools_in_step st -> tools_in_step (fst (tail_line st line)).
Proof.
  intros Hst. destruct line as [[| | | | | |d]| |exc]; try exact Hst;
    try (destruct exc; exact Hst).
  unfold tail_line.
  destruct (PyVal.eq_str (PyVal.get "type" (JStr "") d) "user").
  - destruct (_extract_user_text d) as [[text|]|[]]; try exact Hst;
      [destruct (PyStr.is_empty text)|];
      (destruct (PyVal.eq_str (PyVal.get "type" (JStr "") d) "assistant");
       [|exact Hst]);
      (destruct (assistant_content d) as [| | | | |l|]; try exact Hst);
      match goal with
      | |- context [assistant_blocks ?s l] =>
          pose proof (tools_in_step_blocks s l Hst) as Hl;
          destruct (assistant_blocks s l) as [st2 [[]|]]; exact Hl
      end.
  - destruct (PyVal.eq_str (PyVal.get "type" (JStr "") d) "assistant");
      [|exact Hst].
    destruct (assistant_content d) as [| | | | |l|]; try exact Hst.
    pose proof (tools_in_step_blocks st l Hst) as Hl.
    destruct (assistant_blocks st l) as [st2 [[]|]]; exact Hl.
Qed.

Lemma tools_in_step_loop st (lines : list loads) st' :
  tools_in_step st -> tail_loop st lines = Ok st' -> tools_in_step st'.
Proof.
  revert st. induction lines as [|line lines IH]; intros st Hst Hloop.
  - injection Hloop as <-. exact Hst.
  - simpl in Hloop. pose proof (tools_in_step_line st line Hst) as Hl.
    destruct (tail_line st line) as [st1 [e|]]; [discriminate|].
    exact (IH st1 Hl Hloop).
Qed.

(** On blocks whose texts are strings, the extraction raises nothing. *)
Lemma first_text_block_returns (content : list json) :
  Forall text_is_string content -> exists r, first_text_block content = Ok r.
Proof.
  induction 1 as [|v content Hv _ IH]; [now exists None|].
  destruct v as [| | | | | |c]; try exact IH.
  simpl. destruct (PyVal.eq_str (PyVal.get "type" JNull c) "text") eqn:E;
    [|exact IH].
  apply type_is in E. destruct (Hv E) as [raw ->].
  destruct (accept_text raw) as [r|]; [now exists r|exact IH].
Qed.

Lemma extract_user_text_returns d :
  (forall l, user_content d = JArr l -> Forall text_is_string l) ->
  exists r, _extract_user_text d = Ok r.
Proof.
  intros Hwf. unfold _extract_user_text.
  destruct (user_content d) as [| | | |s|l|]; eauto.
  apply first_text_block_returns, Hwf. reflexivity.
Qed.

Lemma first_user_loop_returns (first_user : option string)
    (lines : list loads) :
  Forall transcript_line lines ->
  exists r, first_user_loop first_user lines = Ok r.
Proof.
  intros Hwf. revert first_user.
  induction Hwf as [|line lines Hline _ IH]; intros first_user; [now eexists|].
  simpl. destruct (text_truthy first_user); [now eexists|].
  destruct line as [[| | | | | |d]| |exc]; simpl in Hline; try contradiction;
    [|apply IH].
  destruct (PyVal.eq_str (PyVal.get "type" JNull d) "user"); [|apply IH].
  destruct (extract_user_text_returns d (proj1 Hline)) as [[text|] ->];
    [destruct (PyStr.is_empty text)|]; apply IH.
Qed.

Lemma tool_names_cons c (content : list json) :
  tool_names (JObj c :: content) =
  if PyVal.eq_str (PyVal.get "type" JNull c) "tool_use"
  then PyVal.get "name" (JStr "") c :: tool_names content
  else tool_names content.
Proof.
  unfold tool_names. simpl.
  destruct (PyVal.eq_str (PyVal.get "type" JNull c) "tool_use"); reflexivity.
Qed.

(** On such blocks the loop over a content ends without exception and
    records the names of its tool_use blocks. *)
Lemma assistant_blocks_tools st (content : list json) :
  Forall text_is_string content ->
  exists st',
    assistant_blocks st content = (st', None) /\
    recent_tools st' = recent_tools st ++ tool_names content /\
    last_tool_name st' =
      default (last_tool_name st) (last (tool_names content)).
Proof.
  intros Hwf. revert st.
  induction Hwf as [|v content Hv _ IH]; intros st.
  - exists st. rewrite app_nil_r. auto.
  - destruct v as [| | | | | |c]; try (exact (IH st)).
    rewrite tool_names_cons. simpl.
    assert (Hblk : exists la,
              assistant_block st c =
                (if PyVal.eq_str (PyVal.get "type" JNull c) "tool_use" then
                   {| last_user := last_user st; last_assistant := la;
                      recent_tools := recent_tools st ++ [PyVal.get "name" (JStr "") c];
                      last_tool_name := PyVal.get "name" (JStr "") c |}
                 else
                   {| last_user := last_user st; last_assistant := la;
                      recent_tools := recent_tools st;
                      last_tool_name := last_tool_name st |}, None)).
    { unfold assistant_block.
      destruct (PyVal.eq_str (PyVal.get "type" JNull c) "text") eqn:E.
      - apply type_is in E. destruct (Hv E) as [raw ->].
        destruct (PyStr.is_empty (PyStr.strip raw));
          destruct (PyVal.eq_str (PyVal.get "type" JNull c) "tool_use");
          destruct st; eexists; reflexivity.
      - destruct (PyVal.eq_str (PyVal.get "type" JNull c) "tool_use");
          destruct st; eexists; reflexivity. }
    destruct Hblk as [la ->].
    destruct (PyVal.eq_str (PyVal.get "type" JNull c) "tool_use").
    + edestruct IH as (st' & -> & Hr & Hl). exists st'.
      split; [reflexivity|]. rewrite Hr, Hl. simpl.
      split; [now rewrite <- app_assoc|].
      rewrite last_cons. destruct (last (tool_names content)); reflexivity.
    + edestruct IH as (st' & -> & Hr & Hl). exists st'.
      split; [reflexivity|]. rewrite Hr, Hl. auto.
Qed.

Lemma tail_line_tools st (line : loads) :
  transcript_line line ->
  exists st',
    tail_line st line = (st', None) /\
    recent_tools st' = recent_tools st ++ line_tools line /\
    last_tool_name st' =
      default (last_tool_name st) (last (line_tools line)).
Proof.
  intros Hwf.
  destruct line as [[| | | | | |d]| |exc]; simpl in Hwf; try contradiction;
    [|exists st; rewrite app_nil_r; auto].
  destruct Hwf as [Hu Ha]. unfold tail_line, line_tools.
  assert (Huser : exists st1,
            (if PyVal.eq_str (PyVal.get "type" (JStr "") d) "user" then
               match _extract_user_text d with
               | Ok (Some text) =>
                   if PyStr.is_empty text then Ok st
                   else Ok {| last_user := Some (PyStr.take 200 text);
                              last_assistant := last_assistant st;
                              recent_tools := recent_tools st;
                              last_tool_name := last_tool_name st |}
               | Ok None => Ok st
               | Err e => Err e
               end
             else Ok st) = Ok st1 /\
            recent_tools st1 = recent_tools st /\
            last_tool_name st1 = last_tool_name st).
  { destruct (PyVal.eq_str (PyVal.get "type" (JStr "") d) "user"); [|eauto].
    destruct (extract_user_text_returns d Hu) as [[text|] ->]; [|eauto].
    destruct (PyStr.is_empty text); eauto. }
  destruct Huser as (st1 & -> & Hr1 & Hl1).
  destruct (PyVal.eq_str (PyVal.get "type" (JStr "") d) "assistant");
    [|exists st1; rewrite app_nil_r; auto].
  destruct (assistant_content d) as [| | | | |l|] eqn:Ec;
    try (exists st1; rewrite app_nil_r; auto).
  destruct (assistant_blocks_tools st1 l (Ha l eq_refl)) as (st2 & -> & Hr2 & Hl2).
  exists st2. rewrite Hr2, Hl2, Hr1, Hl1. auto.
Qed.

Lemma tail_loop_tools st (lines : list loads) :
  Forall transcript_line lines ->
  exists st',
    tail_loop st lines = Ok st' /\
    recent_tools st' = recent_tools st ++ concat (line_tools <$> lines) /\
    last_tool_name st' =
      default (last_tool_name st) (last (concat (line_tools <$> lines))).
Proof.
  intros Hwf. revert st.
  induction Hwf as [|line lines Hline _ IH]; intros st.
  - exists st. rewrite app_nil_r. auto.
  - simpl. destruct (tail_line_tools st line Hline) as (st1 & -> & Hr1 & Hl1).
    destruct (IH st1) as (st' & -> & Hr & Hl). exists st'.
    split; [reflexivity|]. rewrite Hr, Hl, Hr1, Hl1.
    split; [now rewrite <- app_assoc|].
    rewrite last_app.
    change (list_fmap _ _ line_tools lines) with (line_tools <$> lines).
    destruct (last (concat (line_tools <$> lines))); reflexivity.
Qed.

End SessionContext.

(** C10, as the code has it. The context extracted from a readable
    transcript has at most five recent tools, and when it has any, its
    last tool is the last of them. On a transcript whose lines are not
    JSON or hold objects with string texts the extractor returns such a
    context, the recent tools are the last five names of the tool_use
    blocks of the scanned tail, and the last tool is the name of the last
    such block. *)
Theorem session_context_recent_tools (lines : list loads) (max_tail_lines : Z) :
  (forall ctx,
     extract_session_context (Some lines) max_tail_lines = Ok ctx ->
     exists c, ctx = Some c /\
       (length (recentTools c) <= 5)%nat /\
       (recentTools c <> [] -> last (recentTools c) = Some (lastTool c))) /\
  (Forall transcript_line lines ->
     exists c,
       extract_session_context (Some lines) max_tail_lines = Ok (Some c) /\
       recentTools c =
         tail_slice 5 (concat (line_tools <$> tail_slice max_tail_lines lines)) /\
       lastTool c =
         default JNull
           (last (concat (line_tools <$> tail_slice max_tail_lines lines)))).
Proof.
  unfold extract_session_context. split.
  - intros ctx Hctx.
    destruct (first_user_loop None (take 30 lines)) as [fu|e]; [|discriminate].
    simpl in Hctx.
    destruct (tail_loop _ (tail_slice max_tail_lines lines)) as [st|e] eqn:Hloop;
      [|discriminate].
    simpl in Hctx. injection Hctx as <-. eexists. split; [reflexivity|]. simpl.
    apply tools_in_step_loop in Hloop; [|now left].
    destruct (tail_slice_5 (recent_tools st)) as [Hlen Hlast].
    split; [exact Hlen|]. intros Hne. rewrite (Hlast Hne).
    destruct Hloop as [Hnil|Hl]; [|exact Hl].
    rewrite Hnil in Hne. contradiction Hne. apply drop_nil.
  - intros Hwf.
    destruct (first_user_loop_returns None (take 30 lines)) as [fu ->];
      [apply Forall_take, Hwf|].
    assert (Htail : Forall transcript_line (tail_slice max_tail_lines lines))
      by (unfold tail_slice; destruct (0 <? max_tail_lines)%Z; apply Forall_drop, Hwf).
    edestruct (tail_loop_tools) as (st & -> & Hr & Hl); [exact Htail|].
    eexists. split; [reflexivity|]. simpl. rewrite Hr, Hl. auto.
Qed.

Lemma session_context_recent_tools_witness :
  exists c,
    extract_session_context (Some example_transcript) 80 = Ok (Some c) /\
    recentTools c = [JStr "Read"; JStr "Grep"; JStr "Read"; JStr "Edit"; JStr "Bash"] /\
    lastTool c = JStr "Bash".
Proof.
  refine (proj2 (session_context_recent_tools example_transcript 80) _).
  unfold example_transcript.
  repeat apply Forall_cons_2; try apply Forall_nil_2; try exact I;
    (split; intros l H; vm_compute in H; try discriminate H; injection H as <-;
     repeat apply Forall_cons_2; try apply Forall_nil_2;
     simpl; intros Ht; try discriminate Ht; eexists; reflexivity).
Defined.

(** C10 fails as stated: a text block without text ends the scan of its
    line with a [KeyError] that the loop catches; the tool_use block
    before it is recorded, the one behind it is not, so the last tool of
    the context is not the name of the last tool_use block of the tail. *)
Lemma session_context_recent_tools_counterexample :
  extract_session_context
    (Some [example_assistant_entry
             [example_tool_use "Read"; JObj [("type", JStr "text")];
              example_tool_use "Bash"]]) 80
  = Ok (Some {| ctx_firstPrompt := None; lastUserMessage := None;
                lastAssistantResponse := None;
                recentTools := [JStr "Read"]; lastTool := JStr "Read" |}) /\
  last (concat (line_tools <$>
                  tail_slice 80
                    [example_assistant_entry
                       [example_tool_use "Read"; JObj [("type", JStr "text")];
                        example_tool_use "Bash"]]))
  = Some (JStr "Bash").
Proof. split; reflexivity. Qed.

(** A line that holds something else than an object makes the extractor
    raise, and so does a line on which [json.loads] raises another
    exception than the two the loops catch. *)
Example session_context_attribute_error :
  extract_session_context (Some [Loaded (JInt 1)]) 80 = Err AttributeError /\
  extract_session_context (Some [LoadsRaised RecursionError]) 80
  = Err RecursionError /\
  extract_session_context (Some [LoadsRaised KeyError; DecodeError]) 80
  = Ok (Some {| ctx_firstPrompt := None; lastUserMessage := None;
                lastAssistantResponse := None;
                recentTools := []; lastTool := JNull |}).
Proof. repeat split. Qed.

(** ** Process discovery *)

(** Not below a positive float: at least that float, or not a number. *)
Lemma not_below_positive (x : spec_float) (m0 : positive) (e0 : Z) :
  SFltb x (S754_finite false m0 e0) = false <->
  SFleb (S754_finite false m0 e0) x = true \/ x = S754_nan.
Proof.
  unfold SFltb, SFleb.
  destruct x as [s|s| |s m e].
  - split; [discriminate|intros [H|H]; discriminate H].
  - destruct s; cbv beta iota delta [SFcompare].
    + split; [discriminate|intros [H|H]; discriminate H].
    + split; [auto|reflexivity].
  - split; [auto|reflexivity].
  - destruct s; cbv beta iota delta [SFcompare].
    + split; [discriminate|intros [H|H]; discriminate H].
    + rewrite (Z.compare_antisym e e0).
      destruct (e ?= e0)%Z; cbv beta iota delta [CompOpp].
      * rewrite !Pos.compare_cont_spec. unfold Pos.switch_Eq.
        rewrite (Pos.compare_antisym m m0).
        destruct (m ?= m0)%positive; cbv beta iota delta [CompOpp].
        all: try (split; [auto|reflexivity]).
        all: try (split; [discriminate|intros [H|H]; discriminate H]).
      * split; [discriminate|intros [H|H]; discriminate H].
      * split; [auto|reflexivity].
Qed.

Section Candidates.

Local Open Scope list_scope.

Implicit Types (line : string) (t : candidate) (x : spec_float).

(** A tuple comes from a row that passed every test; its CPU value is
    not below [1.0]. *)
Lemma ps_line_kept line t :
  ps_line line = Ok (Some t) ->
  claude_row (PyStr.split line) /\
  t.1.2 = row_cpu (PyStr.split line) /\
  PyNum.lt (row_cpu (PyStr.split line)) PyNum.one = false /\
  PyNum.int_of_string (nth 1 (PyStr.split line) "") = Some t.1.1 /\
  t.2 = nth 8 (PyStr.split line) "".
Proof.
  unfold ps_line, claude_row. fold (row_cpu (PyStr.split line)).
  destruct (length (PyStr.split line) <? 11)%nat eqn:El; [discriminate|].
  apply Nat.ltb_ge in El.
  destruct (PyStr.endswith "/claude" (nth 10 (PyStr.split line) "")
            || String.eqb (nth 10 (PyStr.split line) "") "claude") eqn:Ec;
    [|discriminate].
  destruct (PyStr.startswith "s0" (nth 6 (PyStr.split line) "")
            && PyStr.contains "+" (nth 7 (PyStr.split line) "")) eqn:Et;
    [|discriminate].
  destruct (PyNum.lt (row_cpu (PyStr.split line)) PyNum.one) eqn:Elt;
    [discriminate|].
  destruct (PyNum.int_of_string (nth 1 (PyStr.split line) "")) as [p|];
    [|discriminate].
  intros [= <-]. simpl.
  apply orb_true_iff in Ec. rewrite String.eqb_eq in Ec.
  apply andb_true_iff in Et. auto.
Qed.

(** What the loop body makes of a row that passed the tests on command,
    terminal and state. *)
Lemma ps_line_claude_row line :
  claude_row (PyStr.split line) ->
  ps_line line =
    if PyNum.lt (row_cpu (PyStr.split line)) PyNum.one then Ok None
    else match PyNum.int_of_string (nth 1 (PyStr.split line) "") with
         | Some p => Ok (Some (p, row_cpu (PyStr.split line),
                               nth 8 (PyStr.split line) ""))
         | None => Err ValueError
         end.
Proof.
  intros (Hlen & Hcomm & Htty & Hst). unfold ps_line.
  fold (row_cpu (PyStr.split line)).
  apply Nat.ltb_ge in Hlen. rewrite Hlen, Htty, Hst.
  replace (PyStr.endswith "/claude" (nth 10 (PyStr.split line) "")
           || String.eqb (nth 10 (PyStr.split line) "") "claude") with true;
    [reflexivity|].
  symmetry. apply orb_true_iff. rewrite String.eqb_eq. exact Hcomm.
Qed.

Lemma ps_lines_elem (acc : list candidate) (lines : list string) (l : list candidate) :
  ps_lines acc lines = Ok l ->
  forall t, t ∈ l <-> t ∈ acc \/ exists line, line ∈ lines /\ ps_line line = Ok (Some t).
Proof.
  revert acc. induction lines as [|line lines IH]; intros acc Hl t.
  - injection Hl as <-. split; [auto|].
    intros [H|(line & Hin & _)]; [exact H|]. inversion Hin.
  - simpl in Hl. destruct (ps_line line) as [[t'|]|e] eqn:E; [| |discriminate].
    + rewrite (IH _ Hl t), elem_of_app, list_elem_of_singleton. split.
      * intros [[H| ->]|(line' & Hin & H)]; [auto| |].
        -- right. exists line. split; [left|exact E].
        -- right. exists line'. split; [now right|exact H].
      * intros [H|(line' & Hin & H)]; [auto|].
        apply elem_of_cons in Hin as [->|Hin].
        -- left. right. congruence.
        -- right. exists line'. auto.
    + rewrite (IH _ Hl t). split.
      * intros [H|(line' & Hin & H)]; [auto|].
        right. exists line'. split; [now right|exact H].
      * intros [H|(line' & Hin & H)]; [auto|].
        apply elem_of_cons in Hin as [->|Hin]; [congruence|].
        right. exists line'. auto.
Qed.

Lemma ps_lines_returns (acc : list candidate) (lines : list string) :
  (forall line, line ∈ lines -> exists r, ps_line line = Ok r) ->
  exists l, ps_lines acc lines = Ok l.
Proof.
  revert acc. induction lines as [|line lines IH]; intros acc Hok; [now eexists|].
  simpl. destruct (Hok line) as [[t|] ->]; [left| |]; apply IH;
    intros line' Hin; apply Hok; now right.
Qed.

(** When the loop returns, its body returned on every row; when it
    raises, the exception is the [ValueError] of [int]. *)
Lemma ps_lines_body (acc : list candidate) (lines : list string) :
  match ps_lines acc lines with
  | Ok _ => forall line, line ∈ lines -> exists r, ps_line line = Ok r
  | Err e => e = ValueError
  end.
Proof.
  revert acc. induction lines as [|line lines IH]; intros acc.
  - intros line Hin. inversion Hin.
  - simpl. destruct (ps_line line) as [[t|]|e] eqn:E.
    + specialize (IH (acc ++ [t])). destruct (ps_lines (acc ++ [t]) lines); [|exact IH].
      intros line' Hin. apply elem_of_cons in Hin as [->|Hin]; eauto.
    + specialize (IH acc). destruct (ps_lines acc lines); [|exact IH].
      intros line' Hin. apply elem_of_cons in Hin as [->|Hin]; eauto.
    + revert E. unfold ps_line.
      repeat match goal with
             | |- context [if ?b then _ else _] => destruct b
             end; try discriminate.
      destruct (PyNum.int_of_string _); [discriminate|]. now intros [= <-].
Qed.

Lemma ps_line_cases line :
  claude_row (PyStr.split line) \/ ps_line line = Ok None.
Proof.
  destruct (ps_line line) as [[t|]|e] eqn:E; [|now right|].
  - apply ps_line_kept in E as [Hrow _]. now left.
  - left. revert E. unfold ps_line.
    destruct (length (PyStr.split line) <? 11)%nat eqn:El; [discriminate|].
    destruct (PyStr.endswith "/claude" (nth 10 (PyStr.split line) "")
              || String.eqb (nth 10 (PyStr.split line) "") "claude") eqn:Ec;
      [|discriminate].
    destruct (PyStr.startswith "s0" (nth 6 (PyStr.split line) "")
              && PyStr.contains "+" (nth 7 (PyStr.split line) "")) eqn:Et;
      [|discriminate].
    intros _. unfold claude_row.
    apply Nat.ltb_ge in El. apply orb_true_iff in Ec.
    rewrite String.eqb_eq in Ec. apply andb_true_iff in Et. auto.
Qed.

End Candidates.

(** The texts of some floats: [1.0] and its neighbours, a text that
    rounds up to [1.0], and texts that are no floats. *)
Example float_of_string_examples :
  PyNum.float_of_string "1.0" = Some PyNum.one /\
  PyNum.float_of_string "12.5" = Some example_busy_cpu /\
  PyNum.float_of_string "0.99999999999999999999" = Some PyNum.one /\
  PyNum.float_of_string "0.9999999999999999"
    = Some (S754_finite false 9007199254740991 (-53)) /\
  PyNum.float_of_string "nan" = Some S754_nan /\
  PyNum.float_of_string "0,3" = None /\
  PyNum.float_of_string "%CPU" = None.
Proof. repeat split. Qed.

(** C1, as the code has it. The scan of the process list gives a list of
    candidates exactly when the pid of every row it keeps, a foreground
    assistant on a terminal whose CPU value is not below [1.0], is a text
    that [int] accepts; else it raises [ValueError]. When it gives a list,
    a row of a foreground assistant on a terminal whose pid [int] accepts
    gives a candidate exactly when its CPU value is not below [1.0], that
    is when it is at least [1.0] or not a number; a CPU field that is not
    the text of a float counts as [0.0], and such a row gives none. The
    candidates are those of the rows and nothing else. *)
Theorem claude_pids_cpu_threshold (ps_stdout : string) :
  (forall l line p,
     claude_pids ps_stdout = Ok l ->
     line ∈ ps_rows ps_stdout ->
     claude_row (PyStr.split line) ->
     PyNum.int_of_string (nth 1 (PyStr.split line) "") = Some p ->
     ((p, row_cpu (PyStr.split line), nth 8 (PyStr.split line) "") ∈ l <->
      PyNum.lt (row_cpu (PyStr.split line)) PyNum.one = false)) /\
  (forall l t,
     claude_pids ps_stdout = Ok l -> t ∈ l ->
     exists line,
       line ∈ ps_rows ps_stdout /\ claude_row (PyStr.split line) /\
       PyNum.int_of_string (nth 1 (PyStr.split line) "") = Some t.1.1 /\
       t.1.2 = row_cpu (PyStr.split line) /\
       t.2 = nth 8 (PyStr.split line) "") /\
  ((exists l, claude_pids ps_stdout = Ok l) <->
   (forall line,
      line ∈ ps_rows ps_stdout -> claude_row (PyStr.split line) ->
      PyNum.lt (row_cpu (PyStr.split line)) PyNum.one = false ->
      is_Some (PyNum.int_of_string (nth 1 (PyStr.split line) "")))) /\
  (forall e, claude_pids ps_stdout = Err e -> e = ValueError) /\
  (forall parts,
     PyNum.float_of_string (nth 2 parts "") = None ->
     row_cpu parts = PyNum.zero /\ PyNum.lt (row_cpu parts) PyNum.one = true) /\
  (forall x,
     PyNum.lt x PyNum.one = false <-> SFleb PyNum.one x = true \/ x = S754_nan).
Proof.
  unfold claude_pids. fold (ps_rows ps_stdout).
  split; [|split; [|split; [|split; [|split]]]].
  - intros l line p Hl Hin Hrow Hpid.
    rewrite (ps_lines_elem [] _ l Hl). split.
    + intros [H|(line' & _ & H)]; [inversion H|].
      apply ps_line_kept in H as (_ & Hcpu & Hlt & _). simpl in Hcpu.
      rewrite Hcpu. exact Hlt.
    + intros Hlt. right. exists line. split; [exact Hin|].
      rewrite (ps_line_claude_row line Hrow), Hlt, Hpid. reflexivity.
  - intros l t Hl Ht.
    apply (ps_lines_elem [] _ l Hl) in Ht as [H|(line & Hin & H)]; [inversion H|].
    exists line. apply ps_line_kept in H as (Hrow & Hcpu & _ & Hpid & Hst). auto.
  - split.
    + intros [l Hl] line Hin Hrow Hlt.
      pose proof (ps_lines_body [] (ps_rows ps_stdout)) as Hbody.
      rewrite Hl in Hbody. destruct (Hbody line Hin) as [r Hr].
      rewrite (ps_line_claude_row line Hrow), Hlt in Hr.
      destruct (PyNum.int_of_string (nth 1 (PyStr.split line) "")); [eauto|discriminate].
    + intros Hpids. apply ps_lines_returns. intros line Hin.
      destruct (ps_line line) as [r|e] eqn:E; [now exists r|]. exfalso.
      assert (Hrow : claude_row (PyStr.split line)).
      { destruct (ps_line_cases line) as [Hrow|Hno]; [exact Hrow|congruence]. }
      rewrite (ps_line_claude_row line Hrow) in E.
      destruct (PyNum.lt (row_cpu (PyStr.split line)) PyNum.one) eqn:Elt;
        [discriminate|].
      destruct (Hpids line Hin Hrow Elt) as [p Hp]. rewrite Hp in E. discriminate.
  - intros e He. pose proof (ps_lines_body [] (ps_rows ps_stdout)) as Hbody.
    now rewrite He in Hbody.
  - intros parts Hnone. unfold row_cpu. rewrite Hnone. split; reflexivity.
  - intros x. apply not_below_positive.
Qed.

Lemma claude_pids_cpu_threshold_witness :
  (4300%Z, row_cpu (PyStr.split example_busy_row),
   nth 8 (PyStr.split example_busy_row) "")
  ∈ [(4242%Z, PyNum.one, "10:15AM"); (4300%Z, example_busy_cpu, "10:17AM")].
Proof.
  refine (proj2 (proj1 (claude_pids_cpu_threshold example_ps_output)
                   [(4242%Z, PyNum.one, "10:15AM"); (4300%Z, example_busy_cpu, "10:17AM")]
                   example_busy_row 4300%Z _ _ _ _) _).
  - vm_compute. reflexivity.
  - apply (list_elem_of_lookup_2 _ 3%nat). vm_compute. reflexivity.
  - unfold claude_row. split; [vm_compute; lia|].
    split; [left; vm_compute; reflexivity|]. split; vm_compute; reflexivity.
  - vm_compute. reflexivity.
  - vm_compute. reflexivity.
Defined.

(** The pids [int] accepts: at most 4300 digits, with a sign, with white
    space around and with single underscores between digits. *)
Example int_of_string_examples :
  PyNum.int_of_string "4242" = Some 4242%Z /\
  PyNum.int_of_string " -4_2 " = Some (-42)%Z /\
  PyNum.int_of_string "4.0" = None /\
  PyNum.int_of_string "" = None /\
  PyNum.int_of_string "4__2" = None /\
  is_Some (PyNum.int_of_string (string_of_list_ascii (repeat "1"%char 4300))) /\
  PyNum.int_of_string (string_of_list_ascii (repeat "1"%char 4301)) = None /\
  PyNum.int_of_string (string_of_list_ascii (repeat "0"%char 4301)) = None.
Proof.
  repeat split; try (vm_compute; reflexivity).
  vm_compute. eexists. reflexivity.
Qed.

(** C1 fails as stated: a foreground assistant on a terminal with a CPU
    value of exactly [1.0], which does not exceed [1.0], is a candidate. *)
Lemma claude_pids_cpu_threshold_counterexample :
  claude_row (PyStr.split example_ps_row) /\
  row_cpu (PyStr.split example_ps_row) = PyNum.one /\
  PyNum.lt PyNum.one (row_cpu (PyStr.split example_ps_row)) = false /\
  claude_pids example_ps_row = Ok [(4242%Z, PyNum.one, "10:15AM")].
Proof.
  split; [|split; [|split]]; try (vm_compute; reflexivity).
  unfold claude_row. split; [vm_compute; lia|].
  split; [right; reflexivity|]. split; reflexivity.
Qed.

(** * Further properties *)

(** ** The registry under the commands *)

Section RegistryInvariants.

Implicit Types (w : world) (c : conversation) (convs : list conversation).

Local Open Scope list_scope.

(** The registry a command finds after a line was printed or the file
    written. *)
Lemma loaded_printed line w : loaded (printed line w) = loaded w.
Proof. reflexivity. Qed.

Lemma loaded_written r w : loaded (written r w) = r.
Proof. reflexivity. Qed.

(** No conversation has the next id. *)
Lemma next_id_fresh (r : registry) c : c ∈ conversations r -> id c <> next_id r.
Proof.
  unfold next_id. destruct (conversations r) as [|c0 cs]; [inversion 1|].
  intros Hc. destruct (fold_max_ge cs (id c0)) as [H1 H2].
  apply elem_of_cons in Hc as [->|Hc]; [lia|]. specialize (H2 _ Hc). lia.
Qed.

Lemma ids_insert convs i c c' :
  convs !! i = Some c -> id c' = id c ->
  id <$> <[i := c']> convs = id <$> convs.
Proof.
  intros Hi Hs. rewrite list_fmap_insert. apply list_insert_id.
  rewrite list_lookup_fmap, Hi. simpl. congruence.
Qed.

(** The world [cmd_save] leaves, by the three ways it can go. *)
Lemma cmd_save_cases w args now :
  (loaded (snd (cmd_save args now w)) = loaded w /\
   fst (cmd_save args now w) <> Returned tt) \/
  (exists i c,
     first_of_session (arg_session_id args) (conversations (loaded w)) i c /\
     status c <> "active" /\
     fst (cmd_save args now w) = Returned tt /\
     loaded (snd (cmd_save args now w)) =
       {| conversations := <[i := reactivated args now c]> (conversations (loaded w)) |}) \/
  (exists fp,
     (forall c, c ∈ conversations (loaded w) -> sessionId c <> arg_session_id args) /\
     fst (cmd_save args now w) = Returned tt /\
     loaded (snd (cmd_save args now w)) =
       {| conversations :=
            conversations (loaded w) ++ [new_entry args now fp (loaded w)] |}).
Proof.
  destruct (list_find (fun c => sessionId c = arg_session_id args)
              (conversations (loaded w))) as [[i c]|] eqn:E.
  - apply list_find_Some in E.
    assert (Hfirst : first_of_session (arg_session_id args)
                       (conversations (loaded w)) i c) by exact E.
    destruct (decide (status c = "active")) as [Hst|Hst].
    + left. rewrite (cmd_save_already_saved w args now i c Hfirst Hst).
      split; [reflexivity|discriminate].
    + right. left. exists i, c.
      rewrite (cmd_save_reactivate w args now i c Hfirst Hst). auto.
  - assert (Habs : forall c, c ∈ conversations (loaded w) ->
                             sessionId c <> arg_session_id args).
    { apply list_find_None in E. rewrite Forall_forall in E. exact E. }
    destruct (get_first_prompt (arg_session_id args) w) as [[fp|code|e] w'] eqn:Hfp.
    + assert (w' = w) as ->.
      { revert Hfp. unfold get_first_prompt, lift.
        destruct (history_file w); [destruct (first_prompt_in _ _)|]; congruence. }
      right. right. exists fp.
      rewrite (cmd_save_new w args now fp Habs Hfp). auto.
    + exfalso. revert Hfp. unfold get_first_prompt, lift.
      destruct (history_file w); [destruct (first_prompt_in _ _)|]; discriminate.
    + left. assert (w' = w) as ->.
      { revert Hfp. unfold get_first_prompt, lift.
        destruct (history_file w); [destruct (first_prompt_in _ _)|]; congruence. }
      unfold cmd_save, mbind, M_bind, load_registry. fold (loaded w).
      rewrite E, Hfp. split; [reflexivity|discriminate].
Qed.

End RegistryInvariants.

(** X1. [save] keeps the ids of the registry distinct: whatever it does,
    a registry whose conversations have different ids is left as one. *)
Theorem save_keeps_ids_unique (w : world) (args : save_args) (now : string) :
  NoDup (id <$> conversations (loaded w)) ->
  NoDup (id <$> conversations (loaded (snd (cmd_save args now w)))).
Proof.
  intros Hnd.
  destruct (cmd_save_cases w args now)
    as [[-> _]|[(i & c & (Hi & _) & _ & _ & ->)|(fp & _ & _ & ->)]]; simpl.
  - exact Hnd.
  - rewrite (ids_insert _ i c); [exact Hnd|exact Hi|reflexivity].
  - rewrite fmap_app. apply NoDup_app.
    split; [exact Hnd|]. split; [|apply NoDup_singleton].
    intros k Hin Hk. apply list_elem_of_singleton in Hk. subst k.
    apply list_elem_of_fmap in Hin as (c & Hc & Hin).
    simpl in Hc. exact (next_id_fresh (loaded w) c Hin (eq_sym Hc)).
Qed.

Lemma save_keeps_ids_unique_witness :
  NoDup (id <$> conversations
           (loaded (snd (cmd_save (example_args "S3" None) "2025-01-02T09:00:00"
                           (example_world [example_conversation 4 "S1" "done";
                                           example_conversation 2 "S2" "active"]
                                          None))))).
Proof.
  apply save_keeps_ids_unique. vm_compute.
  apply NoDup_cons. split; [|apply NoDup_singleton].
  intros H. apply list_elem_of_singleton in H. discriminate H.
Defined.

(** X2. [save] keeps the sessions of the registry distinct: it never puts
    a second conversation of a session into the registry. *)
Theorem save_keeps_sessions_unique (w : world) (args : save_args) (now : string) :
  NoDup (sessionId <$> conversations (loaded w)) ->
  NoDup (sessionId <$> conversations (loaded (snd (cmd_save args now w)))).
Proof.
  intros Hnd.
  destruct (cmd_save_cases w args now)
    as [[-> _]|[(i & c & (Hi & _) & _ & _ & ->)|(fp & Habs & _ & ->)]]; simpl.
  - exact Hnd.
  - rewrite (sessions_insert _ i c); [exact Hnd|exact Hi|reflexivity].
  - rewrite fmap_app. apply NoDup_app.
    split; [exact Hnd|]. split; [|apply NoDup_singleton].
    intros sid Hin Hsid. apply list_elem_of_singleton in Hsid. subst sid.
    apply list_elem_of_fmap in Hin as (c & Hc & Hin).
    exact (Habs c Hin (eq_sym Hc)).
Qed.

Lemma save_keeps_sessions_unique_witness :
  NoDup (sessionId <$> conversations
           (loaded (snd (cmd_save (example_args "S1" None) "2025-01-02T09:00:00"
                           (example_world [example_conversation 4 "S1" "done";
                                           example_conversation 2 "S2" "active"]
                                          None))))).
Proof.
  apply save_keeps_sessions_unique. vm_compute.
  apply NoDup_cons. split; [|apply NoDup_singleton].
  intros H. apply list_elem_of_singleton in H. discriminate H.
Defined.

Section DoneRemove.

Implicit Types (w : world) (c : conversation) (convs : list conversation).

Lemma kept_fields_insert convs i c c' :
  convs !! i = Some c -> kept_fields c' = kept_fields c ->
  kept_fields <$> <[i := c']> convs = kept_fields <$> convs.
Proof.
  intros Hi Hs. rewrite list_fmap_insert. apply list_insert_id.
  rewrite list_lookup_fmap, Hi. simpl. congruence.
Qed.

Lemma cmd_done_found w k now i c :
  first_with_id k (conversations (loaded w)) i c ->
  cmd_done k now w =
    (Returned tt,
     printed [Lit "Marked #"; Fmt (JInt k); Lit " as done: "; Fmt (description c)]
       (written {| conversations :=
                     <[i := set_completedAt now (set_status "done" c)]>
                       (conversations (loaded w)) |} w)).
Proof.
  intros Hfirst.
  assert (Hfind : list_find (fun c => id c = k) (conversations (loaded w)) = Some (i, c))
    by (apply list_find_Some; exact Hfirst).
  unfold cmd_done, mbind, M_bind, load_registry. fold (loaded w).
  rewrite Hfind. reflexivity.
Qed.

Lemma cmd_remove_found w k i c :
  first_with_id k (conversations (loaded w)) i c ->
  cmd_remove k w =
    (Returned tt,
     printed [Lit "Removed #"; Fmt (JInt k); Lit ": "; Fmt (description c)]
       (written {| conversations :=
                     <[i := set_status "removed" c]> (conversations (loaded w)) |} w)).
Proof.
  intros Hfirst.
  assert (Hfind : list_find (fun c => id c = k) (conversations (loaded w)) = Some (i, c))
    by (apply list_find_Some; exact Hfirst).
  unfold cmd_remove, mbind, M_bind, load_registry. fold (loaded w).
  rewrite Hfind. reflexivity.
Qed.

Lemma first_with_id_or_absent k convs :
  (exists i c, first_with_id k convs i c) \/ (forall c, c ∈ convs -> id c <> k).
Proof.
  destruct (list_find (fun c => id c = k) convs) as [[i c]|] eqn:E.
  - left. exists i, c. apply list_find_Some in E. exact E.
  - right. apply list_find_None in E. rewrite Forall_forall in E. exact E.
Qed.

Lemma cmd_done_absent w k now :
  (forall c, c ∈ conversations (loaded w) -> id c <> k) ->
  loaded (snd (cmd_done k now w)) = loaded w.
Proof.
  intros Habs.
  assert (Hfind : list_find (fun c => id c = k) (conversations (loaded w)) = None)
    by (apply list_find_absent; exact Habs).
  unfold cmd_done, mbind, M_bind, load_registry. fold (loaded w).
  rewrite Hfind. reflexivity.
Qed.

Lemma cmd_remove_absent w k :
  (forall c, c ∈ conversations (loaded w) -> id c <> k) ->
  loaded (snd (cmd_remove k w)) = loaded w.
Proof.
  intros Habs.
  assert (Hfind : list_find (fun c => id c = k) (conversations (loaded w)) = None)
    by (apply list_find_absent; exact Habs).
  unfold cmd_remove, mbind, M_bind, load_registry. fold (loaded w).
  rewrite Hfind. reflexivity.
Qed.

End DoneRemove.

(** X3. [done] and [remove] change nothing of a conversation but its
    status and completion time: whatever the id, the registry afterwards
    has the conversations it had, in their order, with their ids, sessions,
    projects, descriptions, first prompts and saving times. *)
Theorem done_remove_keep_fields (w : world) (k : Z) (now : string) :
  kept_fields <$> conversations (loaded (snd (cmd_done k now w)))
    = kept_fields <$> conversations (loaded w) /\
  kept_fields <$> conversations (loaded (snd (cmd_remove k w)))
    = kept_fields <$> conversations (loaded w).
Proof.
  destruct (first_with_id_or_absent k (conversations (loaded w)))
    as [(i & c & Hfirst)|Habs].
  - rewrite (cmd_done_found w k now i c Hfirst), (cmd_remove_found w k i c Hfirst).
    destruct Hfirst as (Hi & _). simpl.
    split; apply (kept_fields_insert _ i c); auto.
  - now rewrite (cmd_done_absent w k now Habs), (cmd_remove_absent w k Habs).
Qed.

(** X4. [done] on an id of the registry marks the first conversation with
    that id done and stamps it with the present, whatever its status was,
    active, removed or done already; it leaves the other conversations as
    they are, writes the registry once and returns. *)
Theorem done_marks_first (w : world) (k : Z) (now : string)
    (i : nat) (c : conversation) :
  first_with_id k (conversations (loaded w)) i c ->
  exists c',
    fst (cmd_done k now w) = Returned tt /\
    registry_writes (snd (cmd_done k now w)) = S (registry_writes w) /\
    conversations (loaded (snd (cmd_done k now w))) !! i = Some c' /\
    status c' = "done" /\ completedAt c' = Some now /\
    kept_fields c' = kept_fields c /\
    (forall j, j <> i ->
       conversations (loaded (snd (cmd_done k now w))) !! j
       = conversations (loaded w) !! j) /\
    stdout (snd (cmd_done k now w)) =
      (stdout w ++ [[Lit "Marked #"; Fmt (JInt k); Lit " as done: ";
                     Fmt (description c)]])%list.
Proof.
  intros Hfirst. exists (set_completedAt now (set_status "done" c)).
  rewrite (cmd_done_found w k now i c Hfirst). destruct Hfirst as (Hi & _). simpl.
  split; [reflexivity|]. split; [reflexivity|].
  split; [apply list_lookup_insert_eq; eapply lookup_lt_Some; exact Hi|].
  split; [reflexivity|]. split; [reflexivity|]. split; [reflexivity|].
  split; [|reflexivity].
  intros j Hj. apply list_lookup_insert_ne. congruence.
Qed.

Lemma done_marks_first_witness :
  exists c',
    conversations
      (loaded (snd (cmd_done 2 "2025-01-03T09:00:00"
                      (example_world [example_conversation 1 "S1" "active";
                                      example_conversation 2 "S2" "removed"] None))))
      !! 1%nat = Some c' /\
    status c' = "done" /\ completedAt c' = Some "2025-01-03T09:00:00".
Proof.
  destruct (done_marks_first
              (example_world [example_conversation 1 "S1" "active";
                              example_conversation 2 "S2" "removed"] None)
              2 "2025-01-03T09:00:00" 1%nat (example_conversation 2 "S2" "removed"))
    as (c' & _ & _ & H3 & H4 & H5 & _).
  - split; [reflexivity|]. split; [reflexivity|].
    intros [|[|j]] c' Hj Hlt; [|lia|lia].
    vm_compute in Hj. injection Hj as <-. vm_compute. discriminate.
  - exists c'. auto.
Defined.

(** X5. [remove] on an id of the registry gives the first conversation
    with that id the status removed, whatever its status was, and leaves
    its completion time and the other conversations as they are; nothing
    is deleted from the registry, which is written once. *)
Theorem remove_marks_first (w : world) (k : Z) (i : nat) (c : conversation) :
  first_with_id k (conversations (loaded w)) i c ->
  exists c',
    fst (cmd_remove k w) = Returned tt /\
    registry_writes (snd (cmd_remove k w)) = S (registry_writes w) /\
    conversations (loaded (snd (cmd_remove k w))) !! i = Some c' /\
    status c' = "removed" /\ completedAt c' = completedAt c /\
    kept_fields c' = kept_fields c /\
    length (conversations (loaded (snd (cmd_remove k w))))
      = length (conversations (loaded w)) /\
    (forall j, j <> i ->
       conversations (loaded (snd (cmd_remove k w))) !! j
       = conversations (loaded w) !! j) /\
    stdout (snd (cmd_remove k w)) =
      (stdout w ++ [[Lit "Removed #"; Fmt (JInt k); Lit ": "; Fmt (description c)]])%list.
Proof.
  intros Hfirst. exists (set_status "removed" c).
  rewrite (cmd_remove_found w k i c Hfirst). destruct Hfirst as (Hi & _). simpl.
  split; [reflexivity|]. split; [reflexivity|].
  split; [apply list_lookup_insert_eq; eapply lookup_lt_Some; exact Hi|].
  split; [reflexivity|]. split; [reflexivity|]. split; [reflexivity|].
  split; [apply length_insert|]. split; [|reflexivity].
  intros j Hj. apply list_lookup_insert_ne. congruence.
Qed.

Lemma remove_marks_first_witness :
  exists c',
    conversations
      (loaded (snd (cmd_remove 1
                      (example_world [example_conversation 1 "S1" "active";
                                      example_conversation 2 "S2" "done"] None))))
      !! 0%nat = Some c' /\
    status c' = "removed".
Proof.
  destruct (remove_marks_first
              (example_world [example_conversation 1 "S1" "active";
                              example_conversation 2 "S2" "done"] None)
              1 0%nat (example_conversation 1 "S1" "active"))
    as (c' & _ & _ & H3 & H4 & _).
  - split; [reflexivity|]. split; [reflexivity|]. intros j c' _ Hlt. lia.
  - exists c'. auto.
Defined.

Section Composition.

Implicit Types (w : world) (c : conversation) (convs : list conversation).

Lemma first_of_session_insert sid convs i c c' :
  first_of_session sid convs i c -> sessionId c' = sid ->
  first_of_session sid (<[i := c']> convs) i c'.
Proof.
  intros (Hi & _ & Hbefore) Hs.
  split; [apply list_lookup_insert_eq; eapply lookup_lt_Some; exact Hi|].
  split; [exact Hs|].
  intros j c0 Hj Hlt. rewrite list_lookup_insert_ne in Hj by lia.
  exact (Hbefore j c0 Hj Hlt).
Qed.

Lemma first_of_session_snoc sid convs c :
  (forall c', c' ∈ convs -> sessionId c' <> sid) -> sessionId c = sid ->
  first_of_session sid (convs ++ [c])%list (length convs) c.
Proof.
  intros Habs Hs.
  split; [rewrite lookup_app_r, Nat.sub_diag by lia; reflexivity|].
  split; [exact Hs|].
  intros j c0 Hj Hlt. rewrite lookup_app_l in Hj by exact Hlt.
  apply Habs. eapply list_elem_of_lookup_2. exact Hj.
Qed.

End Composition.

(** X6. Saving a session that was just saved changes nothing: after a
    [save] that returned, a second [save] of the same session, with
    whatever project and description, prints that the session is already
    saved, exits with code 0 and leaves registry and file untouched. *)
Theorem save_twice_no_change (w : world) (args args' : save_args) (now now' : string) :
  arg_session_id args' = arg_session_id args ->
  fst (cmd_save args now w) = Returned tt ->
  exists c,
    c ∈ conversations (loaded (snd (cmd_save args now w))) /\
    sessionId c = arg_session_id args /\ status c = "active" /\
    cmd_save args' now' (snd (cmd_save args now w)) =
      (Exited 0,
       printed [Lit "Session already saved as #"; Fmt (JInt (id c));
                Lit ": "; Fmt (description c)]
         (snd (cmd_save args now w))).
Proof.
  intros Hsid Hret.
  destruct (cmd_save_cases w args now)
    as [[_ Hno]|[(i & c & Hfirst & _ & _ & Hload)|(fp & Habs & _ & Hload)]].
  - contradiction.
  - exists (reactivated args now c).
    assert (Hfirst' : first_of_session (arg_session_id args')
              (conversations (loaded (snd (cmd_save args now w)))) i
              (reactivated args now c)).
    { rewrite Hload, Hsid. simpl.
      apply (first_of_session_insert _ _ i c); [exact Hfirst|].
      destruct Hfirst as (_ & Hs & _). exact Hs. }
    split; [eapply list_elem_of_lookup_2; exact (proj1 Hfirst')|].
    split; [destruct Hfirst as (_ & Hs & _); exact Hs|]. split; [reflexivity|].
    apply (cmd_save_already_saved _ args' now' i); [exact Hfirst'|reflexivity].
  - exists (new_entry args now fp (loaded w)).
    assert (Hfirst' : first_of_session (arg_session_id args')
              (conversations (loaded (snd (cmd_save args now w))))
              (length (conversations (loaded w)))
              (new_entry args now fp (loaded w))).
    { rewrite Hload, Hsid. simpl. apply first_of_session_snoc; [exact Habs|reflexivity]. }
    split; [eapply list_elem_of_lookup_2; exact (proj1 Hfirst')|].
    split; [reflexivity|]. split; [reflexivity|].
    apply (cmd_save_already_saved _ args' now' _ _ Hfirst'). reflexivity.
Qed.

Lemma save_twice_no_change_witness :
  exists c,
    cmd_save (example_args "S1" (Some "again")) "2025-01-05T09:00:00"
      (snd (cmd_save (example_args "S1" (Some "x")) "2025-01-02T09:00:00"
              (example_world [] None))) =
    (Exited 0,
     printed [Lit "Session already saved as #"; Fmt (JInt (id c));
              Lit ": "; Fmt (description c)]
       (snd (cmd_save (example_args "S1" (Some "x")) "2025-01-02T09:00:00"
               (example_world [] None)))).
Proof.
  destruct (save_twice_no_change (example_world [] None)
              (example_args "S1" (Some "x")) (example_args "S1" (Some "again"))
              "2025-01-02T09:00:00" "2025-01-05T09:00:00" eq_refl eq_refl)
    as (c & _ & _ & _ & H).
  exists c. exact H.
Defined.

(** X7. Marking a conversation done and saving its session again brings it
    back in place: when the conversation is the first with its id and the
    first of its session, [done] followed by [save] leaves it at its
    index, active, with its id, with the saving time of the second command
    and still with the completion time of the first; the other
    conversations are unchanged and the registry is written twice. *)
Theorem done_then_save_reactivates (w : world) (args : save_args) (t1 t2 : string)
    (i : nat) (c : conversation) :
  first_with_id (id c) (conversations (loaded w)) i c ->
  first_of_session (arg_session_id args) (conversations (loaded w)) i c ->
  exists c',
    fst ((cmd_done (id c) t1 ;; cmd_save args t2) w) = Returned tt /\
    registry_writes (snd ((cmd_done (id c) t1 ;; cmd_save args t2) w))
      = S (S (registry_writes w)) /\
    conversations (loaded (snd ((cmd_done (id c) t1 ;; cmd_save args t2) w))) !! i
      = Some c' /\
    id c' = id c /\ sessionId c' = sessionId c /\ status c' = "active" /\
    savedAt c' = t2 /\ completedAt c' = Some t1 /\
    (forall j, j <> i ->
       conversations (loaded (snd ((cmd_done (id c) t1 ;; cmd_save args t2) w))) !! j
       = conversations (loaded w) !! j).
Proof.
  intros Hid Hs.
  set (c1 := set_completedAt t1 (set_status "done" c)).
  exists (reactivated args t2 c1).
  assert (Hseq : (cmd_done (id c) t1 ;; cmd_save args t2) w =
                 cmd_save args t2 (snd (cmd_done (id c) t1 w))).
  { unfold mbind at 1, M_bind at 1.
    rewrite (cmd_done_found w (id c) t1 i c Hid). reflexivity. }
  rewrite Hseq.
  assert (Hfirst : first_of_session (arg_session_id args)
            (conversations (loaded (snd (cmd_done (id c) t1 w)))) i c1).
  { rewrite (cmd_done_found w (id c) t1 i c Hid). simpl.
    apply (first_of_session_insert _ _ i c); [exact Hs|].
    destruct Hs as (_ & Hsid & _). exact Hsid. }
  rewrite (cmd_save_reactivate _ args t2 i c1 Hfirst) by (simpl; discriminate).
  rewrite (cmd_done_found w (id c) t1 i c Hid). simpl.
  destruct Hid as (Hi & _).
  split; [reflexivity|]. split; [reflexivity|].
  split; [apply list_lookup_insert_eq; rewrite length_insert;
          eapply lookup_lt_Some; exact Hi|].
  split; [reflexivity|]. split; [reflexivity|]. split; [reflexivity|].
  split; [reflexivity|]. split; [reflexivity|].
  intros j Hj. rewrite !list_lookup_insert_ne by congruence. reflexivity.
Qed.

Lemma done_then_save_reactivates_witness :
  exists c',
    conversations
      (loaded (snd ((cmd_done 2 "2025-01-03T09:00:00" ;;
                     cmd_save (example_args "S2" None) "2025-01-04T09:00:00")
                      (example_world [example_conversation 1 "S1" "active";
                                      example_conversation 2 "S2" "active"] None))))
      !! 1%nat = Some c' /\
    status c' = "active" /\ completedAt c' = Some "2025-01-03T09:00:00".
Proof.
  destruct (done_then_save_reactivates
              (example_world [example_conversation 1 "S1" "active";
                              example_conversation 2 "S2" "active"] None)
              (example_args "S2" None) "2025-01-03T09:00:00" "2025-01-04T09:00:00"
              1%nat (example_conversation 2 "S2" "active"))
    as (c' & _ & _ & H3 & _ & _ & H6 & _ & H8 & _).
  - split; [reflexivity|]. split; [reflexivity|].
    intros [|[|j]] c' Hj Hlt; [|lia|lia].
    vm_compute in Hj. injection Hj as <-. vm_compute. discriminate.
  - split; [reflexivity|]. split; [reflexivity|].
    intros [|[|j]] c' Hj Hlt; [|lia|lia].
    vm_compute in Hj. injection Hj as <-. vm_compute. discriminate.
  - exists c'. auto.
Defined.

(** ** First prompt of a session *)

Section FirstPrompt.

Lemma take_length (n : nat) (s : string) :
  String.length (PyStr.take n s) = Nat.min n (String.length s).
Proof.
  revert n. induction s as [|c s IH]; intros [|n]; simpl; try reflexivity.
  now rewrite IH.
Qed.

Lemma take_drop (n : nat) (s : string) : PyStr.take n s ++ PyStr.drop n s = s.
Proof.
  revert n. induction s as [|c s IH]; intros [|n]; try reflexivity.
  simpl. rewrite append_cons. now rewrite IH.
Qed.

Lemma session_is sid (e : list (string * json)) :
  PyVal.eq_str (PyVal.get "sessionId" JNull e) sid = true <->
  PyVal.lookup "sessionId" e = Some (JStr sid).
Proof.
  unfold PyVal.get. destruct (PyVal.lookup "sessionId" e) as [[]|]; simpl;
    try (split; intros H; discriminate H).
  rewrite String.eqb_eq. split; congruence.
Qed.

Lemma first_prompt_in_passes sid (pre rest : list loads) :
  Forall (not_of_session sid) pre ->
  first_prompt_in sid (pre ++ rest)%list = first_prompt_in sid rest.
Proof.
  induction 1 as [|line pre Hline _ IH]; [reflexivity|].
  destruct line as [[| | | | | |e]| |exc]; simpl in Hline; try contradiction;
    [|exact IH].
  simpl. destruct (PyVal.eq_str (PyVal.get "sessionId" JNull e) sid) eqn:E;
    [|exact IH].
  apply session_is in E. contradiction.
Qed.

End FirstPrompt.

(** X8. The look-up of the first prompt passes the lines of the history
    log that are not JSON and the objects of other sessions. The first
    entry of the session decides: when its display is a string, the
    look-up returns the first 120 characters of it, the empty string if
    the entry has no display, and what stands behind that entry in the log
    is not read. The look-up returns none when the log is absent or all
    its lines are passed. A line of another kind that is reached, one that
    holds a value that is no object or one on which [json.loads] raises
    something else than [JSONDecodeError], makes the look-up raise
    [AttributeError] or that exception. *)
Theorem get_first_prompt_first_entry (sid : string) (w : world) :
  (history_file w = None -> get_first_prompt sid w = (Returned JNull, w)) /\
  (forall lines,
     history_file w = Some lines -> Forall (not_of_session sid) lines ->
     get_first_prompt sid w = (Returned JNull, w)) /\
  (forall pre e post display,
     history_file w = Some (pre ++ Loaded (JObj e) :: post)%list ->
     Forall (not_of_session sid) pre ->
     PyVal.lookup "sessionId" e = Some (JStr sid) ->
     PyVal.get "display" (JStr "") e = JStr display ->
     exists prompt,
       get_first_prompt sid w = (Returned (JStr prompt), w) /\
       String.length prompt = Nat.min 120 (String.length display) /\
       display = prompt ++ PyStr.drop 120 display) /\
  (forall pre line post,
     history_file w = Some (pre ++ line :: post)%list ->
     Forall (not_of_session sid) pre ->
     ~ object_or_unparseable line ->
     get_first_prompt sid w = (Raised (exception_of line), w)).
Proof.
  unfold get_first_prompt. split; [|split; [|split]].
  - intros ->. reflexivity.
  - intros lines -> Hall. rewrite <- (app_nil_r lines).
    rewrite first_prompt_in_passes by exact Hall. reflexivity.
  - intros pre e post display -> Hpre Hs Hd.
    exists (PyStr.take 120 display).
    rewrite first_prompt_in_passes by exact Hpre. cbn [first_prompt_in].
    apply session_is in Hs. rewrite Hs, Hd. cbn [slice_120 lift].
    split; [reflexivity|]. split; [apply take_length|].
    symmetry. apply take_drop.
  - intros pre line post -> Hpre Hline.
    rewrite first_prompt_in_passes by exact Hpre.
    destruct line as [[| | | | | |e]| |e]; simpl in Hline; try reflexivity;
      contradiction Hline; exact I.
Qed.

Lemma get_first_prompt_first_entry_witness :
  exists prompt,
    get_first_prompt "S3"
      (example_world [] (Some (example_history ++ [Loaded (JInt 7)])%list)) =
    (Returned (JStr prompt),
     example_world [] (Some (example_history ++ [Loaded (JInt 7)])%list)) /\
    String.length prompt = 0%nat.
Proof.
  destruct (proj1 (proj2 (proj2 (get_first_prompt_first_entry "S3"
              (example_world [] (Some (example_history ++ [Loaded (JInt 7)])%list)))))
              [Loaded (JObj [("sessionId", JStr "S1"); ("project", JStr "/p")]);
               DecodeError;
               Loaded (JObj [("sessionId", JStr "S2"); ("project", JStr "/q")])]
              [("sessionId", JStr "S3"); ("project", JStr "/p")]
              [Loaded (JObj [("display", JStr "hello")]); Loaded (JInt 7)]
              "" eq_refl)
    as (prompt & H1 & H2 & _).
  - repeat apply Forall_cons_2; try apply Forall_nil_2; simpl; try exact I;
      discriminate.
  - reflexivity.
  - reflexivity.
  - exists prompt. split; [exact H1|exact H2].
Defined.

(** ** Text of a user message *)

Section Stripped.

Lemma rstrip_idempotent (s : string) : PyStr.rstrip (PyStr.rstrip s) = PyStr.rstrip s.
Proof.
  induction s as [|c s IH]; [reflexivity|]. simpl.
  destruct (PyStr.isspace c && PyStr.is_empty (PyStr.rstrip s)) eqn:E;
    [reflexivity|].
  simpl. rewrite IH, E. reflexivity.
Qed.

Lemma lstrip_head (s : string) :
  PyStr.lstrip s = "" \/
  exists c u, PyStr.lstrip s = String c u /\ PyStr.isspace c = false.
Proof.
  induction s as [|c s IH]; [now left|]. simpl.
  destruct (PyStr.isspace c) eqn:E; [exact IH|]. right. now exists c, s.
Qed.

Lemma strip_idempotent (s : string) : PyStr.strip (PyStr.strip s) = PyStr.strip s.
Proof.
  unfold PyStr.strip.
  destruct (lstrip_head s) as [->|(c & u & -> & Hc)]; [reflexivity|].
  simpl. rewrite Hc. simpl. rewrite Hc. simpl. rewrite Hc. simpl.
  now rewrite rstrip_idempotent.
Qed.

Lemma accept_text_stripped (raw : string) (t : string) :
  accept_text raw = Some (Some t) -> t <> "" /\ PyStr.strip t = t.
Proof.
  unfold accept_text.
  destruct (negb (PyStr.is_empty (PyStr.strip raw))
            && negb (is_command_marker (PyStr.strip raw))); [|discriminate].
  destruct (PyStr.is_empty (PyStr.strip (strip_reminders (PyStr.strip raw)))) eqn:E;
    [discriminate|].
  intros [= <-]. split; [|apply strip_idempotent].
  intros H. apply is_empty_spec in H. congruence.
Qed.

Lemma first_text_block_stripped (content : list json) (t : string) :
  first_text_block content = Ok (Some t) -> t <> "" /\ PyStr.strip t = t.
Proof.
  induction content as [|v content IH]; [discriminate|].
  destruct v as [| | | | | |c]; try exact IH. simpl.
  destruct (PyVal.eq_str (PyVal.get "type" JNull c) "text"); [|exact IH].
  destruct (PyVal.lookup "text" c) as [[| | | |raw| |]|]; try discriminate.
  destruct (accept_text raw) as [[t'|]|] eqn:E; [| |exact IH].
  - intros [= <-]. exact (accept_text_stripped raw t' E).
  - discriminate.
Qed.

End Stripped.

(** X9. A text the extractor returns is never empty and has no white
    space at its ends, whatever the entry. *)
Theorem extract_user_text_stripped (d : list (string * json)) (t : string) :
  _extract_user_text d = Ok (Some t) -> t <> "" /\ PyStr.strip t = t.
Proof.
  unfold _extract_user_text.
  destruct (user_content d) as [| | | |s|l|]; try discriminate.
  - destruct (accept_text s) as [[t'|]|] eqn:E; simpl; try discriminate.
    intros [= <-]. exact (accept_text_stripped s t' E).
  - apply first_text_block_stripped.
Qed.

Lemma extract_user_text_stripped_witness :
  "fix the parser" <> "" /\ PyStr.strip "fix the parser" = "fix the parser".
Proof.
  apply (extract_user_text_stripped
           (example_user_entry (JStr example_reminder_text))).
  reflexivity.
Defined.

(** ** Folder names *)

Lemma cwd_to_project_dir_twice (cwd : string) :
  cwd_to_project_dir (cwd_to_project_dir cwd) = cwd_to_project_dir cwd.
Proof.
  unfold cwd_to_project_dir.
  induction cwd as [|a s IH]; [reflexivity|]. simpl. rewrite IH. f_equal.
  destruct (in_class a) eqn:E; [now rewrite E|reflexivity].
Qed.

(** X10. The folder name of a working directory is made of letters,
    digits and hyphens only, and encoding it again changes nothing: a
    directory and its folder name, read as a directory, share the folder. *)
Theorem cwd_to_project_dir_idempotent (cwd : string) :
  (forall i c, String.get i (cwd_to_project_dir cwd) = Some c -> alnum_or_hyphen c) /\
  cwd_to_project_dir (cwd_to_project_dir cwd) = cwd_to_project_dir cwd.
Proof.
  split; [|apply cwd_to_project_dir_twice].
  unfold cwd_to_project_dir. intros i c. rewrite map_get.
  destruct (String.get i cwd) as [a|]; [|discriminate]. simpl.
  destruct (in_class a) eqn:E; intros [= <-].
  - apply in_class_spec. exact E.
  - apply in_class_spec. reflexivity.
Qed.

Lemma cwd_to_project_dir_idempotent_witness :
  alnum_or_hyphen "-"%char.
Proof.
  apply (proj1 (cwd_to_project_dir_idempotent "/Users/a/b.c") 0%nat "-"%char).
  reflexivity.
Defined.

(** ** Session context *)

Section ContextBounds.

Implicit Types (st : scan) (d c : list (string * json)).

Lemma within_take (n : nat) (t : string) :
  t <> "" -> (0 < n)%nat -> within n (Some (PyStr.take n t)).
Proof.
  intros Ht Hn. simpl. rewrite take_length.
  destruct t as [|a t]; [contradiction|]. simpl. lia.
Qed.

Lemma first_user_loop_within (first_user : option string)
    (lines : list loads) (r : option string) :
  within 200 first_user ->
  first_user_loop first_user lines = Ok r -> within 200 r.
Proof.
  revert first_user. induction lines as [|line lines IH]; intros fu Hfu.
  - intros [= <-]. exact Hfu.
  - cbn [first_user_loop]. destruct (text_truthy fu); [intros [= <-]; exact Hfu|].
    destruct line as [[| | | | | |d]| |exc]; try discriminate;
      try (destruct exc; try discriminate; apply IH, Hfu); [|apply IH, Hfu].
    destruct (PyVal.eq_str (PyVal.get "type" JNull d) "user"); [|apply IH, Hfu].
    destruct (_extract_user_text d) as [[text|]|[]] eqn:E; try discriminate;
      try (apply IH, Hfu).
    destruct (PyStr.is_empty text) eqn:Et; [apply IH, Hfu|].
    apply IH. apply within_take; [|lia].
    intros H. apply is_empty_spec in H. congruence.
Qed.

Lemma scan_texts_block st c :
  scan_texts st -> scan_texts (fst (assistant_block st c)).
Proof.
  intros [Hu Ha]. unfold assistant_block, scan_texts.
  destruct (PyVal.eq_str (PyVal.get "type" JNull c) "tool_use");
    destruct (PyVal.eq_str (PyVal.get "type" JNull c) "text");
    try destruct (PyVal.lookup "text" c) as [[| | | |raw| |]|];
    try destruct (PyStr.is_empty (PyStr.strip raw)) eqn:E;
    simpl; try (split; assumption);
    (split; [exact Hu|]; intros H; apply is_empty_spec in H; congruence).
Qed.

Lemma scan_texts_blocks st (content : list json) :
  scan_texts st -> scan_texts (fst (assistant_blocks st content)).
Proof.
  revert st. induction content as [|v content IH]; intros st Hst; [exact Hst|].
  destruct v as [| | | | | |c]; try (apply IH; exact Hst).
  simpl. pose proof (scan_texts_block st c Hst) as Hc.
  destruct (assistant_block st c) as [st' [e|]]; [exact Hc|apply IH, Hc].
Qed.

Lemma scan_texts_line st (line : loads) :
  scan_texts st -> scan_texts (fst (tail_line st line)).
Proof.
  intros Hst. destruct line as [[| | | | | |d]| |exc]; try exact Hst;
    try (destruct exc; exact Hst).
  unfold tail_line.
  assert (Hafter : forall st1,
            scan_texts st1 ->
            scan_texts
              (fst (if PyVal.eq_str (PyVal.get "type" (JStr "") d) "assistant" then
                      match assistant_content d with
                      | JArr l =>
                          match assistant_blocks st1 l with
                          | (st2, Some KeyError) => (st2, None)
                          | r => r
                          end
                      | _ => (st1, None)
                      end
                    else (st1, None)))).
  { intros st1 H1.
    destruct (PyVal.eq_str (PyVal.get "type" (JStr "") d) "assistant"); [|exact H1].
    destruct (assistant_content d) as [| | | | |l|]; try exact H1.
    pose proof (scan_texts_blocks st1 l H1) as Hl.
    destruct (assistant_blocks st1 l) as [st2 [[]|]]; exact Hl. }
  destruct (PyVal.eq_str (PyVal.get "type" (JStr "") d) "user");
    [|apply Hafter, Hst].
  destruct (_extract_user_text d) as [[text|]|[]] eqn:E; try exact Hst;
    try (apply Hafter, Hst).
  destruct (PyStr.is_empty text) eqn:Et; [apply Hafter, Hst|].
  apply Hafter. destruct Hst as [_ Ha]. split; [|exact Ha].
  apply within_take; [|lia]. intros H. apply is_empty_spec in H. congruence.
Qed.

Lemma scan_texts_loop st (lines : list loads) st' :
  scan_texts st -> tail_loop st lines = Ok st' -> scan_texts st'.
Proof.
  revert st. induction lines as [|line lines IH]; intros st Hst Hloop.
  - injection Hloop as <-. exact Hst.
  - simpl in Hloop. pose proof (scan_texts_line st line Hst) as Hl.
    destruct (tail_line st line) as [st1 [e|]]; [discriminate|].
    exact (IH st1 Hl Hloop).
Qed.

(** The exceptions of the extraction of a text. *)
Lemma first_text_block_raises (content : list json) (e : exn) :
  first_text_block content = Err e -> e = KeyError \/ e = AttributeError.
Proof.
  induction content as [|v content IH]; [discriminate|].
  destruct v as [| | | | | |c]; try exact IH. simpl.
  destruct (PyVal.eq_str (PyVal.get "type" JNull c) "text"); [|exact IH].
  destruct (PyVal.lookup "text" c) as [[| | | |raw| |]|];
    try (intros [= <-]; auto).
  destruct (accept_text raw); [discriminate|exact IH].
Qed.

Lemma extract_user_text_raises d (e : exn) :
  _extract_user_text d = Err e -> e = KeyError \/ e = AttributeError.
Proof.
  unfold _extract_user_text.
  destruct (user_content d) as [| | | |s|l|]; try discriminate.
  apply first_text_block_raises.
Qed.

Lemma first_user_loop_raises (first_user : option string)
    (lines : list loads) (e : exn) :
  first_user_loop first_user lines = Err e ->
  e = AttributeError \/ (e <> KeyError /\ LoadsRaised e ∈ lines).
Proof.
  revert first_user. induction lines as [|line lines IH]; intros fu; [discriminate|].
  assert (Hrest : forall fu',
            first_user_loop fu' lines = Err e ->
            e = AttributeError \/ (e <> KeyError /\ LoadsRaised e ∈ line :: lines)).
  { intros fu' H. destruct (IH fu' H) as [->|[Hk Hin]]; [now left|].
    right. split; [exact Hk|now right]. }
  cbn [first_user_loop]. destruct (text_truthy fu); [discriminate|].
  destruct line as [[| | | | | |d]| |exc]; try (intros [= <-]; now left);
    [|apply Hrest|].
  - destruct (PyVal.eq_str (PyVal.get "type" JNull d) "user"); [|apply Hrest].
    destruct (_extract_user_text d) as [[text|]|e'] eqn:E.
    + destruct (PyStr.is_empty text); apply Hrest.
    + apply Hrest.
    + destruct (extract_user_text_raises d e' E) as [-> | ->];
        [apply Hrest|intros [= <-]; now left].
  - destruct exc; try apply Hrest;
      (intros [= <-]; right; split; [discriminate|left]).
Qed.

Lemma assistant_blocks_raises st (content : list json) (e : exn) :
  snd (assistant_blocks st content) = Some e -> e = KeyError \/ e = AttributeError.
Proof.
  revert st. induction content as [|v content IH]; intros st; [discriminate|].
  destruct v as [| | | | | |c]; try apply IH. simpl.
  destruct (assistant_block st c) as [st' [e'|]] eqn:E; [|apply IH].
  simpl. intros [= <-]. revert E. unfold assistant_block.
  destruct (PyVal.eq_str (PyVal.get "type" JNull c) "text"); [|discriminate].
  destruct (PyVal.lookup "text" c) as [[| | | |raw| |]|];
    try (intros [= _ <-]; auto).
  destruct (PyStr.is_empty (PyStr.strip raw)); discriminate.
Qed.

Lemma tail_line_raises st (line : loads) (e : exn) :
  snd (tail_line st line) = Some e ->
  e = AttributeError \/ (e <> KeyError /\ line = LoadsRaised e).
Proof.
  destruct line as [[| | | | | |d]| |exc]; try discriminate;
    try (intros [= <-]; now left).
  - unfold tail_line.
    assert (Hafter : forall st1,
              snd (if PyVal.eq_str (PyVal.get "type" (JStr "") d) "assistant" then
                     match assistant_content d with
                     | JArr l =>
                         match assistant_blocks st1 l with
                         | (st2, Some KeyError) => (st2, None)
                         | r => r
                         end
                     | _ => (st1, None)
                     end
                   else (st1, None)) = Some e -> e = AttributeError).
    { intros st1.
      destruct (PyVal.eq_str (PyVal.get "type" (JStr "") d) "assistant"); [|discriminate].
      destruct (assistant_content d) as [| | | | |l|]; try discriminate.
      pose proof (assistant_blocks_raises st1 l) as Hl.
      destruct (assistant_blocks st1 l) as [st2 [e'|]]; [|discriminate].
      destruct (Hl e' eq_refl) as [-> | ->]; [discriminate|].
      intros [= <-]. reflexivity. }
    intros H. left. revert H.
    destruct (PyVal.eq_str (PyVal.get "type" (JStr "") d) "user"); [|apply Hafter].
    destruct (_extract_user_text d) as [[text|]|e'] eqn:E.
    + destruct (PyStr.is_empty text); apply Hafter.
    + apply Hafter.
    + destruct (extract_user_text_raises d e' E) as [-> | ->];
        [discriminate|intros [= <-]; reflexivity].
  - destruct exc; try discriminate;
      (intros [= <-]; right; split; [discriminate|reflexivity]).
Qed.

Lemma tail_loop_raises st (lines : list loads) (e : exn) :
  tail_loop st lines = Err e ->
  e = AttributeError \/ (e <> KeyError /\ LoadsRaised e ∈ lines).
Proof.
  revert st. induction lines as [|line lines IH]; intros st; [discriminate|].
  simpl. pose proof (tail_line_raises st line) as Hl.
  destruct (tail_line st line) as [st1 [e'|]].
  - intros [= <-]. destruct (Hl e' eq_refl) as [->|[Hk ->]]; [now left|].
    right. split; [exact Hk|left].
  - intros H. destruct (IH st1 H) as [->|[Hk Hin]]; [now left|].
    right. split; [exact Hk|now right].
Qed.

(** What the extractor raises, and that it raises only on a transcript
    with a line that is out of shape. *)
Lemma extract_session_context_raises
    (session_file : option (list loads)) (max_tail_lines : Z) (e : exn) :
  extract_session_context session_file max_tail_lines = Err e ->
  exists lines,
    session_file = Some lines /\
    ~ Forall transcript_line lines /\
    (e = AttributeError \/ (e <> KeyError /\ LoadsRaised e ∈ lines)).
Proof.
  unfold extract_session_context.
  destruct session_file as [lines|]; [|discriminate].
  intros H. exists lines. split; [reflexivity|]. split.
  - intros Hwf. revert H.
    destruct (first_user_loop_returns None (take 30 lines)) as [fu ->];
      [apply Forall_take, Hwf|].
    cbn [mbind result_bind].
    assert (Htail : Forall transcript_line (tail_slice max_tail_lines lines))
      by (unfold tail_slice; destruct (0 <? max_tail_lines)%Z; apply Forall_drop, Hwf).
    destruct (tail_loop_tools {| last_user := None; last_assistant := None;
                                 recent_tools := []; last_tool_name := JNull |}
                _ Htail) as (st & -> & _).
    discriminate.
  - revert H.
    destruct (first_user_loop None (take 30 lines)) as [fu|e'] eqn:Hfirst.
    + cbn [mbind result_bind].
      destruct (tail_loop _ (tail_slice max_tail_lines lines)) as [st|e'] eqn:Hloop;
        [discriminate|].
      cbn [mbind result_bind]. intros [= <-].
      destruct (tail_loop_raises _ _ _ Hloop) as [->|[Hk Hin]]; [now left|].
      right. split; [exact Hk|].
      revert Hin. unfold tail_slice.
      destruct (0 <? max_tail_lines)%Z; intros Hin%list_elem_of_lookup;
        destruct Hin as [i Hi]; rewrite lookup_drop in Hi;
        eapply list_elem_of_lookup_2; exact Hi.
    + cbn [mbind result_bind]. intros [= <-].
      destruct (first_user_loop_raises _ _ _ Hfirst) as [->|[Hk Hin]]; [now left|].
      right. split; [exact Hk|].
      apply list_elem_of_lookup in Hin as [i Hi].
      apply lookup_take_Some in Hi as [Hi _].
      eapply list_elem_of_lookup_2; exact Hi.
Qed.

End ContextBounds.

(** X11. The texts of a context are short and not empty: the first prompt
    and the last user message, when there are any, have between 1 and 200
    characters, the last assistant response between 1 and 400. *)
Theorem session_context_text_bounds
    (session_file : option (list loads)) (max_tail_lines : Z) (c : context) :
  extract_session_context session_file max_tail_lines = Ok (Some c) ->
  within 200 (ctx_firstPrompt c) /\
  within 200 (lastUserMessage c) /\
  within 400 (lastAssistantResponse c).
Proof.
  unfold extract_session_context.
  destruct session_file as [lines|]; [|discriminate].
  destruct (first_user_loop None (take 30 lines)) as [fu|e] eqn:Hfirst; [|discriminate].
  cbn [mbind result_bind].
  destruct (tail_loop _ (tail_slice max_tail_lines lines)) as [st|e] eqn:Hloop;
    [|discriminate].
  cbn [mbind result_bind]. intros [= <-]. cbn [ctx_firstPrompt lastUserMessage lastAssistantResponse].
  apply first_user_loop_within in Hfirst; [|exact I].
  apply scan_texts_loop in Hloop as [Hu Ha]; [|split; exact I].
  split; [exact Hfirst|]. split; [exact Hu|].
  destruct (last_assistant st) as [s|]; [|exact I].
  apply within_take; [exact Ha|lia].
Qed.

Lemma session_context_text_bounds_witness :
  within 200 (Some "fix the parser") /\ within 200 (Some "fix the parser") /\
  within 400 (Some "Looking.").
Proof.
  apply (session_context_text_bounds (Some example_transcript) 80
           {| ctx_firstPrompt := Some "fix the parser";
              lastUserMessage := Some "fix the parser";
              lastAssistantResponse := Some "Looking.";
              recentTools := [JStr "Read"; JStr "Grep"; JStr "Read"; JStr "Edit";
                              JStr "Bash"];
              lastTool := JStr "Bash" |}).
  reflexivity.
Defined.

(** X12. In the two loops of the extractor of the session context, over
    the lines read from the transcript, the [KeyError] of a missing key is
    caught and never leaves the extractor. When a loop raises, not every
    line of the transcript is in shape, a line being in shape when it is
    not JSON or holds an object whose text blocks carry strings; and the
    exception is [AttributeError] or one that [json.loads] raised on a
    line of the transcript. *)
Theorem session_context_raises_attribute_error
    (session_file : option (list loads)) (max_tail_lines : Z) (e : exn) :
  extract_session_context session_file max_tail_lines = Err e ->
  e <> KeyError /\
  exists lines,
    session_file = Some lines /\
    ~ Forall transcript_line lines /\
    (e = AttributeError \/ LoadsRaised e ∈ lines).
Proof.
  intros H.
  destruct (extract_session_context_raises _ _ _ H) as (lines & Hf & Hwf & He).
  split; [destruct He as [->|[Hk _]]; [discriminate|exact Hk]|].
  exists lines. split; [exact Hf|]. split; [exact Hwf|].
  destruct He as [->|[_ Hin]]; auto.
Qed.

Lemma session_context_raises_attribute_error_witness :
  RecursionError <> KeyError /\
  exists lines,
    Some [example_assistant_entry [example_tool_use "Read"];
          LoadsRaised RecursionError] = Some lines /\
    ~ Forall transcript_line lines /\
    (RecursionError = AttributeError \/ LoadsRaised RecursionError ∈ lines).
Proof.
  apply (session_context_raises_attribute_error
           (Some [example_assistant_entry [example_tool_use "Read"];
                  LoadsRaised RecursionError]) 80).
  reflexivity.
Defined.

(** ** Session files *)

Section Newest.

Local Open Scope list_scope.

Lemma SFltb_trans (a b c : spec_float) :
  SFltb a b = true -> SFltb b c = true -> SFltb a c = true.
Proof.
  unfold SFltb.
  destruct a as [sa|sa| |sa ma ea], b as [sb|sb| |sb mb eb], c as [sc|sc| |sc mc ec];
    cbv beta iota delta [SFcompare]; try discriminate;
    try (destruct sa; try discriminate; try reflexivity);
    try (destruct sb; try discriminate; try reflexivity);
    try (destruct sc; try discriminate; try reflexivity);
    try (intros; reflexivity).
  all: rewrite ?Pos.compare_cont_spec; unfold Pos.switch_Eq.
  all: destruct (Z.compare_spec ea eb), (Z.compare_spec eb ec), (Z.compare_spec ea ec);
    cbv beta iota delta [CompOpp]; try discriminate; try (intros; reflexivity); try lia.
  all: destruct (Pos.compare_spec ma mb), (Pos.compare_spec mb mc), (Pos.compare_spec ma mc);
    cbv beta iota delta [CompOpp]; try discriminate; try (intros; reflexivity); try lia.
Qed.

Lemma SFltb_irrefl (a : spec_float) : SFltb a a = false.
Proof.
  unfold SFltb. destruct a as [s|s| |s m e]; cbv beta iota delta [SFcompare];
    try reflexivity; destruct s; try reflexivity;
    rewrite Z.compare_refl, Pos.compare_cont_spec, Pos.compare_refl; reflexivity.
Qed.

Lemma newest_in (best : jsonl_file) (files : list jsonl_file) :
  newest best files ∈ best :: files.
Proof.
  revert best. induction files as [|f files IH]; intros best; [left|].
  simpl. destruct (SFltb (snd best) (snd f)).
  - right. apply IH.
  - specialize (IH best). apply elem_of_cons in IH as [->|IH]; [left|right; now right].
Qed.

Lemma newest_not_older (best : jsonl_file) (files : list jsonl_file) :
  (forall x : spec_float,
     SFltb (snd best) x = false -> SFltb (snd (newest best files)) x = false) /\
  (forall f, f ∈ files -> SFltb (snd (newest best files)) (snd f) = false).
Proof.
  revert best. induction files as [|f files IH]; intros best.
  - split; [auto|]. intros f Hf. inversion Hf.
  - simpl. destruct (SFltb (snd best) (snd f)) eqn:E.
    + destruct (IH f) as [IH1 IH2]. split.
      * intros x Hx. apply IH1.
        destruct (SFltb (snd f) x) eqn:Efx; [|reflexivity].
        rewrite (SFltb_trans _ _ _ E Efx) in Hx. discriminate.
      * intros g Hg. apply elem_of_cons in Hg as [->|Hg]; [|auto].
        apply IH1, SFltb_irrefl.
    + destruct (IH best) as [IH1 IH2]. split; [exact IH1|].
      intros g Hg. apply elem_of_cons in Hg as [->|Hg]; auto.
Qed.

Lemma stat_all_ok (files : list listed_file) (l : list jsonl_file) :
  stat_all files = Ok l <-> files = stat_ok <$> l.
Proof.
  revert l. induction files as [|[path [t|e]] files IH]; intros l.
  - split; [now intros [= <-]|]. destruct l; [reflexivity|discriminate].
  - cbn [stat_all]. destruct (stat_all files) as [l'|e] eqn:E; cbn [mbind result_bind].
    + split.
      * intros [= <-]. rewrite fmap_cons. f_equal. now apply IH.
      * destruct l as [|[p' t'] l]; [discriminate|]. rewrite fmap_cons.
        intros [= -> -> Hl]. apply IH in Hl. now injection Hl as ->.
    + split; [discriminate|].
      destruct l as [|[p' t'] l]; [discriminate|]. rewrite fmap_cons.
      intros [= -> -> Hl]. apply IH in Hl. discriminate.
  - cbn [stat_all]. split; [discriminate|].
    destruct l as [|[p' t'] l]; discriminate.
Qed.

Lemma stat_all_err (files : list listed_file) (e : exn) :
  stat_all files = Err e <->
  exists pre path post, files = (stat_ok <$> pre) ++ (path, Err e) :: post.
Proof.
  induction files as [|[path [t|e']] files IH].
  - split; [discriminate|]. intros (pre & p' & post & H).
    destruct pre; discriminate.
  - cbn [stat_all]. destruct (stat_all files) as [l'|e''] eqn:E; cbn [mbind result_bind].
    + split; [discriminate|]. intros ([|[p0 t0] pre] & p' & post & H); [discriminate|].
      rewrite fmap_cons in H. injection H as _ _ H.
      assert (He : Ok l' = Err e) by (apply IH; eauto).
      discriminate.
    + split.
      * intros [= ->]. destruct (proj1 IH eq_refl) as (pre & p' & post & ->).
        now exists ((path, t) :: pre), p', post.
      * intros ([|[p0 t0] pre] & p' & post & H); [discriminate|].
        rewrite fmap_cons in H. injection H as _ _ H.
        assert (He : Err (A:=list jsonl_file) e'' = Err e) by (apply IH; eauto).
        now injection He as ->.
  - cbn [stat_all]. split.
    + intros [= ->]. now exists [], path, files.
    + intros ([|[p0 t0] pre] & p' & post & H).
      * now injection H as _ ->.
      * discriminate.
Qed.

End Newest.

(** X13. When looking the folder up and listing it raise nothing and
    [stat] returns for every file listed, the session file of a working
    directory is a file of the folder the directory encodes to, and none
    of the folder's files is newer; there is none exactly when the folder
    is missing or lists no file. The look-up raises exactly when
    [exists] or [glob] raises, or [stat] raises on a listed file, with the
    exception of the first one that does. A directory and its folder
    name, read as a directory, have the same session file. *)
Theorem find_session_file_newest
    (dirs : string -> result (option (list listed_file))) (cwd : string) :
  (find_session_file dirs cwd = Ok None <->
   dirs (cwd_to_project_dir cwd) = Ok None \/
   dirs (cwd_to_project_dir cwd) = Ok (Some [])) /\
  (forall path,
     find_session_file dirs cwd = Ok (Some path) ->
     exists (files : list jsonl_file) mtime,
       dirs (cwd_to_project_dir cwd) = Ok (Some (stat_ok <$> files)) /\
       (path, mtime) ∈ files /\
       forall f, f ∈ files -> SFltb mtime (snd f) = false) /\
  (forall e,
     find_session_file dirs cwd = Err e <->
     dirs (cwd_to_project_dir cwd) = Err e \/
     exists pre path post,
       dirs (cwd_to_project_dir cwd)
       = Ok (Some ((stat_ok <$> pre) ++ (path, Err e) :: post)%list)) /\
  find_session_file dirs (cwd_to_project_dir cwd) = find_session_file dirs cwd.
Proof.
  unfold find_session_file. split; [|split; [|split]].
  - destruct (dirs (cwd_to_project_dir cwd)) as [[files|]|e].
    + destruct (stat_all files) as [[|f l]|e] eqn:E; cbn [mbind result_bind].
      * apply stat_all_ok in E as ->. split; auto.
      * split; [discriminate|]. intros [H|H]; [discriminate|].
        injection H as ->. discriminate.
      * split; [discriminate|]. intros [H|H]; [discriminate|].
        injection H as ->. discriminate.
    + split; auto.
    + split; [discriminate|]. intros [H|H]; discriminate.
  - intros path. destruct (dirs (cwd_to_project_dir cwd)) as [[files|]|e];
      [|discriminate|discriminate].
    destruct (stat_all files) as [[|f l]|e] eqn:E; cbn [mbind result_bind];
      [discriminate| |discriminate].
    intros [= <-]. apply stat_all_ok in E as ->.
    exists (f :: l), (snd (newest f l)). split; [reflexivity|].
    split; [rewrite <- surjective_pairing; apply newest_in|].
    destruct (newest_not_older f l) as [H1 H2].
    intros g Hg. apply elem_of_cons in Hg as [->|Hg]; [|auto].
    apply H1, SFltb_irrefl.
  - intros e. destruct (dirs (cwd_to_project_dir cwd)) as [[files|]|e'].
    + destruct (stat_all files) as [[|f l]|e'] eqn:E; cbn [mbind result_bind].
      * split; [discriminate|]. intros [H|(pre & path & post & H)]; [discriminate|].
        injection H as ->.
        assert (He : stat_all ((stat_ok <$> pre) ++ (path, Err e) :: post)%list = Err e)
          by (apply stat_all_err; eauto).
        rewrite He in E. discriminate.
      * split; [discriminate|]. intros [H|(pre & path & post & H)]; [discriminate|].
        injection H as ->.
        assert (He : stat_all ((stat_ok <$> pre) ++ (path, Err e) :: post)%list = Err e)
          by (apply stat_all_err; eauto).
        rewrite He in E. discriminate.
      * split.
        -- intros [= ->]. right. apply stat_all_err in E as (pre & path & post & ->).
           eauto.
        -- intros [H|(pre & path & post & H)]; [discriminate|].
           injection H as ->.
           assert (He : stat_all ((stat_ok <$> pre) ++ (path, Err e) :: post)%list = Err e)
             by (apply stat_all_err; eauto).
           rewrite He in E. now injection E as ->.
    + split; [discriminate|]. intros [H|(pre & path & post & H)]; discriminate.
    + split; [intros [= ->]; now left|].
      intros [H|(pre & path & post & H)]; [now injection H as ->|discriminate].
  - now rewrite cwd_to_project_dir_twice.
Qed.

Lemma find_session_file_newest_witness :
  exists (files : list jsonl_file) mtime,
    project_dirs example_machine (cwd_to_project_dir "/home/ph/api")
    = Ok (Some (stat_ok <$> files)) /\
    ("new.jsonl", mtime) ∈ files /\
    forall f, f ∈ files -> SFltb mtime (snd f) = false.
Proof.
  apply (proj1 (proj2 (find_session_file_newest
                         (project_dirs example_machine) "/home/ph/api"))).
  reflexivity.
Defined.

(** A folder name too long for the file system and a link whose target
    is gone make the look-up raise. *)
Example find_session_file_raises :
  find_session_file (fun _ => Err OSError) "/home/ph/api" = Err OSError /\
  find_session_file
    (fun _ => Ok (Some [("a.jsonl", Ok PyNum.one); ("b.jsonl", Err OSError)]))
    "/home/ph/api" = Err OSError.
Proof. split; reflexivity. Qed.

(** ** Process discovery: rows and candidates *)

Section Rows.

Local Open Scope list_scope.

Lemma ps_line_by_row (line : string) :
  ps_line line =
    if decide (kept_row line) then
      match candidate_of_row line with
      | Some t => Ok (Some t)
      | None => Err ValueError
      end
    else Ok None.
Proof.
  destruct (decide (kept_row line)) as [[Hrow Hlt]|Hno].
  - rewrite (ps_line_claude_row line Hrow), Hlt. unfold candidate_of_row.
    destruct (PyNum.int_of_string (nth 1 (PyStr.split line) "")); reflexivity.
  - destruct (ps_line_cases line) as [Hrow|Hnone]; [|exact Hnone].
    rewrite (ps_line_claude_row line Hrow).
    destruct (PyNum.lt (row_cpu (PyStr.split line)) PyNum.one) eqn:E; [reflexivity|].
    contradiction Hno. split; assumption.
Qed.

Lemma ps_lines_by_row (acc : list candidate) (lines : list string) (l : list candidate) :
  ps_lines acc lines = Ok l ->
  Some <$> l = (Some <$> acc) ++ (candidate_of_row <$> filter kept_row lines).
Proof.
  revert acc. induction lines as [|line lines IH]; intros acc.
  - intros [= <-]. now rewrite app_nil_r.
  - cbn [ps_lines]. rewrite ps_line_by_row.
    destruct (decide (kept_row line)) as [Hk|Hk].
    + rewrite filter_cons_True by exact Hk.
      destruct (candidate_of_row line) as [t|] eqn:E; [|discriminate].
      intros Hl. rewrite (IH _ Hl), fmap_app, (fmap_cons candidate_of_row), E.
      rewrite <- app_assoc. reflexivity.
    + rewrite filter_cons_False by exact Hk. apply IH.
Qed.

Lemma ps_lines_raises (acc : list candidate) (lines : list string) (e : exn) :
  ps_lines acc lines = Err e ->
  e = ValueError /\
  exists line, line ∈ lines /\ kept_row line /\ candidate_of_row line = None.
Proof.
  revert acc. induction lines as [|line lines IH]; intros acc; [discriminate|].
  cbn [ps_lines]. rewrite ps_line_by_row.
  destruct (decide (kept_row line)) as [Hk|Hk].
  - destruct (candidate_of_row line) as [t|] eqn:E.
    + intros Hl. destruct (IH _ Hl) as (-> & line' & Hin & H).
      split; [reflexivity|]. exists line'. split; [now right|exact H].
    + intros [= <-]. split; [reflexivity|]. exists line. split; [left|auto].
  - intros Hl. destruct (IH _ Hl) as (-> & line' & Hin & H).
    split; [reflexivity|]. exists line'. split; [now right|exact H].
Qed.

End Rows.

(** X14. The candidates are the rows the loop keeps, in the order of the
    process list, each with its pid read as an integer, its CPU value and
    its start time, so there are at most as many as rows. The loop fails
    only with [ValueError], and only when a row it keeps has a pid that
    [int] refuses, because it is not the text of an integer or has more
    than 4300 digits. *)
Theorem claude_pids_in_row_order (ps_stdout : string) :
  (forall l,
     claude_pids ps_stdout = Ok l ->
     Some <$> l = candidate_of_row <$> filter kept_row (ps_rows ps_stdout) /\
     (length l <= length (ps_rows ps_stdout))%nat) /\
  (forall e,
     claude_pids ps_stdout = Err e ->
     e = ValueError /\
     exists line,
       line ∈ ps_rows ps_stdout /\ kept_row line /\ candidate_of_row line = None).
Proof.
  unfold claude_pids. fold (ps_rows ps_stdout). split.
  - intros l Hl. apply ps_lines_by_row in Hl. simpl in Hl. split; [exact Hl|].
    apply (f_equal length) in Hl. rewrite !length_fmap in Hl. rewrite Hl.
    apply length_filter.
  - intros e. apply ps_lines_raises.
Qed.

Lemma claude_pids_in_row_order_witness :
  Some <$> [(4242%Z, PyNum.one, "10:15AM"); (4300%Z, example_busy_cpu, "10:17AM")]
  = candidate_of_row <$> filter kept_row (ps_rows example_ps_output).
Proof.
  apply (proj1 (proj1 (claude_pids_in_row_order example_ps_output) _ eq_refl)).
Defined.

(** ** Process discovery: the sessions *)

Section Sessions.

Local Open Scope list_scope.

Implicit Types (m : machine) (w : world) (s : session).

Lemma bind_run {A B} (c : M A) (k : A -> M B) w :
  (c ≫= k) w =
    match c w with
    | (Returned a, w') => k a w'
    | (Exited code, w') => (Exited code, w')
    | (Raised e, w') => (Raised e, w')
    end.
Proof. reflexivity. Qed.

Lemma scan_history_raises cwd best (lines : list loads) (e : exn) :
  scan_history cwd best lines = Err e ->
  e = AttributeError \/ LoadsRaised e ∈ lines.
Proof.
  revert best. induction lines as [|[v| |e'] lines IH]; intros best; [discriminate| | |].
  - destruct v as [| | | | | |entry]; simpl; try (intros [= <-]; now left).
    destruct (PyVal.eq_str _ cwd); intros H;
      (destruct (IH _ H) as [->|Hin]; [now left|right; now right]).
  - simpl. intros H. destruct (IH _ H) as [->|Hin]; [now left|right; now right].
  - simpl. intros [= ->]. right. left.
Qed.

Lemma find_session_id_outcome cwd w :
  snd (find_session_id_for_cwd cwd w) = w /\
  match fst (find_session_id_for_cwd cwd w) with
  | Returned _ => True
  | Exited _ => False
  | Raised e =>
      e = AttributeError \/
      exists lines, history_file w = Some lines /\ LoadsRaised e ∈ lines
  end.
Proof.
  unfold find_session_id_for_cwd, lift.
  destruct (history_file w) as [lines|]; [|split; [reflexivity|exact I]].
  destruct (scan_history cwd JNull lines) as [v|e] eqn:E; simpl;
    [split; [reflexivity|exact I]|].
  split; [reflexivity|].
  destruct (scan_history_raises _ _ _ _ E) as [->|Hin]; [now left|right; eauto].
Qed.

Lemma session_of_outcome m exclude_pid (t : candidate) w :
  snd (session_of m exclude_pid t w) = w /\
  match fst (session_of m exclude_pid t w) with
  | Returned None => True
  | Returned (Some s) => session_process s = t /\ session_ok m exclude_pid w s
  | Exited _ => False
  | Raised e => e = AttributeError \/ raised_by_files m w e
  end.
Proof.
  destruct t as [[pid cpu] started]. unfold session_of.
  destruct (excluded exclude_pid pid) eqn:Eex; [split; [reflexivity|exact I]|].
  destruct (cwd_of_lsof (lsof_cwd m pid)) as [cwd|] eqn:Ecwd;
    [|split; [reflexivity|exact I]].
  destruct (PyStr.is_empty cwd || negb (PyStr.startswith "/" cwd)) eqn:Eabs;
    [split; [reflexivity|exact I]|].
  apply orb_false_iff in Eabs as [_ Eabs]. apply negb_false_iff in Eabs.
  rewrite bind_run.
  destruct (find_session_id_outcome cwd w) as [Hw Hid].
  destruct (find_session_id_for_cwd cwd w) as [[sid|code|e] w'] eqn:Esid;
    simpl in Hw, Hid; subst w'; [|contradiction|].
  2:{ split; [reflexivity|]. simpl.
      destruct Hid as [->|Hin]; [now left|right; now left]. }
  rewrite bind_run. unfold lift at 1.
  destruct (find_session_file (project_dirs m) cwd) as [[f|]|e] eqn:Ef.
  - rewrite bind_run. unfold lift.
    destruct (extract_session_context (read_lines m f) 80) as [ctx|e] eqn:Ectx.
    + cbn. split; [reflexivity|]. split; [reflexivity|].
      unfold session_ok. cbn. rewrite Ef. auto 10.
    + cbn. split; [reflexivity|].
      destruct (extract_session_context_raises _ _ _ Ectx)
        as (lines & Hf & _ & [->|[_ Hin]]); [now left|].
      right. right. right. eauto.
  - rewrite bind_run. cbn. split; [reflexivity|]. split; [reflexivity|].
    unfold session_ok. cbn. rewrite Ef. auto 10.
  - cbn. split; [reflexivity|]. right. right. left. eauto.
Qed.

Lemma sessions_loop_outcome m exclude_pid (acc : list session)
    (pids : list candidate) w :
  snd (sessions_loop m exclude_pid acc pids w) = w /\
  match fst (sessions_loop m exclude_pid acc pids w) with
  | Returned l =>
      exists new,
        l = acc ++ new /\
        session_process <$> new `sublist_of` pids /\
        Forall (session_ok m exclude_pid w) new
  | Exited _ => False
  | Raised e => e = AttributeError \/ raised_by_files m w e
  end.
Proof.
  revert acc. induction pids as [|t pids IH]; intros acc.
  - split; [reflexivity|]. exists []. rewrite app_nil_r.
    split; [reflexivity|]. split; [constructor|constructor].
  - cbn [sessions_loop]. rewrite bind_run.
    destruct (session_of_outcome m exclude_pid t w) as [Hw Hs].
    destruct (session_of m exclude_pid t w) as [[[s|]|code|e] w'];
      simpl in Hw, Hs; subst w'; [| |contradiction|split; [reflexivity|exact Hs]].
    + destruct (IH (acc ++ [s])) as [Hw' Hl]. split; [exact Hw'|].
      destruct (fst (sessions_loop m exclude_pid (acc ++ [s]) pids w)) as [l|code|e];
        [|exact Hl|exact Hl].
      destruct Hl as (new & -> & Hsub & Hall). destruct Hs as [Ht Hok].
      exists (s :: new). split; [now rewrite <- app_assoc|].
      split; [rewrite fmap_cons, Ht; now constructor|now constructor].
    + destruct (IH acc) as [Hw' Hl]. split; [exact Hw'|].
      destruct (fst (sessions_loop m exclude_pid acc pids w)) as [l|code|e];
        [|exact Hl|exact Hl].
      destruct Hl as (new & -> & Hsub & Hall).
      exists new. split; [reflexivity|]. split; [now constructor|exact Hall].
Qed.

(** What the discoverer gives, whatever the machine. *)
Lemma get_active_claude_sessions_outcome m exclude_pid w :
  snd (get_active_claude_sessions m exclude_pid w) = w /\
  match fst (get_active_claude_sessions m exclude_pid w) with
  | Returned l =>
      match ps_aux m with
      | None => l = []
      | Some stdout =>
          exists pids,
            claude_pids stdout = Ok pids /\
            session_process <$> l `sublist_of` pids /\
            Forall (session_ok m exclude_pid w) l
      end
  | Exited _ => False
  | Raised e =>
      (e = ValueError /\
       exists stdout, ps_aux m = Some stdout /\ claude_pids stdout = Err ValueError) \/
      e = AttributeError \/ raised_by_files m w e
  end.
Proof.
  unfold get_active_claude_sessions.
  destruct (ps_aux m) as [stdout|]; [|split; reflexivity].
  rewrite bind_run. unfold lift.
  destruct (claude_pids stdout) as [pids|e] eqn:Epids.
  - destruct (sessions_loop_outcome m exclude_pid [] pids w) as [Hw Hl].
    split; [exact Hw|].
    destruct (sessions_loop m exclude_pid [] pids w) as [[l|code|e] w'];
      simpl in Hl |- *; [|exact Hl|right; exact Hl].
    destruct Hl as (new & -> & Hsub & Hall). exists pids. auto.
  - simpl. split; [reflexivity|]. left.
    assert (e = ValueError) as ->
      by (unfold claude_pids in Epids; exact (proj1 (ps_lines_raises _ _ _ Epids))).
    split; [reflexivity|]. now exists stdout.
Qed.

(** What stands behind the last separator has no separator, and the
    separator stands before it. *)
Lemma rsplit_last_no_sep (sep : ascii) (s : string) :
  PyStr.contains (String sep "") (rsplit_last sep s) = false.
Proof.
  induction s as [|c s IH]; [reflexivity|]. cbn [rsplit_last].
  destruct (PyStr.contains (String sep "") s) eqn:E; [exact IH|].
  destruct (Ascii.eqb c sep) eqn:Ec; [exact E|].
  cbn [PyStr.contains PyStr.startswith]. rewrite E, Ascii.eqb_sym, Ec. reflexivity.
Qed.

Lemma rsplit_last_suffix (sep : ascii) (s : string) :
  PyStr.contains (String sep "") s = true ->
  exists pre, s = (pre ++ String sep (rsplit_last sep s))%string.
Proof.
  induction s as [|c s IH]; [discriminate|]. cbn [rsplit_last].
  destruct (PyStr.contains (String sep "") s) eqn:E.
  - intros _. destruct (IH eq_refl) as [pre Hpre].
    exists (String c pre). rewrite append_cons. now rewrite <- Hpre.
  - cbn [PyStr.contains PyStr.startswith]. rewrite E, orb_false_r, andb_true_r.
    intros Hc. rewrite Ascii.eqb_sym in Hc. rewrite Hc.
    apply Ascii.eqb_eq in Hc as ->. now exists "".
Qed.

Lemma startswith_contains (p s : string) :
  PyStr.startswith p s = true -> PyStr.contains p s = true.
Proof. intros H. destruct s; cbn [PyStr.contains]; now rewrite H. Qed.

Lemma short_name_spec (cwd : string) :
  PyStr.startswith "/" cwd = true ->
  PyStr.contains "/" (short_name cwd) = false /\
  exists pre, cwd = (pre ++ String "/" (short_name cwd))%string.
Proof.
  intros H. apply startswith_contains in H. unfold short_name. rewrite H.
  split; [apply rsplit_last_no_sep|now apply rsplit_last_suffix].
Qed.

Lemma sessions_returned m exclude_pid w (l : list session) w' s :
  get_active_claude_sessions m exclude_pid w = (Returned l, w') ->
  s ∈ l -> session_ok m exclude_pid w s.
Proof.
  intros Hrun Hs.
  destruct (get_active_claude_sessions_outcome m exclude_pid w) as [_ Hl].
  rewrite Hrun in Hl. simpl in Hl.
  destruct (ps_aux m) as [stdout|].
  - destruct Hl as (pids & _ & _ & Hall).
    rewrite Forall_forall in Hall. now apply Hall.
  - subst l. now apply elem_of_nil in Hs.
Qed.

(** If no candidate has a working directory that [lsof] gives, the loop
    appends nothing. *)
Lemma sessions_loop_no_cwd m exclude_pid (acc : list session)
    (pids : list candidate) w :
  Forall (fun t => cwd_of_lsof (lsof_cwd m (fst (fst t))) = None) pids ->
  sessions_loop m exclude_pid acc pids w = (Returned acc, w).
Proof.
  induction 1 as [|[[pid cpu] started] pids Ht _ IH]; [reflexivity|].
  cbn [sessions_loop]. rewrite bind_run. unfold session_of.
  simpl in Ht. rewrite Ht.
  destruct (excluded exclude_pid pid); exact IH.
Qed.

(** X15 (process discovery, the sessions are made of the candidates): when
    the discoverer returns, the processes of its sessions, as pid, CPU
    value and start time, are candidates of the process list, in the order
    of the list and each at most as often as the list has it; and a
    process whose pid is the non-zero [exclude_pid] is not among them. *)
Theorem sessions_follow_candidates m exclude_pid w (stdout : string)
    (l : list session) w' :
  ps_aux m = Some stdout ->
  get_active_claude_sessions m exclude_pid w = (Returned l, w') ->
  exists pids,
    claude_pids stdout = Ok pids /\
    session_process <$> l `sublist_of` pids /\
    forall s z, s ∈ l -> exclude_pid = Some z -> z <> 0%Z -> s_pid s <> z.
Proof.
  intros Hps Hrun.
  destruct (get_active_claude_sessions_outcome m exclude_pid w) as [_ Hl].
  rewrite Hrun, Hps in Hl. simpl in Hl.
  destruct Hl as (pids & Hpids & Hsub & Hall).
  exists pids. split; [exact Hpids|]. split; [exact Hsub|].
  intros s z Hs -> Hz Heq.
  rewrite Forall_forall in Hall. destruct (Hall s Hs) as [Hex _].
  unfold excluded in Hex. rewrite Heq, Z.eqb_refl, andb_true_r in Hex.
  apply negb_false_iff, Z.eqb_eq in Hex. contradiction.
Qed.

Lemma sessions_follow_candidates_witness :
  exists pids,
    claude_pids example_ps_output = Ok pids /\
    session_process <$> [example_session JNull] `sublist_of` pids /\
    forall s z,
      s ∈ [example_session JNull] -> Some 4300%Z = Some z -> z <> 0%Z ->
      s_pid s <> z.
Proof.
  apply (sessions_follow_candidates example_machine (Some 4300%Z)
           (example_world [] (Some example_history)) example_ps_output
           [example_session JNull]
           (example_world [] (Some example_history)));
    vm_compute; reflexivity.
Defined.

(** X16 (process discovery, working directory and short name): the working
    directory of a session is the last word of the last line [lsof]
    printed for its process and begins with a slash; the short name of the
    project has no slash, and the directory ends with a slash followed by
    the short name. *)
Theorem session_short_name m exclude_pid w (l : list session) w' s :
  get_active_claude_sessions m exclude_pid w = (Returned l, w') ->
  s ∈ l ->
  cwd_of_lsof (lsof_cwd m (s_pid s)) = Some (s_cwd s) /\
  PyStr.startswith "/" (s_cwd s) = true /\
  PyStr.contains "/" (s_projectShort s) = false /\
  exists pre, s_cwd s = (pre ++ String "/" (s_projectShort s))%string.
Proof.
  intros Hrun Hs.
  destruct (sessions_returned _ _ _ _ _ _ Hrun Hs) as (_ & Hcwd & Habs & -> & _).
  split; [exact Hcwd|]. split; [exact Habs|]. now apply short_name_spec.
Qed.

Lemma session_short_name_witness :
  exists s,
    s_pid s = 4300%Z /\ s_cwd s = "/home/ph/web" /\ s_projectShort s = "web" /\
    cwd_of_lsof (lsof_cwd example_machine (s_pid s)) = Some (s_cwd s) /\
    PyStr.startswith "/" (s_cwd s) = true /\
    PyStr.contains "/" (s_projectShort s) = false /\
    exists pre, s_cwd s = (pre ++ String "/" (s_projectShort s))%string.
Proof.
  exists example_web_session.
  split; [reflexivity|]. split; [reflexivity|]. split; [reflexivity|].
  apply (session_short_name example_machine (Some 4242%Z)
           (example_world [] (Some example_history)) [example_web_session]
           (example_world [] (Some example_history))).
  - vm_compute. reflexivity.
  - apply list_elem_of_here.
Defined.

(** X17 (process discovery, session id and context): the session id of a
    session is what the correlator returns for its working directory on
    the world the discoverer was started in; its context is what the
    extractor gives, with a tail of 80 lines, for the newest transcript of
    the folder of that directory, and the empty context when the folder is
    absent or has no transcript. *)
Theorem session_id_and_context m exclude_pid w (l : list session) w' s :
  get_active_claude_sessions m exclude_pid w = (Returned l, w') ->
  s ∈ l ->
  find_session_id_for_cwd (s_cwd s) w = (Returned (s_sessionId s), w) /\
  match find_session_file (project_dirs m) (s_cwd s) with
  | Ok (Some f) => extract_session_context (read_lines m f) 80 = Ok (s_context s)
  | Ok None => s_context s = None
  | Err _ => False
  end.
Proof.
  intros Hrun Hs.
  destruct (sessions_returned _ _ _ _ _ _ Hrun Hs) as (_ & _ & _ & _ & Hid & Hctx).
  split; [exact Hid|exact Hctx].
Qed.

Lemma session_id_and_context_witness :
  exists s w,
    s_sessionId s = JStr "S9" /\
    find_session_file (project_dirs example_machine) (s_cwd s)
    = Ok (Some "new.jsonl") /\
    find_session_id_for_cwd (s_cwd s) w = (Returned (s_sessionId s), w) /\
    match find_session_file (project_dirs example_machine) (s_cwd s) with
    | Ok (Some f) =>
        extract_session_context (read_lines example_machine f) 80 = Ok (s_context s)
    | Ok None => s_context s = None
    | Err _ => False
    end.
Proof.
  exists (example_session (JStr "S9")).
  exists (example_world []
            (Some [Loaded (JObj [("sessionId", JStr "S9");
                                 ("project", JStr "/home/ph/api")])])).
  split; [reflexivity|]. split; [reflexivity|].
  apply (session_id_and_context example_machine (Some 4300%Z) _
           [example_session (JStr "S9")]
           (example_world []
              (Some [Loaded (JObj [("sessionId", JStr "S9");
                                   ("project", JStr "/home/ph/api")])]))).
  - vm_compute. reflexivity.
  - apply list_elem_of_here.
Defined.

(** X18 (process discovery, what it never does): the discoverer leaves
    the registry, the history log and the standard output as they are and
    never exits. If it raises, on a history log and transcripts that are
    absent or can be read, the exception is the [ValueError] of [int] with
    which the scan of the process list fails, an [AttributeError], or an
    exception that the files make it raise: one that [json.loads] raised
    on a line of the history log or of a transcript, or one that the
    look-up of the session file of a directory raised. *)
Theorem sessions_read_only m exclude_pid w :
  snd (get_active_claude_sessions m exclude_pid w) = w /\
  (forall code, fst (get_active_claude_sessions m exclude_pid w) <> Exited code) /\
  (forall e, fst (get_active_claude_sessions m exclude_pid w) = Raised e ->
             (e = ValueError /\
              exists stdout,
                ps_aux m = Some stdout /\ claude_pids stdout = Err ValueError) \/
             e = AttributeError \/ raised_by_files m w e).
Proof.
  destruct (get_active_claude_sessions_outcome m exclude_pid w) as [Hw Hl].
  split; [exact Hw|].
  destruct (fst (get_active_claude_sessions m exclude_pid w)) as [l|code|e'].
  - split; intros; discriminate.
  - contradiction.
  - split; [intros; discriminate|]. now intros e [= <-].
Qed.

(** X19 (process discovery, commands that fail): when [ps] cannot be run,
    and when [lsof] fails or prints nothing for every candidate, the
    discoverer returns the empty list; neither is an error. *)
Theorem sessions_none_without_commands m exclude_pid w :
  ps_aux m = None \/
  (exists stdout pids,
     ps_aux m = Some stdout /\ claude_pids stdout = Ok pids /\
     Forall (fun t => cwd_of_lsof (lsof_cwd m (fst (fst t))) = None) pids) ->
  get_active_claude_sessions m exclude_pid w = (Returned [], w).
Proof.
  unfold get_active_claude_sessions.
  intros [->|(stdout & pids & -> & Hpids & Hnone)]; [reflexivity|].
  rewrite bind_run. unfold lift. rewrite Hpids.
  now apply sessions_loop_no_cwd.
Qed.

Lemma sessions_none_without_commands_witness :
  get_active_claude_sessions
    {| ps_aux := Some example_ps_output;
       lsof_cwd := fun pid => if (pid =? 4242)%Z then Some "" else None;
       project_dirs := fun _ => Ok None;
       read_lines := fun _ => None |}
    None (example_world [] None)
  = (Returned [], example_world [] None).
Proof.
  apply sessions_none_without_commands. right.
  exists example_ps_output,
    [(4242%Z, PyNum.one, "10:15AM"); (4300%Z, example_busy_cpu, "10:17AM")].
  split; [reflexivity|]. split; [vm_compute; reflexivity|].
  repeat apply Forall_cons_2; [reflexivity|reflexivity|apply Forall_nil_2].
Defined.

End Sessions.

Section HistoryGrows.

Local Open Scope list_scope.

(** X24 (session correlation, a log that grows): when the correlator
    returns for a history log, then for the log with one more line it
    returns again if [json.loads] gives an object for the line or raises
    [JSONDecodeError] on it: the result is the session id of the new
    entry, or none if it records none, when the project of the entry is
    the directory, and the result for the old log else. On a new line of
    another kind it raises: [AttributeError] for a value that is no
    object, else what [json.loads] raised. *)
Theorem find_session_id_after_append (cwd : string) (w w' : world)
    (lines : list loads) (line : loads) (v : json) :
  history_file w = Some lines ->
  history_file w' = Some (lines ++ [line]) ->
  find_session_id_for_cwd cwd w = (Returned v, w) ->
  (object_or_unparseable line ->
   find_session_id_for_cwd cwd w' =
     (Returned match line with
               | Loaded (JObj e) =>
                   if project_is cwd e
                   then default JNull (PyVal.lookup "sessionId" e) else v
               | _ => v
               end, w')) /\
  (~ object_or_unparseable line ->
   find_session_id_for_cwd cwd w' = (Raised (exception_of line), w')).
Proof.
  unfold find_session_id_for_cwd, lift. intros -> ->.
  rewrite scan_history_app.
  destruct (scan_history cwd JNull lines) as [b|e]; [|discriminate].
  intros [= ->]. split; intros Hline.
  - destruct line as [[| | | | | |e]| |exc]; simpl in Hline; try contradiction;
      [|reflexivity].
    simpl. rewrite project_is_get. now destruct (project_is cwd e).
  - destruct line as [[| | | | | |e]| |exc]; simpl in Hline; try reflexivity;
      contradiction Hline; exact I.
Qed.

Lemma find_session_id_after_append_witness :
  find_session_id_for_cwd "/p"
    (example_world []
       (Some (example_history ++
              [Loaded (JObj [("project", JStr "/p"); ("sessionId", JStr "S4")])])))
  = (Returned (JStr "S4"),
     example_world []
       (Some (example_history ++
              [Loaded (JObj [("project", JStr "/p"); ("sessionId", JStr "S4")])]))).
Proof.
  apply (find_session_id_after_append "/p"
           (example_world [] (Some example_history)) _ example_history
           (Loaded (JObj [("project", JStr "/p"); ("sessionId", JStr "S4")]))
           (JStr "S3"));
    [reflexivity|reflexivity|vm_compute; reflexivity|exact I].
Defined.

End HistoryGrows.

Section Listing.

Local Open Scope list_scope.

Variable saved_date : string -> result string.

Implicit Types (w : world) (c : conversation) (P : outcome unit -> Prop).

Lemma with_output_nil w : with_output [] w = w.
Proof. destruct w. unfold with_output. simpl. now rewrite app_nil_r. Qed.

Lemma with_output_app out1 out2 w :
  with_output out2 (with_output out1 w) = with_output (out1 ++ out2) w.
Proof. unfold with_output. simpl. now rewrite app_assoc. Qed.

Lemma printer_ret P : P (Returned tt) -> printer P (mret tt).
Proof.
  intros H. exists (Returned tt), []. split; [|exact H].
  intros w. now rewrite with_output_nil.
Qed.

Lemma printer_exit P (code : Z) : P (Exited code) -> printer P (sys_exit code).
Proof.
  intros H. exists (Exited code), []. split; [|exact H].
  intros w. now rewrite with_output_nil.
Qed.

Lemma printer_print P (line : list piece) (k : M unit) :
  printer P k -> printer P (print line ;; k).
Proof.
  intros (r & out & Hk & H). exists r, (line :: out). split; [|exact H].
  intros w. rewrite bind_run. unfold print at 1. rewrite Hk.
  f_equal. unfold with_output. simpl. now rewrite <- app_assoc.
Qed.

Lemma printer_seq P (c1 c2 : M unit) :
  printer (fun r => match r with Returned _ => printer P c2 | _ => P r end) c1 ->
  printer P (c1 ;; c2).
Proof.
  intros (r1 & o1 & H1 & H). destruct r1 as [[]|code|e].
  - destruct H as (r & o2 & H2 & H). exists r, (o1 ++ o2). split; [|exact H].
    intros w. rewrite bind_run, H1, H2. now rewrite with_output_app.
  - exists (Exited code), o1. split; [|exact H].
    intros w. now rewrite bind_run, H1.
  - exists (Raised e), o1. split; [|exact H].
    intros w. now rewrite bind_run, H1.
Qed.

Lemma printer_when P (b : bool) (c : M unit) :
  (if b then printer P c else P (Returned tt)) -> printer P (when b c).
Proof. destruct b; [trivial|apply printer_ret]. Qed.

Lemma printer_lift {A} P (r : result A) (k : A -> M unit) :
  match r with Ok a => printer P (k a) | Err e => P (Raised e) end ->
  printer P (lift r ≫= k).
Proof.
  destruct r as [a|e].
  - intros (r & out & Hk & H). exists r, out. split; [|exact H].
    intros w. rewrite bind_run. apply Hk.
  - intros H. exists (Raised e), []. split; [|exact H].
    intros w. rewrite bind_run. simpl. now rewrite with_output_nil.
Qed.

Lemma printer_closed P (label : string) (l : list conversation) :
  P (Returned tt) -> printer P (for_each (print_closed label) l).
Proof.
  intros H. induction l as [|c l IH]; [now apply printer_ret|].
  cbn [for_each]. apply printer_seq. unfold print_closed.
  apply printer_print.
  exists (Returned tt), [[]]. split; [|exact IH]. intros w. reflexivity.
Qed.

Lemma printer_active P (l : list conversation) :
  P (Returned tt) ->
  (forall c e, c ∈ l -> saved_date (savedAt c) = Err e -> P (Raised e)) ->
  printer P (for_each (print_active saved_date) l).
Proof.
  intros Hret. induction l as [|c l IH]; intros Hraise; [now apply printer_ret|].
  cbn [for_each]. apply printer_seq. unfold print_active.
  apply printer_lift.
  destruct (saved_date (savedAt c)) as [date|e] eqn:E.
  - do 3 apply printer_print.
    exists (Returned tt), [[]]. split; [intros w; reflexivity|].
    apply IH. intros c' e Hc'. apply Hraise. now apply list_elem_of_further.
  - apply (Hraise c e); [apply list_elem_of_here|exact E].
Qed.

Lemma with_status_idemp (st : string) (convs : list conversation) :
  with_status st (with_status st convs) = with_status st convs.
Proof.
  unfold with_status. rewrite list_filter_filter.
  apply list_filter_iff. intros c. tauto.
Qed.

(** The listing is a function of the conversations it groups: the outcome
    and the lines printed are the same in all worlds with the same active
    conversations and, with [all], the same done and removed ones and a
    registry that is empty or not alike. *)
Lemma cmd_list_prints (all shown : bool) (act dn rm : list conversation) :
  exists r out,
    (forall w,
       any (if all then conversations (loaded w)
            else with_status "active" (conversations (loaded w))) = shown ->
       with_status "active" (conversations (loaded w)) = act ->
       (all = true ->
        with_status "done" (conversations (loaded w)) = dn /\
        with_status "removed" (conversations (loaded w)) = rm) ->
       cmd_list saved_date all w = (r, with_output out w)) /\
    match r with
    | Returned _ => shown = true
    | Exited code => code = 0%Z /\ shown = false
    | Raised e => shown = true /\ exists c, c ∈ act /\ saved_date (savedAt c) = Err e
    end.
Proof.
  set (post := fun r : outcome unit =>
    match r with
    | Returned _ => shown = true
    | Exited code => code = 0%Z /\ shown = false
    | Raised e => shown = true /\ exists c, c ∈ act /\ saved_date (savedAt c) = Err e
    end).
  cut (exists body : M unit,
         (forall w,
            any (if all then conversations (loaded w)
                 else with_status "active" (conversations (loaded w))) = shown ->
            with_status "active" (conversations (loaded w)) = act ->
            (all = true ->
             with_status "done" (conversations (loaded w)) = dn /\
             with_status "removed" (conversations (loaded w)) = rm) ->
            cmd_list saved_date all w = body w) /\
         printer post body).
  { intros (body & Hbody & r & out & Hp & H). exists r, out. split; [|exact H].
    intros w H1 H2 H3. rewrite (Hbody w H1 H2 H3). apply Hp. }
  destruct all.
  - eexists. split.
    + intros w Hshown Hact Hrest. destruct (Hrest eq_refl) as [Hdn Hrm].
      unfold cmd_list. rewrite bind_run. unfold load_registry.
      change (default _ (registry_file w)) with (loaded w). cbv beta zeta.
      fold (with_status "active" (conversations (loaded w))).
      fold (with_status "done" (conversations (loaded w))).
      fold (with_status "removed" (conversations (loaded w))).
      rewrite Hshown, Hact, Hdn, Hrm. reflexivity.
    + destruct shown; cbn [negb].
      * apply printer_seq, printer_when. cbn [andb].
        assert (Hrest : printer post
                  (when (true && any dn)
                     (print [Lit ("## Completed" ++ String "010" "")%string] ;;
                      for_each (print_closed " (done)") dn) ;;
                   when (true && any rm)
                     (print [Lit ("## Removed" ++ String "010" "")%string] ;;
                      for_each (print_closed " (removed)") rm))).
        { apply printer_seq, printer_when. cbn [andb].
          assert (Hrm : printer post
                    (when (any rm)
                       (print [Lit ("## Removed" ++ String "010" "")%string] ;;
                        for_each (print_closed " (removed)") rm))).
          { apply printer_when. destruct (any rm); [|reflexivity].
            apply printer_print, printer_closed. reflexivity. }
          destruct (any dn); [|exact Hrm].
          apply printer_print, printer_closed. exact Hrm. }
        destruct (any act); [|exact Hrest].
        apply printer_print, printer_active; [exact Hrest|].
        intros c e Hc He. split; [reflexivity|]. now exists c.
      * apply printer_print. cbn [negb when].
        apply printer_seq, printer_ret, printer_exit. now split.
  - eexists. split.
    + intros w Hshown Hact _.
      unfold cmd_list. rewrite bind_run. unfold load_registry.
      change (default _ (registry_file w)) with (loaded w). cbv beta zeta.
      fold (with_status "active" (conversations (loaded w))).
      fold (with_status "active" (with_status "active" (conversations (loaded w)))).
      rewrite with_status_idemp, Hshown, Hact. cbn [andb when negb]. reflexivity.
    + destruct shown; cbn [negb].
      * apply printer_seq.
        assert (Hrest : printer post (mret tt ;; mret tt)).
        { apply printer_seq, printer_ret, printer_ret. reflexivity. }
        cbn [when]. apply printer_print, printer_active; [exact Hrest|].
        intros c e Hc He. split; [reflexivity|]. now exists c.
      * apply printer_print, printer_print, printer_exit. now split.
Qed.

Lemma any_true {A} (l : list A) : any l = true -> l <> [].
Proof. now destruct l. Qed.

Lemma any_false {A} (l : list A) : any l = false -> l = [].
Proof. now destruct l. Qed.

Lemma with_status_listed (st : string) (convs : list conversation) :
  st = "active" \/ st = "done" \/ st = "removed" ->
  with_status st (filter listed_status convs) = with_status st convs.
Proof.
  intros Hst. unfold with_status. rewrite list_filter_filter.
  apply list_filter_iff. intros c. unfold listed_status.
  split; [tauto|]. intros H. split; [exact H|]. now rewrite H.
Qed.

Lemma with_status_none (st : string) (convs : list conversation) :
  st = "active" \/ st = "done" \/ st = "removed" ->
  Forall (fun c => ~ listed_status c) convs -> with_status st convs = [].
Proof.
  intros Hst. unfold with_status. induction 1 as [|c l Hc _ IH]; [reflexivity|].
  rewrite filter_cons_False; [exact IH|].
  intros H. apply Hc. unfold listed_status. now rewrite H.
Qed.

(** X20 (listing, what it does and how it ends): the listing prints and
    does nothing else, so registry file, history log and the count of
    registry writes are as before. It exits, with code 0, exactly when it
    has no conversation to look at, which without [all] means no active
    one; and if it raises, the date formatter raised on the saved time of
    an active conversation. *)
Theorem list_only_prints (all : bool) w (r : outcome unit) w' :
  cmd_list saved_date all w = (r, w') ->
  (exists out, w' = with_output out w) /\
  match r with
  | Returned _ =>
      (if all then conversations (loaded w)
       else with_status "active" (conversations (loaded w))) <> []
  | Exited code =>
      code = 0%Z /\
      (if all then conversations (loaded w)
       else with_status "active" (conversations (loaded w))) = []
  | Raised e =>
      exists c,
        c ∈ conversations (loaded w) /\ status c = "active" /\
        saved_date (savedAt c) = Err e
  end.
Proof.
  intros Hrun.
  destruct (cmd_list_prints all
              (any (if all then conversations (loaded w)
                    else with_status "active" (conversations (loaded w))))
              (with_status "active" (conversations (loaded w)))
              (with_status "done" (conversations (loaded w)))
              (with_status "removed" (conversations (loaded w))))
    as (r0 & out & Hout & Hpost).
  rewrite (Hout w eq_refl eq_refl (fun _ => conj eq_refl eq_refl)) in Hrun.
  injection Hrun as <- <-. split; [now exists out|].
  destruct r0 as [[]|code|e].
  - now apply any_true.
  - destruct Hpost as [-> Hshown]. split; [reflexivity|now apply any_false].
  - destruct Hpost as (_ & c & Hc & He). exists c.
    apply list_elem_of_filter in Hc as [Hst Hc]. auto.
Qed.

(** X21 (listing, the default view): without [all], outcome and printed
    lines are the same for any two registries with the same active
    conversations; what is done, removed or of another status has no
    part in them. *)
Theorem list_default_active_only w1 w2 :
  with_status "active" (conversations (loaded w1))
  = with_status "active" (conversations (loaded w2)) ->
  exists r out,
    cmd_list saved_date false w1 = (r, with_output out w1) /\
    cmd_list saved_date false w2 = (r, with_output out w2).
Proof.
  intros Hact.
  destruct (cmd_list_prints false
              (any (with_status "active" (conversations (loaded w1))))
              (with_status "active" (conversations (loaded w1))) [] [])
    as (r & out & Hout & _).
  exists r, out. split.
  - apply Hout; [reflexivity|reflexivity|discriminate].
  - apply Hout; [now rewrite Hact|now rewrite Hact|discriminate].
Qed.

(** X22 (listing, statuses without a section): with [all], outcome and
    printed lines are the same for any two registries that are not empty
    and have the same active, done and removed conversations; a
    conversation of another status is printed nowhere. *)
Theorem list_all_skips_other_statuses w1 w2 :
  conversations (loaded w1) <> [] ->
  conversations (loaded w2) <> [] ->
  filter listed_status (conversations (loaded w1))
  = filter listed_status (conversations (loaded w2)) ->
  exists r out,
    cmd_list saved_date true w1 = (r, with_output out w1) /\
    cmd_list saved_date true w2 = (r, with_output out w2).
Proof.
  intros H1 H2 Hlisted.
  assert (Hst : forall st, st = "active" \/ st = "done" \/ st = "removed" ->
            with_status st (conversations (loaded w2))
            = with_status st (conversations (loaded w1))).
  { intros st Hst. rewrite <- (with_status_listed st (conversations (loaded w2))),
      <- (with_status_listed st (conversations (loaded w1))) by exact Hst.
    now rewrite Hlisted. }
  destruct (cmd_list_prints true true
              (with_status "active" (conversations (loaded w1)))
              (with_status "done" (conversations (loaded w1)))
              (with_status "removed" (conversations (loaded w1))))
    as (r & out & Hout & _).
  exists r, out. split.
  - apply Hout; [|reflexivity|now split].
    destruct (conversations (loaded w1)); [contradiction|reflexivity].
  - apply Hout; [|apply Hst; tauto|intros _; split; apply Hst; tauto].
    destruct (conversations (loaded w2)); [contradiction|reflexivity].
Qed.

(** X23 (listing, a registry of other statuses only): with [all], a
    registry that is not empty but holds no active, done or removed
    conversation makes the listing print nothing at all and return; the
    line for an empty registry is not printed. *)
Theorem list_all_prints_nothing w :
  conversations (loaded w) <> [] ->
  Forall (fun c => ~ listed_status c) (conversations (loaded w)) ->
  cmd_list saved_date true w = (Returned tt, w).
Proof.
  intros Hne Hall.
  unfold cmd_list. rewrite bind_run. unfold load_registry.
  change (default _ (registry_file w)) with (loaded w). cbv beta zeta.
  fold (with_status "active" (conversations (loaded w))).
  fold (with_status "done" (conversations (loaded w))).
  fold (with_status "removed" (conversations (loaded w))).
  rewrite !with_status_none by (exact Hall || tauto).
  destruct (conversations (loaded w)); [contradiction|reflexivity].
Qed.

End Listing.

Lemma list_only_prints_witness :
  (exists out,
     snd (cmd_list example_saved_date true
            (example_world [example_conversation 1 "S1" "active";
                            example_conversation 2 "S2" "done"] None))
     = with_output out
         (example_world [example_conversation 1 "S1" "active";
                         example_conversation 2 "S2" "done"] None)) /\
  fst (cmd_list example_saved_date true
         (example_world [example_conversation 1 "S1" "active";
                         example_conversation 2 "S2" "done"] None))
  = Returned tt.
Proof.
  destruct (list_only_prints example_saved_date true
              (example_world [example_conversation 1 "S1" "active";
                              example_conversation 2 "S2" "done"] None)
              (Returned tt)
              (snd (cmd_list example_saved_date true
                      (example_world [example_conversation 1 "S1" "active";
                                      example_conversation 2 "S2" "done"] None))))
    as [Hout _]; [vm_compute; reflexivity|].
  split; [exact Hout|vm_compute; reflexivity].
Defined.

Lemma list_default_active_only_witness :
  exists r out,
    cmd_list example_saved_date false
      (example_world [example_conversation 1 "S1" "active";
                      example_conversation 2 "S2" "done"] None)
    = (r, with_output out
            (example_world [example_conversation 1 "S1" "active";
                            example_conversation 2 "S2" "done"] None)) /\
    cmd_list example_saved_date false
      (example_world [example_conversation 3 "S3" "removed";
                      example_conversation 1 "S1" "active"]
                     (Some example_history))
    = (r, with_output out
            (example_world [example_conversation 3 "S3" "removed";
                            example_conversation 1 "S1" "active"]
                           (Some example_history))).
Proof.
  apply (list_default_active_only example_saved_date). vm_compute. reflexivity.
Defined.

Lemma list_all_skips_other_statuses_witness :
  exists r out,
    cmd_list example_saved_date true
      (example_world [example_conversation 1 "S1" "active";
                      example_conversation 2 "S2" "archived";
                      example_conversation 3 "S3" "done"] None)
    = (r, with_output out
            (example_world [example_conversation 1 "S1" "active";
                            example_conversation 2 "S2" "archived";
                            example_conversation 3 "S3" "done"] None)) /\
    cmd_list example_saved_date true
      (example_world [example_conversation 1 "S1" "active";
                      example_conversation 3 "S3" "done"] None)
    = (r, with_output out
            (example_world [example_conversation 1 "S1" "active";
                            example_conversation 3 "S3" "done"] None)).
Proof.
  apply (list_all_skips_other_statuses example_saved_date);
    [discriminate|discriminate|vm_compute; reflexivity].
Defined.

Lemma list_all_prints_nothing_witness :
  cmd_list example_saved_date true
    (example_world [example_conversation 3 "S3" "archived"] None)
  = (Returned tt, example_world [example_conversation 3 "S3" "archived"] None).
Proof.
  apply (list_all_prints_nothing example_saved_date); [discriminate|].
  apply Forall_cons_2; [|apply Forall_nil_2].
  vm_compute. intros [H|[H|H]]; discriminate H.
Defined.
